(** * DjangoVerseHub: a shallow embedding of the domain rules

    The development follows the layout of the repository: one module per
    Django app (comments, notifications, articles, users) holding the
    embedded models, managers, signal handlers and views, followed by the
    modules that state and prove the properties of each app.

    Conventions.
    - Database tables are finite maps from primary key to row ([gmap]),
      or row lists where the table has no key of its own.
    - Python integers are [Z]; counts produced by loops that only add
      one are [nat].
    - Timestamps are [Z], in microseconds (the resolution of
      [datetime]); [None] is [option].
    - Code that can raise returns [result]; loops and recursive
      properties carry a fuel argument and answer [OutOfFuel] when it
      is exhausted.
    - Model instances that are shared between a view and a signal
      handler live in an explicit heap of Python objects. *)

From Stdlib Require Import ZArith String Ascii List Bool Lia.
From Stdlib Require Import DecimalString DecimalNat.
From stdpp Require Import gmap strings list fin_maps.

Local Open Scope string_scope.

(* ===================================================================== *)
(** * Python runtime: exceptions and results                             *)
(* ===================================================================== *)

Module Py.

Inductive exn : Type :=
| ValidationError (msg : string)
| AttributeError (attr : string)
| DoesNotExist
| DatabaseError
| IntegrityError
| Http404.

Inductive result (A : Type) : Type :=
| Ok (a : A)
| Raise (e : exn)
| OutOfFuel.

Arguments Ok {A} a.
Arguments Raise {A} e.
Arguments OutOfFuel {A}.

Definition bind {A B} (r : result A) (k : A -> result B) : result B :=
  match r with
  | Ok a => k a
  | Raise e => Raise e
  | OutOfFuel => OutOfFuel
  end.

Definition is_ok {A} (r : result A) : bool :=
  match r with Ok _ => true | _ => false end.

(** [timedelta(minutes=m)] in microseconds. *)
Definition timedelta_minutes (m : Z) : Z := (m * 60 * 1000000)%Z.

(** [str(n)] for a non-negative integer. *)
Definition str (n : nat) : string := NilEmpty.string_of_uint (Nat.to_uint n).

(** The part of [django.contrib.auth] users that the domain rules read.
    Model instances compare equal when their primary keys do. *)
Record User : Type := mkUser {
  user_pk : nat;
  username : string;
  is_staff : bool;
  is_superuser : bool
}.

End Py.

Export Py.

Declare Scope py_scope.
Delimit Scope py_scope with py.
Notation "x <- c1 ;; c2" := (Py.bind c1 (fun x => c2))
  (at level 100, c1 at next level, right associativity) : py_scope.

(* ===================================================================== *)
(** * apps/comments/models.py                                            *)
(* ===================================================================== *)

Module Comments.

(** ** class Comment *)

Record Comment : Type := mkComment {
  id : nat;
  content_type : nat;
  object_id : string;
  author : nat;
  content : string;
  parent : option nat;
  is_active : bool;
  is_flagged : bool;
  is_edited : bool;
  likes_count : Z;
  created_at : Z;
  updated_at : Z
}.

(** The table [comments_comment], keyed by primary key. *)
Abbreviation CommentTable := (gmap nat Comment).

Definition set_content (v : string) (c : Comment) : Comment :=
  mkComment (id c) (content_type c) (object_id c) (author c) v (parent c)
            (is_active c) (is_flagged c) (is_edited c) (likes_count c)
            (created_at c) (updated_at c).

Definition set_is_active (v : bool) (c : Comment) : Comment :=
  mkComment (id c) (content_type c) (object_id c) (author c) (content c)
            (parent c) v (is_flagged c) (is_edited c) (likes_count c)
            (created_at c) (updated_at c).

Definition set_is_flagged (v : bool) (c : Comment) : Comment :=
  mkComment (id c) (content_type c) (object_id c) (author c) (content c)
            (parent c) (is_active c) v (is_edited c) (likes_count c)
            (created_at c) (updated_at c).

Definition set_is_edited (v : bool) (c : Comment) : Comment :=
  mkComment (id c) (content_type c) (object_id c) (author c) (content c)
            (parent c) (is_active c) (is_flagged c) v (likes_count c)
            (created_at c) (updated_at c).

Definition set_likes_count (v : Z) (c : Comment) : Comment :=
  mkComment (id c) (content_type c) (object_id c) (author c) (content c)
            (parent c) (is_active c) (is_flagged c) (is_edited c) v
            (created_at c) (updated_at c).

Definition set_created_at (v : Z) (c : Comment) : Comment :=
  mkComment (id c) (content_type c) (object_id c) (author c) (content c)
            (parent c) (is_active c) (is_flagged c) (is_edited c)
            (likes_count c) v (updated_at c).

Definition set_updated_at (v : Z) (c : Comment) : Comment :=
  mkComment (id c) (content_type c) (object_id c) (author c) (content c)
            (parent c) (is_active c) (is_flagged c) (is_edited c)
            (likes_count c) (created_at c) v.

(** [UPDATE ... SET f = src.f]: the column named [f] of [dst] takes the
    value the instance [src] holds.  The primary key is never written. *)
Definition write_column (f : string) (src dst : Comment) : Comment :=
  if String.eqb f "content_type" then
    mkComment (id dst) (content_type src) (object_id dst) (author dst)
              (content dst) (parent dst) (is_active dst) (is_flagged dst)
              (is_edited dst) (likes_count dst) (created_at dst) (updated_at dst)
  else if String.eqb f "object_id" then
    mkComment (id dst) (content_type dst) (object_id src) (author dst)
              (content dst) (parent dst) (is_active dst) (is_flagged dst)
              (is_edited dst) (likes_count dst) (created_at dst) (updated_at dst)
  else if String.eqb f "author" then
    mkComment (id dst) (content_type dst) (object_id dst) (author src)
              (content dst) (parent dst) (is_active dst) (is_flagged dst)
              (is_edited dst) (likes_count dst) (created_at dst) (updated_at dst)
  else if String.eqb f "content" then set_content (content src) dst
  else if String.eqb f "parent" then
    mkComment (id dst) (content_type dst) (object_id dst) (author dst)
              (content dst) (parent src) (is_active dst) (is_flagged dst)
              (is_edited dst) (likes_count dst) (created_at dst) (updated_at dst)
  else if String.eqb f "is_active" then set_is_active (is_active src) dst
  else if String.eqb f "is_flagged" then set_is_flagged (is_flagged src) dst
  else if String.eqb f "is_edited" then set_is_edited (is_edited src) dst
  else if String.eqb f "likes_count" then set_likes_count (likes_count src) dst
  else if String.eqb f "created_at" then set_created_at (created_at src) dst
  else if String.eqb f "updated_at" then set_updated_at (updated_at src) dst
  else dst.

Definition write_columns (fs : list string) (src dst : Comment) : Comment :=
  fold_left (fun row f => write_column f src row) fs dst.

(** ** Following the [parent] foreign key

    [self.parent] is [None] when the column is null and otherwise the
    row the key names; a key that names no row raises
    [Comment.DoesNotExist]. *)
Definition fetch_parent (tbl : CommentTable) (self : Comment)
  : result (option Comment) :=
  match parent self with
  | None => Ok None
  | Some p =>
      match tbl !! p with
      | Some row => Ok (Some row)
      | None => Raise DoesNotExist
      end
  end.

(** ** Comment.get_thread_depth

    [depth = 0; current = self.parent;
     while current: depth += 1; current = current.parent] *)
Fixpoint thread_depth_loop (fuel : nat) (tbl : CommentTable)
         (current : option Comment) (depth : nat) : result nat :=
  match current with
  | None => Ok depth
  | Some cur =>
      match fuel with
      | O => OutOfFuel
      | S fuel' =>
          (next <- fetch_parent tbl cur ;;
           thread_depth_loop fuel' tbl next (depth + 1))%py
      end
  end.

Definition get_thread_depth (fuel : nat) (tbl : CommentTable) (self : Comment)
  : result nat :=
  (current <- fetch_parent tbl self ;;
   thread_depth_loop fuel tbl current 0)%py.

(** ** Comment.clean *)
Definition same_object_msg : string := "Parent comment must be on the same object".
Definition too_deep_msg : string := "Comment thread too deep".

Definition clean (fuel : nat) (tbl : CommentTable) (self : Comment)
  : result unit :=
  (p <- fetch_parent tbl self ;;
   match p with
   | None => Ok tt
   | Some par =>
       if negb (Nat.eqb (content_type par) (content_type self)) then
         Raise (ValidationError same_object_msg)
       else if negb (String.eqb (object_id par) (object_id self)) then
         Raise (ValidationError same_object_msg)
       else
         (depth <- get_thread_depth fuel tbl self ;;
          if Nat.ltb 3 depth then Raise (ValidationError too_deep_msg)
          else Ok tt)
   end)%py.

(** ** Model.save, as [Comment.save] reaches it through [super().save]

    With [update_fields] only the listed columns of the stored row are
    written (an [auto_now] column among them is stamped first).  Without
    it the instance replaces the row with its key.  An instance with no
    row is one that was never saved (no code path modelled here removes a
    comment row): its UUID key has a default, so Django skips the UPDATE
    and inserts all its columns, with [update_fields] as without.
    [auto_now] stamps [updated_at] and, on insert, [auto_now_add] stamps
    [created_at].  The result is the instance after the call, the table,
    and whether a row was created. *)
Definition model_save (tbl : CommentTable) (self : Comment)
           (update_fields : option (list string)) (now : Z)
  : result (Comment * CommentTable * bool) :=
  match update_fields with
  | Some fs =>
      match tbl !! id self with
      | Some row =>
          let self' :=
            if existsb (String.eqb "updated_at") fs then set_updated_at now self
            else self in
          Ok (self', <[id self := write_columns fs self' row]> tbl, false)
      | None =>
          let self' := set_updated_at now (set_created_at now self) in
          Ok (self', <[id self := self']> tbl, true)
      end
  | None =>
      match tbl !! id self with
      | Some _ =>
          let self' := set_updated_at now self in
          Ok (self', <[id self := self']> tbl, false)
      | None =>
          let self' := set_updated_at now (set_created_at now self) in
          Ok (self', <[id self := self']> tbl, true)
      end
  end.

(** ** Comment.save: [self.clean(); super().save(...)] *)
Definition save (fuel : nat) (tbl : CommentTable) (self : Comment)
           (update_fields : option (list string)) (now : Z)
  : result (Comment * CommentTable * bool) :=
  (_ <- clean fuel tbl self ;;
   model_save tbl self update_fields now)%py.

(** ** Comment.soft_delete *)
Definition deleted_placeholder : string := "[Comment deleted]".

Definition soft_delete (fuel : nat) (tbl : CommentTable) (self : Comment) (now : Z)
  : result (Comment * CommentTable) :=
  let self1 := set_is_active false self in
  let self2 := set_content deleted_placeholder self1 in
  (saved <- save fuel tbl self2 (Some ["is_active"; "content"]) now ;;
   Ok (saved.1.1, saved.1.2))%py.

(** ** Comment.can_edit and Comment.can_delete *)
Definition can_edit (self : Comment) (user : User) (now : Z) : bool :=
  if Nat.eqb (user_pk user) (author self) then
    let edit_window := (now - timedelta_minutes 15)%Z in
    Z.ltb edit_window (created_at self)
  else
    is_staff user || is_superuser user.

Definition can_delete (self : Comment) (user : User) : bool :=
  Nat.eqb (user_pk user) (author self) || is_staff user || is_superuser user.

(** ** CommentManager *)
Definition rows (tbl : CommentTable) : list Comment :=
  (map_to_list tbl).*2.

Definition active (tbl : CommentTable) : list Comment :=
  List.filter (fun c => is_active c) (rows tbl).


(** [self.replies.filter(is_active=True)] *)
Definition active_replies (tbl : CommentTable) (self : Comment) : list Comment :=
  List.filter
    (fun c => match parent c with
              | Some p => Nat.eqb p (id self)
              | None => false
              end && is_active c)
    (rows tbl).

Definition reply_count (tbl : CommentTable) (self : Comment) : nat :=
  length (active_replies tbl self).

(** ** Comment.total_replies

    [count = 0
     for reply in self.replies.filter(is_active=True):
         count += 1 + reply.total_replies] *)
Fixpoint total_replies (fuel : nat) (tbl : CommentTable) (self : Comment)
  : result nat :=
  match fuel with
  | O => OutOfFuel
  | S fuel' =>
      fold_left
        (fun acc reply =>
           (count <- acc ;;
            sub <- total_replies fuel' tbl reply ;;
            Ok (count + (1 + sub)))%py)
        (active_replies tbl self) (Ok 0)
  end.

End Comments.

(* ===================================================================== *)
(** * apps/comments/signals.py and the like views of apps/comments/views.py *)
(* ===================================================================== *)

Module CommentLikes.
Import Comments.

(** ** class CommentLike: a row of [comments_commentlike]

    [unique_together = ['comment', 'user']]. *)
Record CommentLike : Type := mkCommentLike {
  comment : nat;
  user : nat;
  liked_at : Z
}.

(** A [CommentLike] instance in memory: the row, and the related
    [Comment] object when the [comment] attribute already holds one
    (an address in the heap).  [CommentLike(comment=c, user=u)] stores
    the very object [c]; an instance read back with [get] holds only
    the key and loads the comment on first access. *)
Record LikeInstance : Type := mkLikeInstance {
  like_row : CommentLike;
  comment_cache : option nat
}.

(** Celery jobs handed to the broker with [.delay]. *)
Inductive Task : Type :=
| send_comment_notification (comment_id recipient_id : nat) (is_reply : bool)
| send_comment_like_notification (comment_id liker_id : nat)
| moderate_comment (comment_id : nat).

(** The database, the heap of Python [Comment] objects (addressed by
    position) and the broker queue.  [targets] resolves a generic key
    (content type, object id) to the commented object: [Some a] when
    it has an [author] attribute with key [a], [None] when it lacks
    one; an absent key is a [content_object] of [None]. *)
Record World : Type := mkWorld {
  comments_tbl : CommentTable;
  likes_tbl : list CommentLike;
  targets : gmap (nat * string) (option nat);
  heap : list Comment;
  queue : list Task
}.

(** Computations on the world.  The world is returned also when the
    computation raises: what was written before the exception stays
    written, unless a transaction undoes it ([atomic] below). *)
Definition M (A : Type) : Type := World -> result A * World.

Definition ret {A} (a : A) : M A := fun w => (Ok a, w).
Definition raise {A} (e : exn) : M A := fun w => (Raise e, w).
Definition mbind {A B} (m : M A) (k : A -> M B) : M B :=
  fun w => match m w with
           | (Ok a, w') => k a w'
           | (Raise e, w') => (Raise e, w')
           | (OutOfFuel, w') => (OutOfFuel, w')
           end.

Declare Scope world_scope.
Delimit Scope world_scope with world.
Notation "x <~ c1 ;; c2" := (mbind c1 (fun x => c2))
  (at level 100, c1 at next level, right associativity) : world_scope.
Notation "c1 ;;; c2" := (mbind c1 (fun _ => c2))
  (at level 100, right associativity) : world_scope.
Local Open Scope world_scope.

Definition with_comments (t : CommentTable) (w : World) : World :=
  mkWorld t (likes_tbl w) (targets w) (heap w) (queue w).
Definition with_likes (l : list CommentLike) (w : World) : World :=
  mkWorld (comments_tbl w) l (targets w) (heap w) (queue w).
Definition with_heap (h : list Comment) (w : World) : World :=
  mkWorld (comments_tbl w) (likes_tbl w) (targets w) h (queue w).
Definition with_queue (q : list Task) (w : World) : World :=
  mkWorld (comments_tbl w) (likes_tbl w) (targets w) (heap w) q.

Definition get_world : M World := fun w => (Ok w, w).
Definition modify (f : World -> World) : M unit := fun w => (Ok tt, f w).

(** [with transaction.atomic():] when the block is left by an exception
    the two tables are as they were on entry.  Python objects are not
    restored, and neither are jobs already handed to the broker with
    [.delay]. *)
Definition atomic {A} (m : M A) : M A :=
  fun w => match m w with
           | (Ok a, w') => (Ok a, w')
           | (Raise e, w') =>
               (Raise e, with_comments (comments_tbl w) (with_likes (likes_tbl w) w'))
           | (OutOfFuel, w') =>
               (OutOfFuel, with_comments (comments_tbl w) (with_likes (likes_tbl w) w'))
           end.

(** ** Python objects *)

(** A new object; its address is returned. *)
Definition alloc (c : Comment) : M nat :=
  fun w => (Ok (length (heap w)), with_heap (heap w ++ [c]) w).

(** Reading through a reference. *)
Definition deref (a : nat) : M Comment :=
  fun w => match heap w !! a with
           | Some c => (Ok c, w)
           | None => (Raise (AttributeError "dangling reference"), w)
           end.

(** Attribute assignment through a reference. *)
Definition assign (a : nat) (f : Comment -> Comment) : M unit :=
  fun w => match heap w !! a with
           | Some c => (Ok tt, with_heap (<[a := f c]> (heap w)) w)
           | None => (Raise (AttributeError "dangling reference"), w)
           end.

Definition delay (t : Task) : M unit :=
  modify (fun w => with_queue (queue w ++ [t]) w).

(** ** Queries *)

(** [Comment.objects.get(pk=k)]: a fresh object for the stored row. *)
Definition load_comment (k : nat) : M nat :=
  w <~ get_world ;;
  match comments_tbl w !! k with
  | Some row => alloc row
  | None => raise DoesNotExist
  end.

(** [get_object_or_404(Comment, id=k, is_active=True)] *)
Definition get_object_or_404 (k : nat) : M nat :=
  w <~ get_world ;;
  match comments_tbl w !! k with
  | Some row => if is_active row then alloc row else raise Http404
  | None => raise Http404
  end.

Definition like_matches (c u : nat) (l : CommentLike) : bool :=
  Nat.eqb (comment l) c && Nat.eqb (user l) u.

(** [comment.likes.count()] *)
Definition likes_count_query (c : nat) (w : World) : Z :=
  Z.of_nat (length (List.filter (fun l => Nat.eqb (comment l) c) (likes_tbl w))).

(** [instance.comment]: the object the instance already holds, or a
    fresh one loaded through the foreign key. *)
Definition like_comment (inst : LikeInstance) : M nat :=
  match comment_cache inst with
  | Some a => ret a
  | None => load_comment (comment (like_row inst))
  end.

(** ** post_save of Comment (apps/comments/signals.py) *)
Definition comment_post_save (instance : nat) (created : bool) : M unit :=
  if created then
    self <~ deref instance ;;
    w <~ get_world ;;
    (match targets w !! (content_type self, object_id self) with
     | Some (Some content_author) =>
         if negb (Nat.eqb content_author (author self)) then
           delay (send_comment_notification (id self) content_author false)
         else ret tt
     | _ => ret tt
     end) ;;;
    (match parent self with
     | Some p =>
         match comments_tbl w !! p with
         | Some par =>
             if negb (Nat.eqb (author par) (author self)) then
               delay (send_comment_notification (id self) (author par) true)
             else ret tt
         | None => raise DoesNotExist
         end
     | None => ret tt
     end) ;;;
    delay (moderate_comment (id self))
  else ret tt.

(** ** Comment.save on an object of the heap, with its signal *)
Definition Comment_save (fuel : nat) (a : nat)
           (update_fields : option (list string)) (now : Z) : M unit :=
  self <~ deref a ;;
  saved <~ (fun w =>
              match Comments.save fuel (comments_tbl w) self update_fields now with
              | Ok (self', tbl', created) =>
                  (Ok (self', created), with_comments tbl' w)
              | Raise e => (Raise e, w)
              | OutOfFuel => (OutOfFuel, w)
              end) ;;
  assign a (fun _ => saved.1) ;;;
  comment_post_save a saved.2.

(** ** post_save of CommentLike *)
Definition comment_like_post_save (fuel : nat) (instance : LikeInstance)
           (created : bool) (now : Z) : M unit :=
  if created then
    c <~ like_comment instance ;;
    w <~ get_world ;;
    assign c (set_likes_count (likes_count_query (comment (like_row instance)) w)) ;;;
    Comment_save fuel c (Some ["likes_count"]) now ;;;
    self <~ deref c ;;
    if negb (Nat.eqb (author self) (user (like_row instance))) then
      delay (send_comment_like_notification (id self) (user (like_row instance)))
    else ret tt
  else ret tt.

(** ** post_delete of CommentLike *)
Definition comment_like_post_delete (fuel : nat) (instance : LikeInstance)
           (now : Z) : M unit :=
  c <~ like_comment instance ;;
  w <~ get_world ;;
  assign c (set_likes_count
              (Z.max 0 (likes_count_query (comment (like_row instance)) w))) ;;;
  Comment_save fuel c (Some ["likes_count"]) now.

(** ** CommentLike.objects.get_or_create(comment=comment, user=user)

    [comment_obj] is the address of the [comment] argument and [c] its
    key.  A missing row is created inside [transaction.atomic], and
    [create] sends [post_save] before the block ends: when the handler
    raises, the INSERT and what the handler wrote to the tables are
    rolled back. *)
Definition get_or_create (fuel : nat) (comment_obj c u : nat) (now : Z)
  : M (LikeInstance * bool) :=
  w <~ get_world ;;
  match List.find (like_matches c u) (likes_tbl w) with
  | Some row => ret (mkLikeInstance row None, false)
  | None =>
      let row := mkCommentLike c u now in
      let inst := mkLikeInstance row (Some comment_obj) in
      atomic
        (modify (fun w => with_likes (likes_tbl w ++ [row]) w) ;;;
         comment_like_post_save fuel inst true now ;;;
         ret (inst, true))
  end.

(** ** like.delete()

    [CommentLike] has a [post_delete] receiver, so the collector takes
    no fast path: it deletes the row and sends [post_delete] inside one
    [transaction.atomic], and a handler that raises undoes the DELETE. *)
Definition like_delete (fuel : nat) (inst : LikeInstance) (now : Z) : M unit :=
  atomic
    (modify (fun w =>
               with_likes
                 (List.filter
                    (fun l => negb (like_matches (comment (like_row inst))
                                                 (user (like_row inst)) l))
                    (likes_tbl w)) w) ;;;
     comment_like_post_delete fuel inst now).

(** ** comment_like_view *)
Inductive JsonResponse : Type :=
| JsonError (error : string) (status : nat)
| JsonLiked (liked : bool) (likes_count : Z).

Definition comment_like_view (fuel : nat) (method : string)
           (request_user : User) (comment_id : nat) (now : Z)
  : M JsonResponse :=
  if negb (String.eqb method "POST") then
    ret (JsonError "Invalid method" 405)
  else
    cobj <~ get_object_or_404 comment_id ;;
    lc <~ get_or_create fuel cobj comment_id (user_pk request_user) now ;;
    liked <~ (if negb lc.2 then
                like_delete fuel lc.1 now ;;;
                assign cobj (fun c => set_likes_count (Z.max 0 (likes_count c - 1)) c) ;;;
                ret false
              else
                assign cobj (fun c => set_likes_count (likes_count c + 1) c) ;;;
                ret true) ;;
    Comment_save fuel cobj (Some ["likes_count"]) now ;;;
    self <~ deref cobj ;;
    ret (JsonLiked liked (likes_count self)).

(** The toggle as a transition on the world: the response is dropped. *)
Definition toggle (fuel : nat) (request_user : User) (comment_id : nat)
           (now : Z) (w : World) : World :=
  (comment_like_view fuel "POST" request_user comment_id now w).2.

(** The stored [likes_count] of a comment. *)
Definition stored_likes_count (k : nat) (w : World) : option Z :=
  likes_count <$> comments_tbl w !! k.

(** The [CommentLike] rows of a pair (comment, user). *)
Definition likes_of (c u : nat) (w : World) : list CommentLike :=
  List.filter (like_matches c u) (likes_tbl w).

End CommentLikes.

(* ===================================================================== *)
(** * apps/notifications: models.py, views.py, signals.py                *)
(* ===================================================================== *)

Module Notifications.

Inductive NotificationType : Type :=
| like | comment | follow | mention | post | system.

(** ** class Notification *)
Record Notification : Type := mkNotification {
  id : nat;
  recipient : nat;
  sender : option nat;
  notification_type : NotificationType;
  message : string;
  content_type : option nat;
  object_id : option string;
  is_read : bool;
  created_at : Z;
  read_at : option Z
}.

Abbreviation NotificationTable := (gmap nat Notification).

Definition set_is_read (v : bool) (n : Notification) : Notification :=
  mkNotification (id n) (recipient n) (sender n) (notification_type n)
                 (message n) (content_type n) (object_id n) v
                 (created_at n) (read_at n).

Definition set_read_at (v : option Z) (n : Notification) : Notification :=
  mkNotification (id n) (recipient n) (sender n) (notification_type n)
                 (message n) (content_type n) (object_id n) (is_read n)
                 (created_at n) v.

(** [self.save(update_fields=['is_read', 'read_at'])]: the two columns
    of the stored row take the values of the instance. *)
Definition save_read_state (tbl : NotificationTable) (self : Notification)
  : result NotificationTable :=
  match tbl !! id self with
  | Some row =>
      Ok (<[id self := set_read_at (read_at self) (set_is_read (is_read self) row)]> tbl)
  | None => Raise DatabaseError
  end.

(** ** Names of [django.db.models]

    notifications/models.py binds [models] to the package
    [django.db.models] ([from django.db import models]) and imports no
    clock.  An attribute of that package is one of its public names or
    one of its submodules; [timezone], which lives in [django.utils],
    is not among them. *)
Definition django_db_models : list string :=
  ["Aggregate"; "Avg"; "Count"; "Max"; "Min"; "StdDev"; "Sum"; "Variance";
   "BaseConstraint"; "CheckConstraint"; "Deferrable"; "UniqueConstraint";
   "Choices"; "IntegerChoices"; "TextChoices";
   "AutoField"; "BLANK_CHOICE_DASH"; "BigAutoField"; "BigIntegerField";
   "BinaryField"; "BooleanField"; "CharField"; "CommaSeparatedIntegerField";
   "DateField"; "DateTimeField"; "DecimalField"; "DurationField";
   "EmailField"; "Empty"; "Field"; "FilePathField"; "FloatField";
   "GenericIPAddressField"; "IPAddressField"; "IntegerField"; "NOT_PROVIDED";
   "NullBooleanField"; "PositiveBigIntegerField"; "PositiveIntegerField";
   "PositiveSmallIntegerField"; "SlugField"; "SmallAutoField";
   "SmallIntegerField"; "TextField"; "TimeField"; "URLField"; "UUIDField";
   "Index"; "ObjectDoesNotExist"; "signals";
   "CASCADE"; "DO_NOTHING"; "PROTECT"; "RESTRICT"; "SET"; "SET_DEFAULT";
   "SET_NULL"; "ProtectedError"; "RestrictedError";
   "Case"; "Exists"; "Expression"; "ExpressionList"; "ExpressionWrapper";
   "F"; "Func"; "OrderBy"; "OuterRef"; "RowRange"; "Subquery"; "Value";
   "ValueRange"; "When"; "Window"; "WindowFrame";
   "FileField"; "ImageField"; "JSONField"; "OrderWrt"; "Lookup"; "Transform";
   "Manager"; "Prefetch"; "QuerySet"; "prefetch_related_objects";
   "DEFERRED"; "Model"; "FilteredRelation"; "Q";
   "ForeignKey"; "ForeignObject"; "OneToOneField"; "ManyToManyField";
   "ForeignObjectRel"; "ManyToOneRel"; "ManyToManyRel"; "OneToOneRel";
   "aggregates"; "base"; "constants"; "constraints"; "deletion"; "enums";
   "expressions"; "fields"; "functions"; "indexes"; "lookups"; "manager";
   "options"; "query"; "query_utils"; "sql"; "utils"].

(** [models.<name>] *)
Definition models_getattr (name : string) : result string :=
  if existsb (String.eqb name) django_db_models then Ok name
  else Raise (AttributeError name).

(** ** Notification.mark_as_read

    [self.read_at = models.timezone.now()]; [now] is the time of the
    call.  The result is the instance after the call and the table. *)
Definition mark_as_read (tbl : NotificationTable) (self : Notification) (now : Z)
  : result (Notification * NotificationTable) :=
  if negb (is_read self) then
    let self1 := set_is_read true self in
    (timezone <- models_getattr "timezone" ;;
     let self2 := set_read_at (Some now) self1 in
     tbl' <- save_read_state tbl self2 ;; Ok (self2, tbl'))%py
  else Ok (self, tbl).

(** ** views.py *)
Inductive Response : Type :=
| Success
| SuccessCount (marked_count : nat)
| NotFound (error : string).

(** [Notification.objects.get(id=notification_id, recipient=request.user)] *)
Definition get_for_recipient (tbl : NotificationTable) (notification_id user : nat)
  : option Notification :=
  match tbl !! notification_id with
  | Some n => if Nat.eqb (recipient n) user then Some n else None
  | None => None
  end.

Definition mark_notification_read (tbl : NotificationTable)
           (request_user : User) (notification_id : nat) (now : Z)
  : result (Response * NotificationTable) :=
  match get_for_recipient tbl notification_id (user_pk request_user) with
  | Some notification =>
      (r <- mark_as_read tbl notification now ;; Ok (Success, r.2))%py
  | None => Ok (NotFound "Notification not found", tbl)
  end.

(** The rows selected by [filter(recipient=user, is_read=False)]. *)
Definition unread_of (user : nat) (n : Notification) : bool :=
  Nat.eqb (recipient n) user && negb (is_read n).

(** [Notification.objects.filter(recipient=request.user,
    is_read=False).update(is_read=True)] *)
Definition mark_all_notifications_read (tbl : NotificationTable)
           (request_user : User) : Response * NotificationTable :=
  let count :=
    length (List.filter (unread_of (user_pk request_user)) (map_to_list tbl).*2) in
  (SuccessCount count,
   (fun n => if unread_of (user_pk request_user) n then set_is_read true n else n)
     <$> tbl).

Definition unread_count (tbl : NotificationTable) (request_user : User) : nat :=
  length (List.filter (unread_of (user_pk request_user)) (map_to_list tbl).*2).

(** ** signals.py: create_comment_notification

    The handler receives a [Comment] of apps/comments/models.py and
    reads attributes of it by name. *)

(** Values an attribute of a [Comment] can hold. *)
Inductive pyval : Type :=
| PInt (z : Z)
| PStr (s : string)
| PBool (b : bool)
| PNone
| PUser (pk : nat)
| PComment (pk : nat)
| PContentType (pk : nat)
| PObject (ct : nat) (pk : string)
| PMember (name : string).

(** Relations, managers, properties and methods that [Comment]
    declares besides its columns. *)
Definition Comment_members : list string :=
  ["objects"; "replies"; "likes"; "clean"; "save"; "get_absolute_url";
   "is_root"; "reply_count"; "total_replies"; "get_thread_depth";
   "get_replies_tree"; "can_edit"; "can_delete"; "mark_as_edited";
   "flag"; "soft_delete"].

(** [getattr(instance, name)] for a [Comment]. *)
Definition Comment_getattr (instance : Comments.Comment) (name : string)
  : result pyval :=
  if String.eqb name "id" then Ok (PInt (Z.of_nat (Comments.id instance)))
  else if String.eqb name "pk" then Ok (PInt (Z.of_nat (Comments.id instance)))
  else if String.eqb name "content_type" then
    Ok (PContentType (Comments.content_type instance))
  else if String.eqb name "object_id" then Ok (PStr (Comments.object_id instance))
  else if String.eqb name "content_object" then
    Ok (PObject (Comments.content_type instance) (Comments.object_id instance))
  else if String.eqb name "author" then Ok (PUser (Comments.author instance))
  else if String.eqb name "content" then Ok (PStr (Comments.content instance))
  else if String.eqb name "parent" then
    Ok (match Comments.parent instance with
        | Some p => PComment p
        | None => PNone
        end)
  else if String.eqb name "is_active" then Ok (PBool (Comments.is_active instance))
  else if String.eqb name "is_flagged" then Ok (PBool (Comments.is_flagged instance))
  else if String.eqb name "is_edited" then Ok (PBool (Comments.is_edited instance))
  else if String.eqb name "likes_count" then Ok (PInt (Comments.likes_count instance))
  else if String.eqb name "created_at" then Ok (PInt (Comments.created_at instance))
  else if String.eqb name "updated_at" then Ok (PInt (Comments.updated_at instance))
  else if existsb (String.eqb name) Comment_members then Ok (PMember name)
  else Raise (AttributeError name).

(** What the handler needs of the environment: the users, and the
    objects a generic key can name with their author and integer key. *)
Record Env : Type := mkEnv {
  users : gmap nat User;
  objects : gmap (nat * string) (nat * nat)
}.

(** [v.author] *)
Definition attr_author (env : Env) (v : pyval) : result nat :=
  match v with
  | PObject ct pk =>
      match objects env !! (ct, pk) with
      | Some (a, _) => Ok a
      | None => Raise (AttributeError "author")
      end
  | PComment _ => Raise DoesNotExist
  | _ => Raise (AttributeError "author")
  end.

Definition as_user (v : pyval) : result nat :=
  match v with
  | PUser pk => Ok pk
  | _ => Raise (AttributeError "username")
  end.

(** The next value of the table's [AutoField]. *)
Definition next_id (tbl : NotificationTable) : nat :=
  S (foldr Nat.max 0 (map_to_list tbl).*1).

(** Frames pushed to the recipient's channel group. *)
Inductive Frame : Type :=
| notification_message (group : nat) (n : Notification)
| unread_count_update (group : nat) (count : nat).

(** [send_notification_to_user]; [channel_layer] tells whether
    [get_channel_layer()] returned a layer. *)
Definition send_notification_to_user (channel_layer : bool)
           (tbl : NotificationTable) (n : Notification) : list Frame :=
  if channel_layer then
    [notification_message (recipient n) n;
     unread_count_update (recipient n)
       (length (List.filter (unread_of (recipient n)) (map_to_list tbl).*2))]
  else [].

(** [create_comment_notification(sender, instance, created)]:
    [if created and instance.author != instance.post.author: ...] *)
Definition create_comment_notification (env : Env) (channel_layer : bool)
           (tbl : NotificationTable) (instance : Comments.Comment)
           (created : bool) (now : Z)
  : result (NotificationTable * list Frame) :=
  if created then
    (a <- Comment_getattr instance "author" ;;
     author_pk <- as_user a ;;
     p <- Comment_getattr instance "post" ;;
     post_author <- attr_author env p ;;
     if negb (Nat.eqb author_pk post_author) then
       let name := match users env !! author_pk with
                   | Some u => username u
                   | None => ""
                   end in
       let n := mkNotification (next_id tbl) post_author (Some author_pk) comment
                               (name ++ " commented on your post")
                               (match p with PObject ct _ => Some ct | _ => None end)
                               (match p with PObject _ pk => Some pk | _ => None end)
                               false now None in
       let tbl' := <[id n := n]> tbl in
       Ok (tbl', send_notification_to_user channel_layer tbl' n)
     else Ok (tbl, []))%py
  else Ok (tbl, []).

(** The notifications about a comment of [b] for recipient [a]. *)
Definition comment_notifications (tbl : NotificationTable) (a b : nat)
  : list Notification :=
  List.filter
    (fun n => Nat.eqb (recipient n) a
              && match sender n with Some s => Nat.eqb s b | None => false end
              && match notification_type n with comment => true | _ => false end)
    (map_to_list tbl).*2.

End Notifications.

(* ===================================================================== *)
(** * django_verse_hub/utils.py and apps/articles/models.py              *)
(* ===================================================================== *)

Module Articles.

(** ** class Article *)
Record Article : Type := mkArticle {
  id : nat;
  title : string;
  slug : string;
  author : nat;
  category : option nat;
  summary : string;
  content : string;
  status : string;
  published_at : option Z;
  is_featured : bool;
  allow_comments : bool;
  meta_description : string;
  meta_keywords : string;
  views_count : Z;
  likes_count : Z;
  shares_count : Z;
  created_at : Z;
  updated_at : Z
}.

Abbreviation ArticleTable := (gmap nat Article).

Definition set_title (v : string) (a : Article) : Article :=
  mkArticle (id a) v (slug a) (author a) (category a) (summary a)
            (content a) (status a) (published_at a) (is_featured a)
            (allow_comments a) (meta_description a) (meta_keywords a)
            (views_count a) (likes_count a) (shares_count a) (created_at a)
            (updated_at a).

Definition set_slug (v : string) (a : Article) : Article :=
  mkArticle (id a) (title a) v (author a) (category a) (summary a)
            (content a) (status a) (published_at a) (is_featured a)
            (allow_comments a) (meta_description a) (meta_keywords a)
            (views_count a) (likes_count a) (shares_count a) (created_at a)
            (updated_at a).

Definition set_author (v : nat) (a : Article) : Article :=
  mkArticle (id a) (title a) (slug a) v (category a) (summary a) (content a)
            (status a) (published_at a) (is_featured a) (allow_comments a)
            (meta_description a) (meta_keywords a) (views_count a)
            (likes_count a) (shares_count a) (created_at a) (updated_at a).

Definition set_category (v : option nat) (a : Article) : Article :=
  mkArticle (id a) (title a) (slug a) (author a) v (summary a) (content a)
            (status a) (published_at a) (is_featured a) (allow_comments a)
            (meta_description a) (meta_keywords a) (views_count a)
            (likes_count a) (shares_count a) (created_at a) (updated_at a).

Definition set_summary (v : string) (a : Article) : Article :=
  mkArticle (id a) (title a) (slug a) (author a) (category a) v (content a)
            (status a) (published_at a) (is_featured a) (allow_comments a)
            (meta_description a) (meta_keywords a) (views_count a)
            (likes_count a) (shares_count a) (created_at a) (updated_at a).

Definition set_content (v : string) (a : Article) : Article :=
  mkArticle (id a) (title a) (slug a) (author a) (category a) (summary a) v
            (status a) (published_at a) (is_featured a) (allow_comments a)
            (meta_description a) (meta_keywords a) (views_count a)
            (likes_count a) (shares_count a) (created_at a) (updated_at a).

Definition set_status (v : string) (a : Article) : Article :=
  mkArticle (id a) (title a) (slug a) (author a) (category a) (summary a)
            (content a) v (published_at a) (is_featured a)
            (allow_comments a) (meta_description a) (meta_keywords a)
            (views_count a) (likes_count a) (shares_count a) (created_at a)
            (updated_at a).

Definition set_published_at (v : option Z) (a : Article) : Article :=
  mkArticle (id a) (title a) (slug a) (author a) (category a) (summary a)
            (content a) (status a) v (is_featured a) (allow_comments a)
            (meta_description a) (meta_keywords a) (views_count a)
            (likes_count a) (shares_count a) (created_at a) (updated_at a).

Definition set_is_featured (v : bool) (a : Article) : Article :=
  mkArticle (id a) (title a) (slug a) (author a) (category a) (summary a)
            (content a) (status a) (published_at a) v (allow_comments a)
            (meta_description a) (meta_keywords a) (views_count a)
            (likes_count a) (shares_count a) (created_at a) (updated_at a).

Definition set_allow_comments (v : bool) (a : Article) : Article :=
  mkArticle (id a) (title a) (slug a) (author a) (category a) (summary a)
            (content a) (status a) (published_at a) (is_featured a) v
            (meta_description a) (meta_keywords a) (views_count a)
            (likes_count a) (shares_count a) (created_at a) (updated_at a).

Definition set_meta_description (v : string) (a : Article) : Article :=
  mkArticle (id a) (title a) (slug a) (author a) (category a) (summary a)
            (content a) (status a) (published_at a) (is_featured a)
            (allow_comments a) v (meta_keywords a) (views_count a)
            (likes_count a) (shares_count a) (created_at a) (updated_at a).

Definition set_meta_keywords (v : string) (a : Article) : Article :=
  mkArticle (id a) (title a) (slug a) (author a) (category a) (summary a)
            (content a) (status a) (published_at a) (is_featured a)
            (allow_comments a) (meta_description a) v (views_count a)
            (likes_count a) (shares_count a) (created_at a) (updated_at a).

Definition set_views_count (v : Z) (a : Article) : Article :=
  mkArticle (id a) (title a) (slug a) (author a) (category a) (summary a)
            (content a) (status a) (published_at a) (is_featured a)
            (allow_comments a) (meta_description a) (meta_keywords a) v
            (likes_count a) (shares_count a) (created_at a) (updated_at a).

Definition set_likes_count (v : Z) (a : Article) : Article :=
  mkArticle (id a) (title a) (slug a) (author a) (category a) (summary a)
            (content a) (status a) (published_at a) (is_featured a)
            (allow_comments a) (meta_description a) (meta_keywords a)
            (views_count a) v (shares_count a) (created_at a) (updated_at a).

Definition set_shares_count (v : Z) (a : Article) : Article :=
  mkArticle (id a) (title a) (slug a) (author a) (category a) (summary a)
            (content a) (status a) (published_at a) (is_featured a)
            (allow_comments a) (meta_description a) (meta_keywords a)
            (views_count a) (likes_count a) v (created_at a) (updated_at a).

Definition set_created_at (v : Z) (a : Article) : Article :=
  mkArticle (id a) (title a) (slug a) (author a) (category a) (summary a)
            (content a) (status a) (published_at a) (is_featured a)
            (allow_comments a) (meta_description a) (meta_keywords a)
            (views_count a) (likes_count a) (shares_count a) v
            (updated_at a).

Definition set_updated_at (v : Z) (a : Article) : Article :=
  mkArticle (id a) (title a) (slug a) (author a) (category a) (summary a)
            (content a) (status a) (published_at a) (is_featured a)
            (allow_comments a) (meta_description a) (meta_keywords a)
            (views_count a) (likes_count a) (shares_count a) (created_at a)
            v.

(** [UPDATE ... SET f = src.f] for one column; the key is never written. *)
Definition write_column (f : string) (src dst : Article) : Article :=
  if String.eqb f "title" then set_title (title src) dst
  else if String.eqb f "slug" then set_slug (slug src) dst
  else if String.eqb f "author" then set_author (author src) dst
  else if String.eqb f "category" then set_category (category src) dst
  else if String.eqb f "summary" then set_summary (summary src) dst
  else if String.eqb f "content" then set_content (content src) dst
  else if String.eqb f "status" then set_status (status src) dst
  else if String.eqb f "published_at" then set_published_at (published_at src) dst
  else if String.eqb f "is_featured" then set_is_featured (is_featured src) dst
  else if String.eqb f "allow_comments" then set_allow_comments (allow_comments src) dst
  else if String.eqb f "meta_description" then set_meta_description (meta_description src) dst
  else if String.eqb f "meta_keywords" then set_meta_keywords (meta_keywords src) dst
  else if String.eqb f "views_count" then set_views_count (views_count src) dst
  else if String.eqb f "likes_count" then set_likes_count (likes_count src) dst
  else if String.eqb f "shares_count" then set_shares_count (shares_count src) dst
  else if String.eqb f "created_at" then set_created_at (created_at src) dst
  else if String.eqb f "updated_at" then set_updated_at (updated_at src) dst
  else dst.

Definition write_columns (fs : list string) (src dst : Article) : Article :=
  fold_left (fun row f => write_column f src row) fs dst.

(** Truth value of an optional [datetime]: only [None] is false. *)
Definition is_set (t : option Z) : bool :=
  match t with Some _ => true | None => false end.

(** ** generate_unique_slug

    [instance.__class__.objects.filter(slug=s).exists()] *)
Definition slug_exists (tbl : ArticleTable) (s : string) : bool :=
  existsb (fun a => String.eqb (slug a) s) (map_to_list tbl).*2.

(** [while exists(unique_slug): unique_slug = f'{slug}-{num}'; num += 1] *)
Fixpoint unique_slug_loop (fuel : nat) (tbl : ArticleTable)
         (slug unique_slug : string) (num : nat) : result string :=
  if slug_exists tbl unique_slug then
    match fuel with
    | O => OutOfFuel
    | S fuel' =>
        unique_slug_loop fuel' tbl slug (slug ++ "-" ++ str num) (num + 1)
    end
  else Ok unique_slug.

Section WithSlugify.

(** [django.utils.text.slugify] *)
Variable slugify : string -> string.

Definition generate_unique_slug (fuel : nat) (tbl : ArticleTable)
           (instance : Article) : result string :=
  let slug := slugify (title instance) in
  unique_slug_loop fuel tbl slug slug 1.

(** [self.content[:150] + '...' if len(self.content) > 150 else self.content] *)
Definition default_meta_description (c : string) : string :=
  if Nat.ltb 150 (String.length c) then String.substring 0 150 c ++ "..."
  else c.

(** [super().save] with the arguments of the caller.  Without
    [update_fields] the
    row is inserted, or replaces the row with the same key, and
    [auto_now] stamps [updated_at] ([auto_now_add] stamps
    [created_at] on insert).  With [update_fields] only the listed
    columns of the stored row are written.  An instance with no row is
    one that was never saved (nothing modelled here removes an article
    row): its UUID key has a default, so Django inserts all its columns,
    with [update_fields] as without.  A second row with the same slug
    violates the unique index. *)
Definition model_save (tbl : ArticleTable) (self : Article)
           (update_fields : option (list string)) (now : Z)
  : result (Article * ArticleTable) :=
  match update_fields with
  | Some fs =>
      match tbl !! id self with
      | Some row =>
          let self' :=
            if existsb (String.eqb "updated_at") fs then set_updated_at now self
            else self in
          let row' := write_columns fs self' row in
          if slug_exists (delete (id self) tbl) (slug row') then Raise IntegrityError
          else Ok (self', <[id self := row']> tbl)
      | None =>
          let self' := set_updated_at now (set_created_at now self) in
          if slug_exists (delete (id self) tbl) (slug self') then Raise IntegrityError
          else Ok (self', <[id self := self']> tbl)
      end
  | None =>
      let self' :=
        match tbl !! id self with
        | Some _ => set_updated_at now self
        | None => set_updated_at now (set_created_at now self)
        end in
      if slug_exists (delete (id self) tbl) (slug self') then Raise IntegrityError
      else Ok (self', <[id self := self']> tbl)
  end.

(** ** Article.save *)
Definition save (fuel : nat) (tbl : ArticleTable) (self : Article)
           (update_fields : option (list string)) (now : Z)
  : result (Article * ArticleTable) :=
  (self1 <- (if String.eqb (slug self) "" then
               s <- generate_unique_slug fuel tbl self ;; Ok (set_slug s self)
             else Ok self) ;;
   let self2 :=
     if String.eqb (status self1) "published"
        && negb (is_set (published_at self1)) then
       set_published_at (Some now) self1
     else if negb (String.eqb (status self1) "published") then
       set_published_at None self1
     else self1 in
   let self3 :=
     if String.eqb (meta_description self2) ""
        && negb (String.eqb (content self2) "") then
       set_meta_description (default_meta_description (content self2)) self2
     else self2 in
   model_save tbl self3 update_fields now)%py.

(** [Article.objects.create(...)] with a key that is not in use. *)
Definition create (fuel : nat) (tbl : ArticleTable) (a : Article) (now : Z)
  : result (Article * ArticleTable) :=
  save fuel tbl a None now.

End WithSlugify.

(** ** django.utils.text.slugify on ASCII text

    [value = re.sub(r'[^\w\s-]', '', value.lower())
     return re.sub(r'[-\s]+', '-', value).strip('-_')]
    On ASCII text the Unicode normalisation that precedes these two
    lines changes nothing. *)
Definition lower (c : ascii) : ascii :=
  let n := nat_of_ascii c in
  if Nat.leb 65 n && Nat.leb n 90 then ascii_of_nat (n + 32) else c.

Definition is_word (c : ascii) : bool :=
  let n := nat_of_ascii c in
  (Nat.leb 97 n && Nat.leb n 122) || (Nat.leb 65 n && Nat.leb n 90)
  || (Nat.leb 48 n && Nat.leb n 57) || Nat.eqb n 95.

Definition is_space (c : ascii) : bool :=
  let n := nat_of_ascii c in
  (Nat.leb 9 n && Nat.leb n 13) || (Nat.leb 28 n && Nat.leb n 32).

Definition is_dash (c : ascii) : bool := Nat.eqb (nat_of_ascii c) 45.

(** [re.sub(r'[-\s]+', '-', s)]; [in_run] tells whether the previous
    character belonged to a run already replaced. *)
Fixpoint collapse (in_run : bool) (s : list ascii) : list ascii :=
  match s with
  | [] => []
  | c :: s' =>
      if is_dash c || is_space c then
        if in_run then collapse true s' else "-"%char :: collapse true s'
      else c :: collapse false s'
  end.

Definition strippable (c : ascii) : bool :=
  is_dash c || Nat.eqb (nat_of_ascii c) 95.

Fixpoint lstrip (s : list ascii) : list ascii :=
  match s with
  | [] => []
  | c :: s' => if strippable c then lstrip s' else s
  end.

Definition strip (s : list ascii) : list ascii :=
  rev (lstrip (rev (lstrip s))).

Definition ascii_slugify (value : string) : string :=
  let lowered := List.map lower (list_ascii_of_string value) in
  let kept := List.filter (fun c => is_word c || is_space c || is_dash c) lowered in
  string_of_list_ascii (strip (collapse false kept)).

End Articles.

(* ===================================================================== *)
(** * apps/users: models.py, cache.py, signals.py                        *)
(* ===================================================================== *)

Module Users.

(** ** class Profile *)
Record Profile : Type := mkProfile {
  full_name : string;
  bio : string;
  avatar : option string;
  cover_image : option string;
  gender : string;
  location : string;
  website : string;
  twitter : string;
  linkedin : string;
  github : string;
  theme : string;
  timezone : string;
  language : string;
  is_public : bool;
  show_email : bool;
  show_real_name : bool;
  email_notifications : bool;
  push_notifications : bool;
  marketing_emails : bool
}.

(** ** class CustomUser, with the profile that [select_related] joins
    ([None] when the user has no profile row). *)
Record CustomUser : Type := mkCustomUser {
  id : nat;
  email : string;
  username : string;
  first_name : string;
  last_name : string;
  email_verified : bool;
  phone_number : string;
  login_count : Z;
  date_joined : Z;
  is_active : bool;
  profile : option Profile
}.

Abbreviation UserTable := (gmap nat CustomUser).

(** Values of the dictionaries the cache holds. *)
Inductive value : Type :=
| VStr (s : string)
| VBool (b : bool).

(** A Python dict in insertion order. *)
Definition dict : Type := list (string * value).

(** [d.pop(key, None)] for its effect on the dict. *)
Definition dict_pop (key : string) (d : dict) : dict :=
  List.filter (fun kv => negb (String.eqb kv.1 key)) d.

Definition has_key (key : string) (d : dict) : bool :=
  existsb (fun kv => String.eqb kv.1 key) d.

Abbreviation Cache := (gmap string dict).

Section WithStorage.

(** [FieldFile.url] of the configured storage, and
    [datetime.isoformat]. *)
Variable storage_url : string -> string.
Variable isoformat : Z -> string.

(** ** Profile.display_name and Profile.avatar_url *)
Definition display_name (u : CustomUser) (p : Profile) : string :=
  if negb (String.eqb (full_name p) "") && show_real_name p then full_name p
  else username u.

Definition avatar_url (p : Profile) : string :=
  match avatar p with
  | Some name => if String.eqb name "" then "/static/images/default-avatar.png"
                 else storage_url name
  | None => "/static/images/default-avatar.png"
  end.

Definition cache_key (user_id : nat) : string :=
  "public_profile:" ++ str user_id.

(** The dict built on a cache miss for a user with a profile. *)
Definition public_profile_data (u : CustomUser) (p : Profile) : dict :=
  if is_public p then
    let profile_data :=
      [("username", VStr (username u));
       ("display_name", VStr (display_name u p));
       ("avatar_url", VStr (avatar_url p));
       ("bio", VStr (bio p));
       ("location", VStr (location p));
       ("website", VStr (website p));
       ("twitter", VStr (twitter p));
       ("linkedin", VStr (linkedin p));
       ("github", VStr (github p));
       ("date_joined", VStr (isoformat (date_joined u)))] in
    if negb (show_real_name p) then dict_pop "full_name" profile_data
    else profile_data
  else
    [("username", VStr (username u));
     ("avatar_url", VStr (avatar_url p));
     ("is_private", VBool true)].

(** ** UserCache.get_public_profile

    The result is the returned value ([None] for an unknown user)
    and the cache after the call.  A user without a profile row
    makes [user.profile] raise. *)
Definition get_public_profile (cache : Cache) (tbl : UserTable) (user_id : nat)
  : result (option dict * Cache) :=
  match cache !! cache_key user_id with
  | Some profile_data => Ok (Some profile_data, cache)
  | None =>
      match tbl !! user_id with
      | Some u =>
          match profile u with
          | Some p =>
              let profile_data := public_profile_data u p in
              Ok (Some profile_data, <[cache_key user_id := profile_data]> cache)
          | None => Raise DoesNotExist
          end
      | None => Ok (None, cache)
      end
  end.

(** ** signals.py: clear_user_cache, run after every Profile save *)
Definition clear_user_cache (cache : Cache) (user_id : nat) : Cache :=
  foldr delete cache
        ["user_profile:" ++ str user_id;
         "user_data:" ++ str user_id;
         "public_profile:" ++ str user_id;
         "user_stats:" ++ str user_id].

(** Saving the profile of a user: the row is written and the
    [post_save] handler clears the user's cache entries. *)
Definition save_profile (cache : Cache) (tbl : UserTable) (user_id : nat)
           (p : Profile) : Cache * UserTable :=
  match tbl !! user_id with
  | Some u =>
      (clear_user_cache cache user_id,
       <[user_id := mkCustomUser (id u) (email u) (username u) (first_name u)
                      (last_name u) (email_verified u) (phone_number u)
                      (login_count u) (date_joined u) (is_active u) (Some p)]> tbl)
  | None => (cache, tbl)
  end.

End WithStorage.

End Users.

(* ===================================================================== *)
(** * Further operations of the comment app                              *)
(* ===================================================================== *)

Module CommentOps.
Import Comments.

(** ** Comment.flag: [self.is_flagged = True;
    self.save(update_fields=['is_flagged'])] *)
Definition flag (fuel : nat) (tbl : CommentTable) (self : Comment) (now : Z)
  : result (Comment * CommentTable) :=
  let self1 := set_is_flagged true self in
  (saved <- save fuel tbl self1 (Some ["is_flagged"]) now ;;
   Ok (saved.1.1, saved.1.2))%py.

(** ** Comment.mark_as_edited: [self.is_edited = True;
    self.save(update_fields=['is_edited', 'updated_at'])] *)
Definition mark_as_edited (fuel : nat) (tbl : CommentTable) (self : Comment) (now : Z)
  : result (Comment * CommentTable) :=
  let self1 := set_is_edited true self in
  (saved <- save fuel tbl self1 (Some ["is_edited"; "updated_at"]) now ;;
   Ok (saved.1.1, saved.1.2))%py.

(** ** forms.py: CommentReplyForm.clean

    [if self.parent and self.parent.get_thread_depth() >= 3: raise] *)
Definition reply_too_deep_msg : string :=
  "Cannot reply to comments more than 3 levels deep.".

Definition reply_form_clean (fuel : nat) (tbl : CommentTable)
           (parent_comment : option Comment) : result unit :=
  match parent_comment with
  | None => Ok tt
  | Some par =>
      (depth <- get_thread_depth fuel tbl par ;;
       if Nat.leb 3 depth then Raise (ValidationError reply_too_deep_msg)
       else Ok tt)%py
  end.

(** ** forms.py: CommentForm.save, as comment_reply_view uses it

    The view passes the user, the parent comment and the parent's
    content object.  [blank] is the instance [super().save(commit=False)]
    returns: a new Comment carrying the submitted content.  The
    content object fixes the generic key first; the parent then
    overwrites it with its own. *)
Definition reply_form_instance (blank : Comment) (user : nat)
           (content_object : option (nat * string)) (par : Comment) : Comment :=
  let c1 := mkComment (id blank) (content_type blank) (object_id blank) user
                      (content blank) (parent blank) (is_active blank)
                      (is_flagged blank) (is_edited blank) (likes_count blank)
                      (created_at blank) (updated_at blank) in
  let c2 := match content_object with
            | Some (ct, oid) =>
                mkComment (id c1) ct oid (author c1) (content c1) (parent c1)
                          (is_active c1) (is_flagged c1) (is_edited c1)
                          (likes_count c1) (created_at c1) (updated_at c1)
            | None => c1
            end in
  mkComment (id c2) (content_type par) (object_id par) (author c2) (content c2)
            (Some (id par)) (is_active c2) (is_flagged c2) (is_edited c2)
            (likes_count c2) (created_at c2) (updated_at c2).

Definition reply_form_save (fuel : nat) (tbl : CommentTable) (blank : Comment)
           (user : nat) (content_object : option (nat * string)) (par : Comment)
           (now : Z) : result (Comment * CommentTable * bool) :=
  save fuel tbl (reply_form_instance blank user content_object par) None now.

(** ** views.py: the querysets of the update and delete views

    [CommentUpdateView.get_queryset]: [filter(author=request.user)].
    [CommentDeleteView.get_queryset]: all comments for staff, the
    user's own otherwise. *)
Definition update_view_queryset (tbl : CommentTable) (user : User) : list Comment :=
  List.filter (fun c => Nat.eqb (author c) (user_pk user)) (rows tbl).

Definition delete_view_queryset (tbl : CommentTable) (user : User) : list Comment :=
  if is_staff user then rows tbl
  else List.filter (fun c => Nat.eqb (author c) (user_pk user)) (rows tbl).

(** ** forms.py: CommentEditForm.save

    [instance] is the comment the view loaded and [cleaned_content]
    the validated text, which [super().save(commit=False)] puts on
    the instance; [has_changed] is what [self.has_changed()] answers. *)
Definition edit_form_save (fuel : nat) (tbl : CommentTable) (instance : Comment)
           (cleaned_content : string) (has_changed commit : bool) (now : Z)
  : result (Comment * CommentTable) :=
  let comment := set_content cleaned_content instance in
  (r1 <- (if has_changed then mark_as_edited fuel tbl comment now
          else Ok (comment, tbl)) ;;
   if commit then
     saved <- save fuel r1.2 r1.1 None now ;; Ok (saved.1.1, saved.1.2)
   else Ok r1)%py.

(** ** serializers.py: CommentUpdateSerializer.update

    [validated_content] is [validated_data.get('content')], absent in
    a partial update without the field.  [super().update] sets the
    validated attributes and saves the instance. *)
Definition update_serializer_update (fuel : nat) (tbl : CommentTable)
           (instance : Comment) (validated_content : option string) (now : Z)
  : result (Comment * CommentTable) :=
  let new_content := default (content instance) validated_content in
  (r1 <- (if negb (String.eqb (content instance) new_content)
          then mark_as_edited fuel tbl instance now
          else Ok (instance, tbl)) ;;
   let instance' :=
     match validated_content with
     | Some c => set_content c r1.1
     | None => r1.1
     end in
   saved <- save fuel r1.2 instance' None now ;; Ok (saved.1.1, saved.1.2))%py.

(** ** django_verse_hub/permissions.py: IsOwnerOrReadOnly, the object
    permission of the comment API *)
Definition SAFE_METHODS : list string := ["GET"; "HEAD"; "OPTIONS"].

Definition has_object_permission (method : string) (request_user : User)
           (obj : Comment) : bool :=
  if existsb (String.eqb method) SAFE_METHODS then true
  else Nat.eqb (author obj) (user_pk request_user).

(** ** Comment.objects.create: the instance is saved with
    [force_insert], so that a key in use violates the primary key. *)
Definition create (fuel : nat) (tbl : CommentTable) (c : Comment) (now : Z)
  : result (Comment * CommentTable * bool) :=
  match tbl !! id c with
  | Some _ => Raise IntegrityError
  | None => save fuel tbl c None now
  end.

End CommentOps.

(* ===================================================================== *)
(** * Further views of the notification app                              *)
(* ===================================================================== *)

Module NotificationOps.
Import Notifications.

(** ** views.py: delete_notification *)
Definition delete_notification (tbl : NotificationTable) (request_user : User)
           (notification_id : nat) : Response * NotificationTable :=
  match get_for_recipient tbl notification_id (user_pk request_user) with
  | Some notification => (Success, delete (id notification) tbl)
  | None => (NotFound "Notification not found", tbl)
  end.

End NotificationOps.

(* ===================================================================== *)
(** * Further parts of apps/articles/models.py                           *)
(* ===================================================================== *)

Module ArticleOps.
Import Articles.

(** ** str.split() on ASCII text

    The maximal runs of characters that are not white space; [word]
    holds the run being read, last character first. *)
Fixpoint split_loop (word : list ascii) (s : list ascii) : list (list ascii) :=
  match s with
  | [] => match word with
          | [] => []
          | _ => [rev word]
          end
  | c :: s' =>
      if is_space c then
        match word with
        | [] => split_loop [] s'
        | _ => rev word :: split_loop [] s'
        end
      else split_loop (c :: word) s'
  end.

Definition split (s : string) : list string :=
  List.map string_of_list_ascii (split_loop [] (list_ascii_of_string s)).

(** ** Article.is_published and Article.reading_time *)
Definition is_published (self : Article) : bool :=
  String.eqb (status self) "published".

Definition reading_time (self : Article) : Z :=
  let word_count := Z.of_nat (length (split (content self))) in
  Z.max 1 (word_count / 200).

Section WithSlugify.
Variable slugify : string -> string.

(** ** Article.increment_views:
    [self.views_count += 1; self.save(update_fields=['views_count'])] *)
Definition increment_views (fuel : nat) (tbl : ArticleTable) (self : Article)
           (now : Z) : result (Article * ArticleTable) :=
  let self1 := set_views_count (views_count self + 1) self in
  save slugify fuel tbl self1 (Some ["views_count"]) now.

End WithSlugify.

End ArticleOps.

Module Categories.

(** ** class Category; [name] and [slug] are unique. *)
Record Category : Type := mkCategory {
  id : nat;
  name : string;
  slug : string;
  description : string;
  image : option string;
  is_active : bool;
  created_at : Z
}.

Abbreviation CategoryTable := (gmap nat Category).

Definition set_slug (v : string) (c : Category) : Category :=
  mkCategory (id c) (name c) v (description c) (image c) (is_active c)
             (created_at c).

Definition set_created_at (v : Z) (c : Category) : Category :=
  mkCategory (id c) (name c) (slug c) (description c) (image c) (is_active c) v.

(** Whether a row other than [k] holds the name, or the slug. *)
Definition name_taken (tbl : CategoryTable) (k : nat) (s : string) : bool :=
  existsb (fun c => String.eqb (name c) s) (map_to_list (delete k tbl)).*2.

Definition slug_taken (tbl : CategoryTable) (k : nat) (s : string) : bool :=
  existsb (fun c => String.eqb (slug c) s) (map_to_list (delete k tbl)).*2.

(** [super().save()] without arguments: the row is inserted
    ([auto_now_add] stamps [created_at]) or replaces the row with its
    key; a second row with the same name or slug violates a unique
    index. *)
Definition model_save (tbl : CategoryTable) (self : Category) (now : Z)
  : result (Category * CategoryTable) :=
  let self' :=
    match tbl !! id self with
    | Some _ => self
    | None => set_created_at now self
    end in
  if name_taken tbl (id self) (name self') || slug_taken tbl (id self) (slug self')
  then Raise IntegrityError
  else Ok (self', <[id self := self']> tbl).

Section WithSlugify.
Variable slugify : string -> string.

(** ** Category.save:
    [if not self.slug: self.slug = slugify(self.name)] *)
Definition save (tbl : CategoryTable) (self : Category) (now : Z)
  : result (Category * CategoryTable) :=
  let self1 :=
    if String.eqb (slug self) "" then set_slug (slugify (name self)) self
    else self in
  model_save tbl self1 now.

End WithSlugify.

End Categories.

(* ===================================================================== *)
(** * django_verse_hub/utils.py and apps/articles/pagination.py          *)
(* ===================================================================== *)

Module Utils.

(** ** Python's [range(start, stop)] *)
Definition range (start stop : Z) : list Z :=
  List.map (fun i => (start + Z.of_nat i)%Z) (seq 0 (Z.to_nat (stop - start))).

(** ** PaginationMixin.get_page_range *)
Definition get_page_range (page num_pages display_pages : Z) : list Z :=
  let half := (display_pages / 2)%Z in
  if (num_pages <=? display_pages)%Z then range 1 (num_pages + 1)
  else if (page <=? half)%Z then range 1 (display_pages + 1)
  else if (num_pages - half <? page)%Z then
    range (num_pages - display_pages + 1) (num_pages + 1)
  else range (page - half) (page + half + 1).

(** ** ArticlePaginator.get_page_range, on [page.number] and
    [paginator.num_pages] *)
Definition paginator_page_range (current_page total_pages display_pages : Z)
  : list Z :=
  if (total_pages <=? display_pages)%Z then range 1 (total_pages + 1)
  else
    let half_display := (display_pages / 2)%Z in
    if (current_page <=? half_display)%Z then range 1 (display_pages + 1)
    else if (total_pages - half_display <? current_page)%Z then
      range (total_pages - display_pages + 1) (total_pages + 1)
    else range (current_page - half_display) (current_page + half_display + 1).

(** ** get_client_ip, on ASCII text *)

(** White space as [str.strip()] sees it. *)
Definition is_whitespace (c : ascii) : bool :=
  let n := nat_of_ascii c in
  (Nat.leb 9 n && Nat.leb n 13) || (Nat.leb 28 n && Nat.leb n 32).

(** [s.split(',')[0]]: the text before the first comma. *)
Fixpoint first_field (s : list ascii) : list ascii :=
  match s with
  | [] => []
  | c :: s' => if Ascii.eqb c ","%char then [] else c :: first_field s'
  end.

Fixpoint lstrip (s : list ascii) : list ascii :=
  match s with
  | [] => []
  | c :: s' => if is_whitespace c then lstrip s' else s
  end.

(** [s.strip()] *)
Definition strip (s : list ascii) : list ascii :=
  rev (lstrip (rev (lstrip s))).

(** [request.META] holds the two entries or lacks them. *)
Definition get_client_ip (http_x_forwarded_for remote_addr : option string)
  : option string :=
  match http_x_forwarded_for with
  | Some x_forwarded_for =>
      if String.eqb x_forwarded_for "" then remote_addr
      else Some (string_of_list_ascii
                   (strip (first_field (list_ascii_of_string x_forwarded_for))))
  | None => remote_addr
  end.

End Utils.

(* ===================================================================== *)
(** * Further parts of apps/users: models.py, cache.py, signals.py       *)
(* ===================================================================== *)

Module UserOps.
Import Users.

(** ** CustomUser.get_full_name:
    [f'{self.first_name} {self.last_name}'.strip()], on ASCII text *)
Definition get_full_name (u : CustomUser) : string :=
  string_of_list_ascii
    (Utils.strip (list_ascii_of_string (first_name u ++ " " ++ last_name u))).

(** ** CustomUser.get_short_name: [self.first_name or self.username] *)
Definition get_short_name (u : CustomUser) : string :=
  if String.eqb (first_name u) "" then username u else first_name u.

(** ** The cache and its timeouts

    [cache.set(key, value, timeout)] at time [now] keeps the entry
    until [now + timeout]; from that time on [cache.get] answers
    [None] for the key.  An entry is stored with its deadline; whether
    the backend has already dropped an entry past its deadline cannot
    be observed through [cache.get], so such an entry simply stays in
    the map.  Times are in seconds, as the cache counts them. *)
Definition PROFILE_CACHE_TIMEOUT : Z := 60 * 30.

Abbreviation TimedCache := (gmap string (dict * Z)).

Definition cache_get (cache : TimedCache) (key : string) (now : Z) : option dict :=
  match cache !! key with
  | Some (value, expires) => if Z.ltb now expires then Some value else None
  | None => None
  end.

Definition cache_set (cache : TimedCache) (key : string) (value : dict)
           (timeout now : Z) : TimedCache :=
  <[key := (value, (now + timeout)%Z)]> cache.

(** The entries [cache.get] sees at time [now]. *)
Definition live (now : Z) (cache : TimedCache) : Cache :=
  omap (fun e : dict * Z => if Z.ltb now e.2 then Some e.1 else None) cache.

Section WithStorage.
Variable storage_url : string -> string.
Variable isoformat : Z -> string.

Definition user_profile_key (user_id : nat) : string :=
  "user_profile:" ++ str user_id.

(** The dict [get_user_profile] builds on a cache miss. *)
Definition user_profile_data (u : CustomUser) (p : Profile) : dict :=
  [("id", VStr (str (id u)));
   ("username", VStr (username u));
   ("email", VStr (email u));
   ("full_name", VStr (get_full_name u));
   ("display_name", VStr (display_name u p));
   ("avatar_url", VStr (avatar_url storage_url p));
   ("bio", VStr (bio p));
   ("location", VStr (location p));
   ("is_public", VBool (is_public p));
   ("theme", VStr (theme p));
   ("timezone", VStr (timezone p));
   ("email_verified", VBool (email_verified u));
   ("date_joined", VStr (isoformat (date_joined u)))].

(** ** UserCache.get_user_profile, called at time [now] *)
Definition get_user_profile (cache : TimedCache) (tbl : UserTable) (user_id : nat)
           (now : Z) : result (option dict * TimedCache) :=
  match cache_get cache (user_profile_key user_id) now with
  | Some profile_data => Ok (Some profile_data, cache)
  | None =>
      match tbl !! user_id with
      | Some u =>
          match profile u with
          | Some p =>
              let profile_data := user_profile_data u p in
              Ok (Some profile_data,
                  cache_set cache (user_profile_key user_id) profile_data
                            PROFILE_CACHE_TIMEOUT now)
          | None => Raise DoesNotExist
          end
      | None => Ok (None, cache)
      end
  end.

End WithStorage.

(** ** UserCache.invalidate_user_cache

    [cache.delete_many] removes the keys whatever they hold, with or
    without a deadline. *)
Definition invalidate_user_cache {V} (cache : gmap string V) (user_id : nat)
  : gmap string V :=
  foldr delete cache
        ["user_profile:" ++ str user_id;
         "user_data:" ++ str user_id;
         "public_profile:" ++ str user_id;
         "user_stats:" ++ str user_id].

(** ** signals.py: cleanup_user_cache, run after a user is deleted *)
Definition cleanup_user_cache {V} (cache : gmap string V) (instance_id : nat)
  : gmap string V :=
  foldr delete cache
        ["user_profile:" ++ str instance_id;
         "user_data:" ++ str instance_id;
         "public_profile:" ++ str instance_id;
         "user_stats:" ++ str instance_id].

(** Deleting a user: the row goes and the [post_delete] handler
    clears the user's cache entries. *)
Definition delete_user {V} (cache : gmap string V) (tbl : UserTable) (user_id : nat)
  : gmap string V * UserTable :=
  match tbl !! user_id with
  | Some u => (cleanup_user_cache cache (id u), delete user_id tbl)
  | None => (cache, tbl)
  end.

End UserOps.

(* ===================================================================== *)
(** * Properties of the comment model                                    *)
(* ===================================================================== *)

Module CommentProofs.
Import Comments.

Lemma bind_ok {A B} (r : result A) (k : A -> result B) (b : B) :
  Py.bind r k = Ok b -> exists a, r = Ok a /\ k a = Ok b.
Proof. destruct r; simpl; intros H; try discriminate. eauto. Qed.

(** *** The depth loop *)

Lemma thread_depth_loop_shift fuel tbl cur acc d :
  thread_depth_loop fuel tbl cur acc = Ok d ->
  thread_depth_loop fuel tbl cur (S acc) = Ok (S d).
Proof.
  revert cur acc d. induction fuel as [|fuel IH]; intros cur acc d.
  - destruct cur; simpl; [discriminate|]. congruence.
  - destruct cur as [c|]; simpl; [|congruence].
    destruct (fetch_parent tbl c) as [next| |]; simpl; try discriminate.
    apply IH.
Qed.

Lemma thread_depth_loop_unshift fuel tbl cur acc d' :
  thread_depth_loop fuel tbl cur (S acc) = Ok d' ->
  exists d, d' = S d /\ thread_depth_loop fuel tbl cur acc = Ok d.
Proof.
  revert cur acc d'. induction fuel as [|fuel IH]; intros cur acc d'.
  - destruct cur; simpl; [discriminate|]. intros [= <-]. eauto.
  - destruct cur as [c|]; simpl; [|intros [= <-]; eauto].
    destruct (fetch_parent tbl c) as [next| |]; simpl; try discriminate.
    apply IH.
Qed.

Lemma thread_depth_loop_mono fuel fuel' tbl cur acc d :
  fuel <= fuel' ->
  thread_depth_loop fuel tbl cur acc = Ok d ->
  thread_depth_loop fuel' tbl cur acc = Ok d.
Proof.
  revert fuel' cur acc d. induction fuel as [|fuel IH]; intros fuel' cur acc d Hle.
  - destruct cur; simpl; [discriminate|]. destruct fuel'; simpl; auto.
  - destruct fuel' as [|fuel']; [lia|].
    destruct cur as [c|]; simpl; [|auto].
    destruct (fetch_parent tbl c) as [next| |]; simpl; try discriminate.
    apply IH. lia.
Qed.

Lemma get_thread_depth_mono fuel fuel' tbl c d :
  fuel <= fuel' ->
  get_thread_depth fuel tbl c = Ok d -> get_thread_depth fuel' tbl c = Ok d.
Proof.
  unfold get_thread_depth. intros Hle.
  destruct (fetch_parent tbl c); simpl; try discriminate.
  by apply thread_depth_loop_mono.
Qed.

Lemma get_thread_depth_root fuel tbl c :
  parent c = None -> get_thread_depth fuel tbl c = Ok 0.
Proof.
  intros Hp. unfold get_thread_depth, fetch_parent. rewrite Hp. simpl.
  by destruct fuel.
Qed.

(** The depth of a reply is one more than the depth of its parent. *)
Lemma get_thread_depth_reply fuel tbl c p par d :
  parent c = Some p -> tbl !! p = Some par ->
  get_thread_depth fuel tbl par = Ok d ->
  get_thread_depth (S fuel) tbl c = Ok (S d).
Proof.
  intros Hp Hpar Hd. unfold get_thread_depth in *.
  unfold fetch_parent at 1. rewrite Hp, Hpar. simpl.
  destruct (fetch_parent tbl par) as [next| |]; simpl in *; try discriminate.
  replace (0 + 1) with 1 by lia. by apply thread_depth_loop_shift.
Qed.

Lemma fetch_parent_insert_fresh tbl k x c r :
  tbl !! k = None ->
  fetch_parent tbl c = Ok r -> fetch_parent (<[k := x]> tbl) c = Ok r.
Proof.
  unfold fetch_parent. intros Hk. destruct (parent c) as [p|]; [|done].
  destruct (tbl !! p) as [row|] eqn:Hrow; [|discriminate].
  intros H. rewrite lookup_insert_ne; [by rewrite Hrow|]. congruence.
Qed.

Lemma thread_depth_loop_insert_fresh fuel tbl k x cur acc d :
  tbl !! k = None ->
  thread_depth_loop fuel tbl cur acc = Ok d ->
  thread_depth_loop fuel (<[k := x]> tbl) cur acc = Ok d.
Proof.
  intros Hk. revert cur acc d. induction fuel as [|fuel IH]; intros cur acc d.
  - by destruct cur.
  - destruct cur as [c|]; simpl; [|done].
    destruct (fetch_parent tbl c) as [next| |] eqn:Hf; simpl; try discriminate.
    rewrite (fetch_parent_insert_fresh _ _ _ _ _ Hk Hf). simpl. apply IH.
Qed.

Lemma get_thread_depth_insert_fresh fuel tbl k x c d :
  tbl !! k = None ->
  get_thread_depth fuel tbl c = Ok d ->
  get_thread_depth fuel (<[k := x]> tbl) c = Ok d.
Proof.
  intros Hk. unfold get_thread_depth.
  destruct (fetch_parent tbl c) as [next| |] eqn:Hf; simpl; try discriminate.
  rewrite (fetch_parent_insert_fresh _ _ _ _ _ Hk Hf). simpl.
  by apply thread_depth_loop_insert_fresh.
Qed.

(** *** clean and save *)

Lemma clean_reply fuel tbl c p par d :
  parent c = Some p -> tbl !! p = Some par ->
  content_type par = content_type c -> object_id par = object_id c ->
  get_thread_depth fuel tbl c = Ok d ->
  clean fuel tbl c =
    if Nat.ltb 3 d then Raise (ValidationError too_deep_msg) else Ok tt.
Proof.
  intros Hp Hpar Hct Hoid Hd. unfold clean, fetch_parent.
  rewrite Hp, Hpar. simpl. rewrite Hct, Hoid, Nat.eqb_refl, String.eqb_refl.
  simpl. by rewrite Hd.
Qed.

Lemma clean_mismatch fuel tbl c p par :
  parent c = Some p -> tbl !! p = Some par ->
  content_type par <> content_type c \/ object_id par <> object_id c ->
  clean fuel tbl c = Raise (ValidationError same_object_msg).
Proof.
  intros Hp Hpar Hne. unfold clean, fetch_parent. rewrite Hp, Hpar. simpl.
  destruct (Nat.eqb_spec (content_type par) (content_type c)) as [Hct|Hct];
    simpl; [|done].
  destruct (String.eqb_spec (object_id par) (object_id c)) as [Ho|Ho];
    simpl; [|done].
  tauto.
Qed.

Lemma clean_root fuel tbl c : parent c = None -> clean fuel tbl c = Ok tt.
Proof. intros Hp. unfold clean, fetch_parent. by rewrite Hp. Qed.

(** The instance a first save stores. *)
Definition stored (now : Z) (c : Comment) : Comment :=
  set_updated_at now (set_created_at now c).

Lemma save_new_reply fuel tbl c p par d now :
  tbl !! id c = None ->
  parent c = Some p -> tbl !! p = Some par ->
  content_type par = content_type c -> object_id par = object_id c ->
  get_thread_depth fuel tbl c = Ok d -> d <= 3 ->
  save fuel tbl c None now = Ok (stored now c, <[id c := stored now c]> tbl, true).
Proof.
  intros Hfresh Hp Hpar Hct Hoid Hd Hle. unfold save.
  rewrite (clean_reply _ _ _ _ _ _ Hp Hpar Hct Hoid Hd).
  destruct (Nat.ltb_spec 3 d); [lia|]. simpl.
  unfold model_save. by rewrite Hfresh.
Qed.

Lemma save_too_deep fuel tbl c p par d uf now :
  parent c = Some p -> tbl !! p = Some par ->
  content_type par = content_type c -> object_id par = object_id c ->
  get_thread_depth fuel tbl c = Ok d -> 3 < d ->
  save fuel tbl c uf now = Raise (ValidationError too_deep_msg).
Proof.
  intros Hp Hpar Hct Hoid Hd Hlt. unfold save.
  rewrite (clean_reply _ _ _ _ _ _ Hp Hpar Hct Hoid Hd).
  by destruct (Nat.ltb_spec 3 d); [|lia].
Qed.

(** C4.  A reply chain C1 -> C0, C2 -> C1, C3 -> C2 on a root comment
    C0 is saved reply by reply, and a reply C4 -> C3 is refused with
    "Comment thread too deep"; in general a save of a reply whose
    depth exceeds 3 is refused with that message, and a reply whose
    content type or object id differs from its parent's is refused
    with "Parent comment must be on the same object". *)
Theorem thread_depth_limit :
  (forall fuel (tbl : CommentTable) c0 c1 c2 c3 c4 n1 n2 n3 n4,
      4 <= fuel ->
      tbl !! id c0 = Some c0 -> parent c0 = None ->
      tbl !! id c1 = None -> tbl !! id c2 = None -> tbl !! id c3 = None ->
      id c1 <> id c2 -> id c1 <> id c3 -> id c2 <> id c3 ->
      parent c1 = Some (id c0) -> parent c2 = Some (id c1) ->
      parent c3 = Some (id c2) -> parent c4 = Some (id c3) ->
      (forall c, c ∈ [c1; c2; c3; c4] ->
                 content_type c = content_type c0 /\ object_id c = object_id c0) ->
      let t1 := <[id c1 := stored n1 c1]> tbl in
      let t2 := <[id c2 := stored n2 c2]> t1 in
      let t3 := <[id c3 := stored n3 c3]> t2 in
      save fuel tbl c1 None n1 = Ok (stored n1 c1, t1, true) /\
      save fuel t1 c2 None n2 = Ok (stored n2 c2, t2, true) /\
      save fuel t2 c3 None n3 = Ok (stored n3 c3, t3, true) /\
      save fuel t3 c4 None n4 = Raise (ValidationError too_deep_msg)) /\
  (forall fuel (tbl : CommentTable) c p par d uf now,
      parent c = Some p -> tbl !! p = Some par ->
      content_type par = content_type c -> object_id par = object_id c ->
      get_thread_depth fuel tbl c = Ok d -> 3 < d ->
      save fuel tbl c uf now = Raise (ValidationError too_deep_msg)) /\
  (forall fuel (tbl : CommentTable) c p par uf now,
      parent c = Some p -> tbl !! p = Some par ->
      content_type par <> content_type c \/ object_id par <> object_id c ->
      save fuel tbl c uf now = Raise (ValidationError same_object_msg)).
Proof.
  split; [|split].
  - intros fuel tbl c0 c1 c2 c3 c4 n1 n2 n3 n4 Hfuel H0 Hroot F1 F2 F3
           N12 N13 N23 P1 P2 P3 P4 Hobj t1 t2 t3.
    assert (O1 : c1 ∈ [c1; c2; c3; c4]) by (rewrite !elem_of_cons; tauto).
    assert (O2 : c2 ∈ [c1; c2; c3; c4]) by (rewrite !elem_of_cons; tauto).
    assert (O3 : c3 ∈ [c1; c2; c3; c4]) by (rewrite !elem_of_cons; tauto).
    assert (O4 : c4 ∈ [c1; c2; c3; c4]) by (rewrite !elem_of_cons; tauto).
    apply Hobj in O1, O2, O3, O4.
    destruct O1 as [O1a O1b], O2 as [O2a O2b], O3 as [O3a O3b], O4 as [O4a O4b].
    (* depths in the growing table *)
    assert (D0 : get_thread_depth 0 tbl c0 = Ok 0)
      by by apply get_thread_depth_root.
    assert (D1 : get_thread_depth 1 tbl c1 = Ok 1)
      by by eapply get_thread_depth_reply.
    assert (L1 : t1 !! id c1 = Some (stored n1 c1))
      by apply lookup_insert_eq.
    assert (D1' : get_thread_depth 1 t1 (stored n1 c1) = Ok 1)
      by (apply get_thread_depth_insert_fresh; [done|exact D1]).
    assert (D2 : get_thread_depth 2 t1 c2 = Ok 2)
      by (eapply get_thread_depth_reply; [exact P2|exact L1|exact D1']).
    assert (F2' : t1 !! id c2 = None)
      by (unfold t1; rewrite lookup_insert_ne; done).
    assert (L2 : t2 !! id c2 = Some (stored n2 c2))
      by apply lookup_insert_eq.
    assert (D2' : get_thread_depth 2 t2 (stored n2 c2) = Ok 2)
      by (apply get_thread_depth_insert_fresh; [done|exact D2]).
    assert (D3 : get_thread_depth 3 t2 c3 = Ok 3)
      by (eapply get_thread_depth_reply; [exact P3|exact L2|exact D2']).
    assert (F3' : t2 !! id c3 = None)
      by (unfold t2, t1; rewrite !lookup_insert_ne; done).
    assert (L3 : t3 !! id c3 = Some (stored n3 c3))
      by apply lookup_insert_eq.
    assert (D3' : get_thread_depth 3 t3 (stored n3 c3) = Ok 3)
      by (apply get_thread_depth_insert_fresh; [done|exact D3]).
    assert (D4 : get_thread_depth 4 t3 c4 = Ok 4)
      by (eapply get_thread_depth_reply; [exact P4|exact L3|exact D3']).
    assert (M1 := get_thread_depth_mono 1 fuel _ _ _ ltac:(lia) D1).
    assert (M2 := get_thread_depth_mono 2 fuel _ _ _ ltac:(lia) D2).
    assert (M3 := get_thread_depth_mono 3 fuel _ _ _ ltac:(lia) D3).
    assert (M4 := get_thread_depth_mono 4 fuel _ _ _ ltac:(lia) D4).
    split; [|split; [|split]].
    + apply (save_new_reply fuel tbl c1 (id c0) c0 1 n1); try done; try congruence.
      lia.
    + apply (save_new_reply fuel t1 c2 (id c1) (stored n1 c1) 2 n2);
        try done; simpl; try congruence. lia.
    + apply (save_new_reply fuel t2 c3 (id c2) (stored n2 c2) 3 n3);
        try done; simpl; try congruence.
    + apply (save_too_deep fuel t3 c4 (id c3) (stored n3 c3) 4 None n4);
        try done; simpl; try congruence. lia.
  - intros. by eapply save_too_deep.
  - intros fuel tbl c p par uf now Hp Hpar Hne. unfold save.
    by rewrite (clean_mismatch _ _ _ _ _ Hp Hpar Hne).
Qed.

(** A thread on article 42 (content type 1): root 10 and the replies
    11, 12, 13, 14, each to the previous one; 15 replies to 10 from
    another object. *)
Definition thread_comment (k : nat) (p : option nat) (oid : string) : Comment :=
  mkComment k 1 oid 100 "text" p true false false 0 0 0.

Lemma thread_depth_limit_witness :
  let c0 := thread_comment 10 None "42" in
  let c1 := thread_comment 11 (Some 10) "42" in
  let c2 := thread_comment 12 (Some 11) "42" in
  let c3 := thread_comment 13 (Some 12) "42" in
  let c4 := thread_comment 14 (Some 13) "42" in
  let tbl : CommentTable := {[10 := c0]} in
  let t1 := <[11 := stored 1 c1]> tbl in
  let t2 := <[12 := stored 2 c2]> t1 in
  let t3 := <[13 := stored 3 c3]> t2 in
  (save 4 tbl c1 None 1 = Ok (stored 1 c1, t1, true) /\
   save 4 t1 c2 None 2 = Ok (stored 2 c2, t2, true) /\
   save 4 t2 c3 None 3 = Ok (stored 3 c3, t3, true) /\
   save 4 t3 c4 None 4 = Raise (ValidationError too_deep_msg)) /\
  save 4 t3 c4 None 4 = Raise (ValidationError too_deep_msg) /\
  save 4 tbl (thread_comment 15 (Some 10) "43") None 5
  = Raise (ValidationError same_object_msg).
Proof.
  intros c0 c1 c2 c3 c4 tbl t1 t2 t3.
  destruct thread_depth_limit as [Hchain [Hdeep Hsame]].
  split; [|split].
  - apply (Hchain 4 tbl c0 c1 c2 c3 c4 1%Z 2%Z 3%Z 4%Z);
      try (vm_compute; reflexivity); try lia; try (simpl; lia).
    intros c Hc. apply list_elem_of_In in Hc. simpl in Hc.
    destruct Hc as [<-|[<-|[<-|[<-|[]]]]]; split; reflexivity.
  - apply (Hdeep 4 t3 c4 13 (stored 3 c3) 4 None 4%Z);
      try (vm_compute; reflexivity).
  - apply (Hsame 4 tbl (thread_comment 15 (Some 10) "43") 10 c0 None 5%Z);
      try (vm_compute; reflexivity).
    right. vm_compute. discriminate.
Defined.

(** *** can_edit *)

(** CanEdit as the specification words it: the author within 15
    minutes of creation, or any staff member or superuser. *)
Definition CanEdit_spec (c : Comment) (u : User) (now : Z) : bool :=
  (Nat.eqb (user_pk u) (author c)
   && Z.ltb (now - created_at c) (timedelta_minutes 15))
  || is_staff u || is_superuser u.

(** A staff member looking at their own comment, written 16 minutes
    earlier. *)
Definition old_comment : Comment :=
  mkComment 1 1 "42" 7 "text" None true false false 0 0 0.
Definition staff_author : User := mkUser 7 "moderator" true false.
Definition sixteen_minutes : Z := timedelta_minutes 16.

(** C6 on the code.  can_edit refuses a staff member who is the
    author of a comment written 16 minutes earlier: the author branch
    returns before the staff test is reached.  The specification's
    CanEdit holds for every staff member, and can_delete, which tests
    the same three conditions without the early return, grants this
    one. *)
Lemma can_edit_refuses_staff_author :
  can_edit old_comment staff_author sixteen_minutes = false /\
  CanEdit_spec old_comment staff_author sixteen_minutes = true /\
  can_delete old_comment staff_author = true /\
  is_staff staff_author = true /\
  user_pk staff_author = author old_comment.
Proof. vm_compute. repeat split. Qed.

(** What can_edit computes.  It holds exactly when the user is the
    author and less than 15 minutes have passed since creation, or the
    user is not the author and is staff or superuser. *)
Theorem can_edit_characterisation (c : Comment) (u : User) (now : Z) :
  can_edit c u now = true <->
  (user_pk u = author c /\ (now - created_at c < timedelta_minutes 15)%Z) \/
  (user_pk u <> author c /\ (is_staff u = true \/ is_superuser u = true)).
Proof.
  unfold can_edit.
  destruct (Nat.eqb_spec (user_pk u) (author c)) as [He|He].
  - rewrite Z.ltb_lt. split; [intros H; left; split; [done|lia]|].
    intros [[_ H]|[Hne _]]; [lia|done].
  - rewrite orb_true_iff. split; [intros H; right; done|].
    intros [[Heq _]|[_ H]]; [done|done].
Qed.

(** *** soft_delete *)


Lemma elem_of_rows (tbl : CommentTable) c :
  c ∈ rows tbl <-> exists k, tbl !! k = Some c.
Proof.
  unfold rows. rewrite list_elem_of_fmap. split.
  - intros [[k c'] [-> Hin]]. apply elem_of_map_to_list in Hin. eauto.
  - intros [k Hk]. exists (k, c). split; [done|]. by apply elem_of_map_to_list.
Qed.



(** *** Ancestors and descendants *)

(** [ancestor tbl a k]: the comment with key [a] is reached from the
    stored comment [k] by following [parent] one or more times. *)
Inductive ancestor (tbl : CommentTable) : nat -> nat -> Prop :=
| ancestor_parent k row p :
    tbl !! k = Some row -> parent row = Some p -> ancestor tbl p k
| ancestor_step k row p a :
    tbl !! k = Some row -> parent row = Some p -> ancestor tbl a p ->
    ancestor tbl a k.

(** No comment is its own ancestor. *)
Definition acyclic (tbl : CommentTable) : Prop :=
  forall k, ~ ancestor tbl k k.

(** Rows are stored under their primary key. *)
Definition keyed (tbl : CommentTable) : Prop :=
  forall k row, tbl !! k = Some row -> id row = k.

(** The [parent] foreign key names a stored row. *)
Definition parents_exist (tbl : CommentTable) : Prop :=
  forall k row p, tbl !! k = Some row -> parent row = Some p -> is_Some (tbl !! p).

(** [active_descendant tbl k j]: [j] is reached from [k] going down
    through replies that are all active, [j] included. *)
Inductive active_descendant (tbl : CommentTable) (k : nat) : nat -> Prop :=
| active_reply j row :
    tbl !! j = Some row -> parent row = Some k -> is_active row = true ->
    active_descendant tbl k j
| active_nested j row m :
    active_descendant tbl k m ->
    tbl !! j = Some row -> parent row = Some m -> is_active row = true ->
    active_descendant tbl k j.

Section Trees.
Variable tbl : CommentTable.

Lemma ancestor_inv a k row :
  ancestor tbl a k -> tbl !! k = Some row ->
  exists p, parent row = Some p /\ (a = p \/ ancestor tbl a p).
Proof.
  intros H Hrow. inversion H as [k' row' p Hk Hp|k' row' p a' Hk Hp Ha]; subst;
    rewrite Hrow in Hk; injection Hk as <-; eauto.
Qed.

Lemma ancestor_trans a b c :
  ancestor tbl a b -> ancestor tbl b c -> ancestor tbl a c.
Proof.
  intros Hab Hbc. induction Hbc as [k row p Hk Hp|k row p b Hk Hp Hb IH].
  - eapply ancestor_step; eauto.
  - eapply ancestor_step; eauto.
Qed.

Lemma ancestor_linear a b j :
  ancestor tbl a j -> ancestor tbl b j ->
  a = b \/ ancestor tbl a b \/ ancestor tbl b a.
Proof.
  intros Ha. revert b.
  induction Ha as [k row p Hk Hp|k row p a Hk Hp Ha IH]; intros b Hb;
    destruct (ancestor_inv _ _ _ Hb Hk) as (p' & Hp' & Hcase);
    rewrite Hp in Hp'; injection Hp' as <-.
  - destruct Hcase as [->|Hbp]; auto.
  - destruct Hcase as [->|Hbp]; auto.
Qed.

Lemma active_descendant_ancestor k j :
  active_descendant tbl k j -> ancestor tbl k j.
Proof.
  induction 1 as [j row Hj Hp _|j row m _ IH Hj Hp _].
  - eapply ancestor_parent; eauto.
  - eapply ancestor_trans; [exact IH|]. eapply ancestor_parent; eauto.
Qed.

Lemma active_descendant_below k r row j :
  tbl !! r = Some row -> parent row = Some k -> is_active row = true ->
  active_descendant tbl r j -> active_descendant tbl k j.
Proof.
  intros Hr Hp Hact. induction 1 as [j row' Hj Hp' Ha'|j row' m _ IH Hj Hp' Ha'].
  - eapply active_nested; eauto. eapply active_reply; eauto.
  - eapply active_nested; eauto.
Qed.

(** Distinct keys of stored rows are no more than the table holds. *)
Lemma stored_keys_bound (l : list nat) :
  NoDup l -> (forall v, v ∈ l -> is_Some (tbl !! v)) -> length l <= size tbl.
Proof.
  intros Hnd Hin.
  rewrite <- (size_dom (D := gset nat) tbl).
  rewrite <- (size_list_to_set (C := gset nat) l Hnd).
  apply subseteq_size. intros v Hv.
  apply elem_of_list_to_set in Hv. apply elem_of_dom. auto.
Qed.

Hypothesis Hacyclic : acyclic tbl.

(** Two replies to the same comment have disjoint subtrees. *)
Lemma siblings_disjoint k r r' row row' j :
  tbl !! r = Some row -> parent row = Some k ->
  tbl !! r' = Some row' -> parent row' = Some k ->
  r <> r' ->
  (j = r \/ ancestor tbl r j) -> (j = r' \/ ancestor tbl r' j) -> False.
Proof.
  intros Hr Hp Hr' Hp' Hne Hj Hj'.
  assert (Hkr : ancestor tbl k r) by (eapply ancestor_parent; eauto).
  assert (Hkr' : ancestor tbl k r') by (eapply ancestor_parent; eauto).
  assert (Hcross : ancestor tbl r r' \/ ancestor tbl r' r).
  { destruct Hj as [->|Hj], Hj' as [->|Hj']; auto; try congruence.
    destruct (ancestor_linear _ _ _ Hj Hj') as [?|[?|?]]; auto. congruence. }
  destruct Hcross as [H|H].
  - destruct (ancestor_inv _ _ _ H Hr') as (p & Hpp & Hc).
    assert (p = k) as -> by congruence.
    apply (Hacyclic k). destruct Hc as [<-|Hrk]; [done|].
    by apply (ancestor_trans k r k).
  - destruct (ancestor_inv _ _ _ H Hr) as (p & Hpp & Hc).
    assert (p = k) as -> by congruence.
    apply (Hacyclic k). destruct Hc as [<-|Hrk]; [done|].
    by apply (ancestor_trans k r' k).
Qed.

(** *** get_thread_depth counts the ancestors *)

Lemma thread_depth_loop_counts :
  parents_exist tbl ->
  forall n k row (visited : list nat),
    tbl !! k = Some row ->
    NoDup visited ->
    (forall v, v ∈ visited -> ancestor tbl k v /\ is_Some (tbl !! v)) ->
    size tbl <= length visited + n ->
    exists A : gset nat,
      (forall a, a ∈ A <-> ancestor tbl a k) /\
      size A < n /\
      forall fuel acc, size A < fuel ->
        thread_depth_loop fuel tbl (Some row) acc = Ok (acc + 1 + size A).
Proof.
  intros Hfk. induction n as [|n IH]; intros k row visited Hk Hnd Hvis Hsize.
  - exfalso.
    assert (Hb : length (k :: visited) <= size tbl).
    { apply stored_keys_bound.
      - constructor; [|done]. intros Hin. apply (Hacyclic k). by apply Hvis.
      - intros v [->|Hv]%elem_of_cons; [eauto|]. by apply Hvis. }
    simpl in Hb. lia.
  - destruct (parent row) as [p|] eqn:Hp.
    + destruct (Hfk _ _ _ Hk Hp) as [prow Hprow].
      destruct (IH p prow (k :: visited)) as (A & HA & HsA & Hloop); [done|..].
      { constructor; [|done]. intros Hin. apply (Hacyclic k). by apply Hvis. }
      { intros v [->|Hv]%elem_of_cons.
        - split; [eapply ancestor_parent; eauto|eauto].
        - split; [|by apply Hvis].
          eapply ancestor_trans; [|by apply Hvis]. eapply ancestor_parent; eauto. }
      { simpl. lia. }
      assert (HpA : p ∉ A) by (rewrite HA; apply Hacyclic).
      assert (Hd : ({[p]} : gset nat) ## A) by by apply disjoint_singleton_l.
      assert (Hsz : size ({[p]} ∪ A) = S (size A))
        by by rewrite (size_union _ _ Hd), size_singleton.
      exists ({[p]} ∪ A). split; [|split].
      * intros a. rewrite elem_of_union, elem_of_singleton, HA. split.
        -- intros [->|Ha]; [eapply ancestor_parent|eapply ancestor_step]; eauto.
        -- intros Ha. destruct (ancestor_inv _ _ _ Ha Hk) as (p' & Hp' & Hc).
           rewrite Hp in Hp'. injection Hp' as <-. done.
      * rewrite Hsz. lia.
      * intros fuel acc Hfuel. rewrite Hsz in *.
        destruct fuel as [|fuel]; [lia|]. simpl.
        unfold fetch_parent. rewrite Hp, Hprow. simpl.
        rewrite Hloop by lia. f_equal. lia.
    + exists ∅. split; [|split].
      * intros a. split; [by intros ?%not_elem_of_empty|]. intros Ha.
        destruct (ancestor_inv _ _ _ Ha Hk) as (p' & Hp' & _). congruence.
      * rewrite size_empty. lia.
      * intros fuel acc Hfuel. rewrite size_empty in *.
        destruct fuel as [|fuel]; [lia|]. simpl.
        unfold fetch_parent. rewrite Hp. simpl.
        destruct fuel; simpl; f_equal; lia.
Qed.

(** *** total_replies counts the active descendants *)

Lemma total_replies_S fuel c :
  total_replies (S fuel) tbl c =
  fold_left
    (fun acc reply =>
       (count <- acc ;;
        sub <- total_replies fuel tbl reply ;;
        Ok (count + (1 + sub)))%py)
    (active_replies tbl c) (Ok 0).
Proof. reflexivity. Qed.

Lemma elem_of_active_replies c r :
  r ∈ active_replies tbl c <->
  (exists key, tbl !! key = Some r) /\ parent r = Some (id c) /\ is_active r = true.
Proof.
  unfold active_replies.
  rewrite list_elem_of_In, filter_In, <- list_elem_of_In, elem_of_rows, andb_true_iff.
  destruct (parent r) as [p|].
  - rewrite Nat.eqb_eq. split; intros (? & ? & ?); repeat split; auto; congruence.
  - split; intros (? & ? & ?); discriminate.
Qed.

Hypothesis Hkeyed : keyed tbl.

Lemma NoDup_rows : NoDup (rows tbl).
Proof.
  unfold rows. apply NoDup_fmap_2_strong; [|apply NoDup_map_to_list].
  intros [k1 r1] [k2 r2] H1%elem_of_map_to_list H2%elem_of_map_to_list Heq.
  simpl in *. subst. f_equal.
  by rewrite <- (Hkeyed _ _ H1), <- (Hkeyed _ _ H2).
Qed.

Lemma NoDup_active_replies c : NoDup (active_replies tbl c).
Proof.
  unfold active_replies.
  apply NoDup_ListNoDup, List.NoDup_filter, NoDup_ListNoDup, NoDup_rows.
Qed.

(** The loop of [total_replies] over replies whose subtrees are
    already counted. *)
Lemma total_replies_fold k n (R : list Comment) :
  NoDup R ->
  (forall r, r ∈ R ->
     tbl !! id r = Some r /\ parent r = Some k /\ is_active r = true) ->
  (forall r, r ∈ R ->
     exists D : gset nat,
       (forall j, j ∈ D <-> active_descendant tbl (id r) j) /\
       forall fuel, n <= fuel -> total_replies fuel tbl r = Ok (size D)) ->
  exists D : gset nat,
    (forall j, j ∈ D <->
               exists r, r ∈ R /\ (j = id r \/ active_descendant tbl (id r) j)) /\
    forall fuel acc, n <= fuel ->
      fold_left
        (fun acc reply =>
           (count <- acc ;;
            sub <- total_replies fuel tbl reply ;;
            Ok (count + (1 + sub)))%py)
        R (Ok acc)
      = Ok (acc + size D).
Proof.
  induction R as [|r R IH]; intros Hnd Hrep Hsub.
  - exists ∅. split.
    + intros j. split; [by intros ?%not_elem_of_empty|].
      intros (r & Hr & _). by apply not_elem_of_nil in Hr.
    + intros fuel acc _. rewrite size_empty. simpl. f_equal. lia.
  - apply NoDup_cons in Hnd as [Hr_notin Hnd].
    destruct (Hrep r) as (Hr & Hp & Hact); [by left|].
    destruct (Hsub r) as (Dr & HDr & Hcount); [by left|].
    destruct IH as (D' & HD' & Hfold); [done|..].
    { intros r' Hr'. apply Hrep. by right. }
    { intros r' Hr'. apply Hsub. by right. }
    assert (Hself : id r ∉ Dr).
    { rewrite HDr. intros Hd. apply (Hacyclic (id r)).
      by apply active_descendant_ancestor. }
    assert (Hd1 : ({[id r]} : gset nat) ## Dr) by by apply disjoint_singleton_l.
    assert (Hd2 : ({[id r]} ∪ Dr) ## D').
    { apply elem_of_disjoint. intros j Hj Hj'.
      apply HD' in Hj' as (r' & Hr' & Hjr').
      destruct (Hrep r') as (Hs' & Hp' & _); [by right|].
      apply (siblings_disjoint k (id r) (id r') r r' j); try done.
      - intros Heq. apply Hr_notin. rewrite Heq in Hr.
        rewrite Hs' in Hr. by injection Hr as <-.
      - apply elem_of_union in Hj as [Hj|Hj].
        + left. by apply elem_of_singleton in Hj.
        + right. by apply active_descendant_ancestor, HDr.
      - destruct Hjr' as [->|Hj']; [by left|].
        right. by apply active_descendant_ancestor. }
    exists ({[id r]} ∪ Dr ∪ D'). split.
    + intros j. rewrite !elem_of_union, elem_of_singleton, HDr, HD'. split.
      * intros [[->|Hj]|(r' & Hr' & Hj)].
        -- exists r. split; [by left|by left].
        -- exists r. split; [by left|by right].
        -- exists r'. split; [by right|done].
      * intros (r' & [->|Hr']%elem_of_cons & Hj).
        -- left. destruct Hj; [by left|by right].
        -- right. eauto.
    + intros fuel acc Hfuel. simpl. rewrite (Hcount fuel Hfuel). simpl.
      rewrite (Hfold fuel _ Hfuel).
      rewrite (size_union _ _ Hd2), (size_union _ _ Hd1), size_singleton.
      f_equal. lia.
Qed.

Lemma total_replies_counts :
  forall n k c (visited : list nat),
    tbl !! k = Some c ->
    NoDup visited ->
    (forall v, v ∈ visited -> ancestor tbl v k /\ is_Some (tbl !! v)) ->
    size tbl <= length visited + n ->
    exists D : gset nat,
      (forall j, j ∈ D <-> active_descendant tbl k j) /\
      forall fuel, n <= fuel -> total_replies fuel tbl c = Ok (size D).
Proof.
  induction n as [|n IH]; intros k c visited Hk Hnd Hvis Hsize.
  - exfalso.
    assert (Hb : length (k :: visited) <= size tbl).
    { apply stored_keys_bound.
      - constructor; [|done]. intros Hin. apply (Hacyclic k). by apply Hvis.
      - intros v [->|Hv]%elem_of_cons; [eauto|]. by apply Hvis. }
    simpl in Hb. lia.
  - assert (Hid : id c = k) by by apply Hkeyed.
    destruct (total_replies_fold k n (active_replies tbl c)) as (D & HD & Hfold).
    + apply NoDup_active_replies.
    + intros r [[key Hkey] [Hp Hact]]%elem_of_active_replies.
      rewrite (Hkeyed _ _ Hkey). rewrite <- Hid. done.
    + intros r [[key Hkey] [Hp Hact]]%elem_of_active_replies.
      assert (Hr : tbl !! id r = Some r) by by rewrite (Hkeyed _ _ Hkey).
      rewrite Hid in Hp.
      apply (IH (id r) r (k :: visited)); [done|..].
      * constructor; [|done]. intros Hin. apply (Hacyclic k). by apply Hvis.
      * intros v [->|Hv]%elem_of_cons.
        -- split; [eapply ancestor_parent; eauto|eauto].
        -- split; [|by apply Hvis].
           eapply ancestor_trans; [by apply Hvis|].
           eapply ancestor_parent; eauto.
      * simpl. lia.
    + exists D. split.
      * intros j. rewrite HD. split.
        -- intros (r & Hr0 & Hj).
           apply elem_of_active_replies in Hr0 as [[key Hkey] [Hp Hact]].
           assert (Hr : tbl !! id r = Some r) by by rewrite (Hkeyed _ _ Hkey).
           rewrite Hid in Hp.
           destruct Hj as [->|Hj].
           ++ eapply active_reply; eauto.
           ++ eapply active_descendant_below; eauto.
        -- induction 1 as [j row Hj Hp Hact|j row m _ IHd Hj Hp Hact].
           ++ exists row. split; [|left; symmetry; by apply Hkeyed].
              apply elem_of_active_replies. rewrite Hid. eauto.
           ++ destruct IHd as (r & Hr & Hm). exists r. split; [done|]. right.
              destruct Hm as [->|Hm].
              ** eapply active_reply; eauto.
              ** eapply active_nested; eauto.
      * intros fuel Hfuel. destruct fuel as [|fuel]; [lia|].
        rewrite total_replies_S, (Hfold fuel 0); [done|lia].
Qed.

End Trees.

(** C10.  In a finite table whose parent links are acyclic (no
    comment is its own ancestor) and name stored rows, with rows
    stored under their key, get_thread_depth of a stored comment
    returns, for every fuel of at least the size of the table, the
    number of its ancestors, and total_replies returns the number of
    comments reached from it through chains of active replies. *)
Theorem thread_counts_terminate (tbl : CommentTable) (k : nat) (c : Comment) :
  acyclic tbl -> keyed tbl -> parents_exist tbl ->
  tbl !! k = Some c ->
  (exists A : gset nat,
      (forall a, a ∈ A <-> ancestor tbl a k) /\
      forall fuel, size tbl <= fuel ->
                   get_thread_depth fuel tbl c = Ok (size A)) /\
  (exists D : gset nat,
      (forall j, j ∈ D <-> active_descendant tbl k j) /\
      forall fuel, size tbl <= fuel ->
                   total_replies fuel tbl c = Ok (size D)).
Proof.
  intros Hacyc Hkeyed Hfk Hk. split.
  - destruct (thread_depth_loop_counts tbl Hacyc Hfk (S (size tbl)) k c [])
      as (A & HA & HsA & Hloop); [done|constructor|..].
    { intros v Hv. by apply not_elem_of_nil in Hv. }
    { simpl. lia. }
    exists A. split; [done|]. intros fuel Hfuel.
    unfold get_thread_depth.
    specialize (Hloop (S fuel) 0 ltac:(lia)). simpl in Hloop.
    destruct (fetch_parent tbl c) as [next| |]; simpl in *; try discriminate.
    replace (0 + 1) with 1 in Hloop by lia.
    apply thread_depth_loop_unshift in Hloop as (d & Heq & ->).
    f_equal. lia.
  - destruct (total_replies_counts tbl Hacyc Hkeyed (size tbl) k c [])
      as (D & HD & Hcount); [done|constructor|..].
    { intros v Hv. by apply not_elem_of_nil in Hv. }
    { simpl. lia. }
    exists D. split; [done|]. intros fuel Hfuel. by apply Hcount.
Qed.

(** A table in which every parent key is smaller than the key of the
    reply is acyclic. *)
Lemma acyclic_of_order (tbl : CommentTable) :
  map_Forall (fun k row => forall p, parent row = Some p -> p < k) tbl ->
  acyclic tbl.
Proof.
  intros Hord.
  assert (Hlt : forall a k, ancestor tbl a k -> a < k).
  { induction 1 as [k row p Hk Hp|k row p a Hk Hp _ IH].
    - by apply (Hord k row).
    - specialize (Hord k row Hk p Hp). lia. }
  intros k Hk. apply Hlt in Hk. lia.
Qed.

(** A thread on article 42: 20 is the root, 21 replies to 20 and 22
    to 21; 23 is a soft-deleted reply to 20 with an active reply 24. *)
Definition reply_row (k : nat) (p : option nat) (active : bool) : Comment :=
  mkComment k 1 "42" 100 "text" p active false false 0 0 0.

Definition sample_thread : CommentTable :=
  <[20 := reply_row 20 None true]>
    (<[21 := reply_row 21 (Some 20) true]>
       (<[22 := reply_row 22 (Some 21) true]>
          (<[23 := reply_row 23 (Some 20) false]>
             (<[24 := reply_row 24 (Some 23) true]> ∅)))).

Ltac sample_rows tac :=
  unfold sample_thread at 1;
  repeat (apply map_Forall_insert_2; [solve [tac]|]);
  apply map_Forall_empty.

Lemma sample_thread_acyclic : acyclic sample_thread.
Proof.
  apply acyclic_of_order. sample_rows ltac:(intros p [= <-]; lia).
Qed.

Lemma sample_thread_keyed : keyed sample_thread.
Proof.
  assert (H : map_Forall (fun k row => id row = k) sample_thread)
    by sample_rows ltac:(reflexivity).
  exact H.
Qed.

Lemma sample_thread_parents : parents_exist sample_thread.
Proof.
  assert (H : map_Forall
                (fun _ row => forall p, parent row = Some p ->
                                        is_Some (sample_thread !! p))
                sample_thread)
    by sample_rows ltac:(intros p [= <-]; vm_compute; eauto).
  intros k row p Hk Hp. exact (H k row Hk p Hp).
Qed.

Example sample_thread_depth :
  get_thread_depth 5 sample_thread (reply_row 22 (Some 21) true) = Ok 2.
Proof. vm_compute. reflexivity. Qed.

Example sample_thread_total_replies :
  total_replies 5 sample_thread (reply_row 20 None true) = Ok 2.
Proof. vm_compute. reflexivity. Qed.

Lemma thread_counts_terminate_witness :
  (exists A : gset nat,
      (forall a, a ∈ A <-> ancestor sample_thread a 21) /\
      forall fuel, size sample_thread <= fuel ->
                   get_thread_depth fuel sample_thread (reply_row 21 (Some 20) true)
                   = Ok (size A)) /\
  (exists D : gset nat,
      (forall j, j ∈ D <-> active_descendant sample_thread 21 j) /\
      forall fuel, size sample_thread <= fuel ->
                   total_replies fuel sample_thread (reply_row 21 (Some 20) true)
                   = Ok (size D)).
Proof.
  apply (thread_counts_terminate sample_thread 21 (reply_row 21 (Some 20) true)).
  - exact sample_thread_acyclic.
  - exact sample_thread_keyed.
  - exact sample_thread_parents.
  - vm_compute. reflexivity.
Defined.

End CommentProofs.

(* ===================================================================== *)
(** * Properties of the like toggle                                      *)
(* ===================================================================== *)

Module LikeProofs.
Import Comments CommentLikes.
Local Open Scope world_scope.

(** *** Counters stay non-negative *)

Definition nonneg (c : Comment) : Prop := (0 <= likes_count c)%Z.

(** Every [Comment] object and every stored row has a non-negative
    [likes_count]. *)
Definition counts_nonneg (w : World) : Prop :=
  Forall nonneg (heap w) /\ map_Forall (fun _ c => nonneg c) (comments_tbl w).

(** [post m Q]: [m] keeps the counters non-negative, whether it
    returns or raises, and a returned value satisfies [Q]. *)
Definition post {A} (m : M A) (Q : A -> Prop) : Prop :=
  forall w, counts_nonneg w ->
            counts_nonneg (m w).2 /\ forall a, (m w).1 = Ok a -> Q a.

Lemma post_ret {A} (a : A) (Q : A -> Prop) : Q a -> post (ret a) Q.
Proof. intros HQ w Hw. split; [done|]. by intros a' [= <-]. Qed.

Lemma post_raise {A} e (Q : A -> Prop) : post (raise e) Q.
Proof. intros w Hw. split; [done|]. intros a [=]. Qed.

Lemma post_bind {A B} (m : M A) (k : A -> M B) (Q : A -> Prop) (R : B -> Prop) :
  post m Q -> (forall a, Q a -> post (k a) R) -> post (mbind m k) R.
Proof.
  intros Hm Hk w Hw. unfold mbind. destruct (Hm w Hw) as [Hw' HQ].
  destruct (m w) as [[a| |] w']; simpl in *.
  - apply Hk; auto.
  - split; [done|]. intros ? [=].
  - split; [done|]. intros ? [=].
Qed.

Lemma post_weaken {A} (m : M A) (Q Q' : A -> Prop) :
  post m Q -> (forall a, Q a -> Q' a) -> post m Q'.
Proof. intros Hm HQ w Hw. destruct (Hm w Hw). split; auto. Qed.

Lemma post_get_world : post get_world counts_nonneg.
Proof. intros w Hw. split; [done|]. by intros a [= <-]. Qed.

Lemma post_modify (f : World -> World) :
  (forall w, counts_nonneg w -> counts_nonneg (f w)) ->
  post (modify f) (fun _ => True).
Proof. intros Hf w Hw. split; [by apply Hf|done]. Qed.

Lemma post_alloc c : nonneg c -> post (alloc c) (fun _ => True).
Proof.
  intros Hc w [Hh Ht]. split; [|done]. split; [|done]. simpl.
  apply Forall_app. split; [done|]. by constructor.
Qed.

Lemma post_deref a : post (deref a) nonneg.
Proof.
  intros w [Hh Ht]. unfold deref.
  destruct (heap w !! a) as [c|] eqn:Hc; simpl; (split; [done|]); [|intros ? [=]].
  intros c' [= <-]. by eapply Forall_lookup_1.
Qed.

Lemma post_assign a f :
  (forall c, nonneg c -> nonneg (f c)) -> post (assign a f) (fun _ => True).
Proof.
  intros Hf w [Hh Ht]. unfold assign.
  destruct (heap w !! a) as [c|] eqn:Hc; simpl; (split; [|done]); [|done].
  split; [|done]. simpl. apply Forall_insert; [done|].
  apply Hf. by eapply Forall_lookup_1.
Qed.

Lemma post_delay t : post (delay t) (fun _ => True).
Proof. apply post_modify. intros w Hw. exact Hw. Qed.

Lemma write_column_nonneg f src dst :
  nonneg src -> nonneg dst -> nonneg (write_column f src dst).
Proof.
  intros Hs Hd. unfold write_column.
  repeat (match goal with |- context [String.eqb ?a ?b] => destruct (String.eqb a b) end;
          [done|]).
  done.
Qed.

Lemma write_columns_nonneg fs src dst :
  nonneg src -> nonneg dst -> nonneg (write_columns fs src dst).
Proof.
  intros Hs. unfold write_columns. revert dst.
  induction fs as [|f fs IH]; intros dst Hd; simpl; [done|].
  apply IH. by apply write_column_nonneg.
Qed.

Lemma save_nonneg fuel (tbl : CommentTable) self uf now self' tbl' created :
  nonneg self -> map_Forall (fun _ c => nonneg c) tbl ->
  Comments.save fuel tbl self uf now = Ok (self', tbl', created) ->
  nonneg self' /\ map_Forall (fun _ c => nonneg c) tbl'.
Proof.
  intros Hs Ht. unfold Comments.save.
  destruct (clean fuel tbl self); simpl; try discriminate.
  unfold model_save. destruct uf as [fs|].
  - destruct (tbl !! id self) as [row|] eqn:Hrow;
      [|intros [= <- <- <-]; split; [done|]; by apply map_Forall_insert_2].
    assert (Hs' : nonneg (if existsb (String.eqb "updated_at") fs
                          then set_updated_at now self else self))
      by by destruct (existsb _ fs).
    intros [= <- <- <-]. split; [done|].
    apply map_Forall_insert_2; [|done].
    apply write_columns_nonneg; [done|]. by apply (Ht (id self)).
  - destruct (tbl !! id self) as [row|] eqn:Hrow; intros [= <- <- <-];
      (split; [done|]); by apply map_Forall_insert_2.
Qed.

Lemma post_comment_post_save a created :
  post (comment_post_save a created) (fun _ => True).
Proof.
  unfold comment_post_save. destruct created; [|by apply post_ret].
  eapply post_bind; [apply post_deref|]. intros self _.
  eapply post_bind; [apply post_get_world|]. intros w _.
  eapply post_bind.
  { instantiate (1 := fun _ => True).
    destruct (targets w !! _) as [[ca|]|]; try by apply post_ret.
    destruct (negb _); [apply post_delay|by apply post_ret]. }
  intros _ _. eapply post_bind; [|intros _ _; apply post_delay].
  instantiate (1 := fun _ => True).
  destruct (parent self) as [p|]; [|by apply post_ret].
  destruct (comments_tbl w !! p) as [par|]; [|apply post_raise].
  destruct (negb _); [apply post_delay|by apply post_ret].
Qed.

Lemma post_Comment_save fuel a uf now :
  post (Comment_save fuel a uf now) (fun _ => True).
Proof.
  unfold Comment_save.
  eapply post_bind; [apply post_deref|]. intros self Hself.
  eapply post_bind.
  { instantiate (1 := fun saved => nonneg saved.1).
    intros w [Hh Ht].
    destruct (Comments.save fuel (comments_tbl w) self uf now)
      as [[[self' tbl'] created]| |] eqn:Hsave; simpl.
    - destruct (save_nonneg _ _ _ _ _ _ _ _ Hself Ht Hsave) as [Hs' Ht'].
      split; [by split|]. by intros ? [= <-].
    - split; [by split|]. intros ? [=].
    - split; [by split|]. intros ? [=]. }
  intros saved Hsaved.
  eapply post_bind; [apply post_assign; intros; exact Hsaved|].
  intros _ _. apply post_comment_post_save.
Qed.

Lemma post_load_comment k : post (load_comment k) (fun _ => True).
Proof.
  unfold load_comment. eapply post_bind; [apply post_get_world|].
  intros w [_ Ht]. destruct (comments_tbl w !! k) as [row|] eqn:Hrow.
  - apply post_alloc. by apply (Ht k).
  - apply post_raise.
Qed.

Lemma post_get_object_or_404 k : post (get_object_or_404 k) (fun _ => True).
Proof.
  unfold get_object_or_404. eapply post_bind; [apply post_get_world|].
  intros w [_ Ht]. destruct (comments_tbl w !! k) as [row|] eqn:Hrow.
  - destruct (is_active row); [|apply post_raise].
    apply post_alloc. by apply (Ht k).
  - apply post_raise.
Qed.

Lemma post_like_comment inst : post (like_comment inst) (fun _ => True).
Proof.
  unfold like_comment. destruct (comment_cache inst).
  - by apply post_ret.
  - apply post_load_comment.
Qed.

Lemma likes_count_query_nonneg c w : (0 <= likes_count_query c w)%Z.
Proof. unfold likes_count_query. lia. Qed.

Lemma post_comment_like_post_save fuel inst created now :
  post (comment_like_post_save fuel inst created now) (fun _ => True).
Proof.
  unfold comment_like_post_save. destruct created; [|by apply post_ret].
  eapply post_bind; [apply post_like_comment|]. intros c _.
  eapply post_bind; [apply post_get_world|]. intros w _.
  eapply post_bind.
  { apply post_assign. intros ? _. apply likes_count_query_nonneg. }
  intros _ _. eapply post_bind; [apply post_Comment_save|]. intros _ _.
  eapply post_bind; [apply post_deref|]. intros self _.
  destruct (negb _); [apply post_delay|by apply post_ret].
Qed.

Lemma post_comment_like_post_delete fuel inst now :
  post (comment_like_post_delete fuel inst now) (fun _ => True).
Proof.
  unfold comment_like_post_delete.
  eapply post_bind; [apply post_like_comment|]. intros c _.
  eapply post_bind; [apply post_get_world|]. intros w _.
  eapply post_bind.
  { apply post_assign. intros ? _. unfold nonneg. simpl. lia. }
  intros _ _. apply post_Comment_save.
Qed.

(** A rollback restores tables that had non-negative counters. *)
Lemma post_atomic {A} (m : M A) (Q : A -> Prop) : post m Q -> post (atomic m) Q.
Proof.
  intros Hm w Hw. unfold atomic. destruct (Hm w Hw) as [Hw' HQ].
  destruct (m w) as [[a| |] w']; simpl in *; [by split| |].
  all: split; [|intros ? [=]]; destruct Hw as [_ Ht], Hw' as [Hh _]; by split.
Qed.

Lemma post_get_or_create fuel cobj c u now :
  post (get_or_create fuel cobj c u now) (fun _ => True).
Proof.
  unfold get_or_create. eapply post_bind; [apply post_get_world|]. intros w _.
  destruct (List.find _ _); [by apply post_ret|].
  apply post_atomic.
  eapply post_bind; [apply post_modify; by intros ? ?|]. intros _ _.
  eapply post_bind; [apply post_comment_like_post_save|]. intros _ _.
  by apply post_ret.
Qed.

Lemma post_like_delete fuel inst now :
  post (like_delete fuel inst now) (fun _ => True).
Proof.
  unfold like_delete. apply post_atomic.
  eapply post_bind; [apply post_modify; by intros ? ?|]. intros _ _.
  apply post_comment_like_post_delete.
Qed.

Lemma post_comment_like_view fuel method u k now :
  post (comment_like_view fuel method u k now) (fun _ => True).
Proof.
  unfold comment_like_view. destruct (negb _); [by apply post_ret|].
  eapply post_bind; [apply post_get_object_or_404|]. intros cobj _.
  eapply post_bind; [apply post_get_or_create|]. intros lc _.
  eapply post_bind.
  { instantiate (1 := fun _ => True). destruct (negb lc.2).
    - eapply post_bind; [apply post_like_delete|]. intros _ _.
      eapply post_bind; [|intros _ _; by apply post_ret].
      apply post_assign. intros c _. unfold nonneg. simpl. lia.
    - eapply post_bind; [|intros _ _; by apply post_ret].
      apply post_assign. intros c Hc. unfold nonneg in *. simpl. lia. }
  intros liked _. eapply post_bind; [apply post_Comment_save|]. intros _ _.
  eapply post_bind; [apply post_deref|]. intros self _. by apply post_ret.
Qed.

Lemma toggle_nonneg fuel u k now w :
  counts_nonneg w -> counts_nonneg (toggle fuel u k now w).
Proof. intros Hw. by apply post_comment_like_view. Qed.

(** A sequence of toggle requests (user, comment, time). *)
Definition toggles (fuel : nat) (reqs : list (User * nat * Z)) (w : World) : World :=
  fold_left (fun w r => toggle fuel r.1.1 r.1.2 r.2 w) reqs w.

(** Counters stay non-negative: under any sequence of toggles by
    any users on any comments, no stored likes_count becomes
    negative. *)
Lemma likes_count_never_negative fuel reqs w k n :
  counts_nonneg w ->
  stored_likes_count k (toggles fuel reqs w) = Some n -> (0 <= n)%Z.
Proof.
  intros Hw. unfold toggles.
  assert (Hfin : counts_nonneg
                   (fold_left (fun w r => toggle fuel r.1.1 r.1.2 r.2 w) reqs w)).
  { revert w Hw. induction reqs as [|r reqs IH]; intros w Hw; simpl; [done|].
    apply IH. by apply toggle_nonneg. }
  unfold stored_likes_count. destruct Hfin as [_ Ht].
  destruct (comments_tbl _ !! k) as [c|] eqn:Hc; simpl; [|done].
  intros [= Hn]. rewrite <- Hn. by apply (Ht k).
Qed.

(** *** The first like counts twice *)

(** Comment 7 on article 42, written by user 100, with no likes; user
    200 sends the like request. *)
Definition fresh_comment : Comment :=
  mkComment 7 1 "42" 100 "A first comment" None true false false 0 10 10.
Definition before_like : World :=
  mkWorld {[7 := fresh_comment]} [] ∅ [] [].
Definition liker : User := mkUser 200 "bob" false false.

(** C2 on the code.  With no CommentLike for (7, 200) and
    likes_count 0, the first toggle records one CommentLike but
    answers and stores likes_count 2; the second toggle removes the
    row and stores likes_count 1. *)
Theorem like_toggle_counts_twice :
  let w1 := toggle 5 liker 7 50 before_like in
  let w2 := toggle 5 liker 7 60 w1 in
  (comment_like_view 5 "POST" liker 7 50 before_like).1 = Ok (JsonLiked true 2) /\
  likes_of 7 200 w1 = [mkCommentLike 7 200 50] /\
  stored_likes_count 7 w1 = Some 2%Z /\
  (comment_like_view 5 "POST" liker 7 60 w1).1 = Ok (JsonLiked false 1) /\
  likes_of 7 200 w2 = [] /\
  stored_likes_count 7 w2 = Some 1%Z.
Proof. vm_compute. repeat split. Qed.

End LikeProofs.

(* ===================================================================== *)
(** * Properties of notifications                                        *)
(* ===================================================================== *)

Module NotificationProofs.
Import Notifications.

Lemma mark_as_read_read (tbl : NotificationTable) self now :
  is_read self = true -> mark_as_read tbl self now = Ok (self, tbl).
Proof. intros Hread. unfold mark_as_read. by rewrite Hread. Qed.

Lemma lookup_mark_all (tbl : NotificationTable) u k :
  (mark_all_notifications_read tbl u).2 !! k
  = (fun n => if unread_of (user_pk u) n then set_is_read true n else n)
      <$> tbl !! k.
Proof. unfold mark_all_notifications_read. simpl. apply lookup_fmap. Qed.

(** Read notifications and mark-all.  mark_as_read on a read
    notification changes nothing, on the instance, in the table and
    through the view.  mark_all_notifications_read sets is_read on
    every unread notification of the recipient, touches no other
    column (read_at stays as it was) and no other row, and is
    idempotent. *)
Lemma mark_read_noop_and_mark_all :
  (forall (tbl : NotificationTable) self now,
      is_read self = true -> mark_as_read tbl self now = Ok (self, tbl)) /\
  (forall (tbl : NotificationTable) u k n now,
      tbl !! k = Some n -> recipient n = user_pk u -> is_read n = true ->
      mark_notification_read tbl u k now = Ok (Success, tbl)) /\
  (forall (tbl : NotificationTable) u k n,
      tbl !! k = Some n ->
      (mark_all_notifications_read tbl u).2 !! k
      = Some (if Nat.eqb (recipient n) (user_pk u) && negb (is_read n)
              then set_is_read true n else n)) /\
  (forall (tbl : NotificationTable) u,
      (mark_all_notifications_read (mark_all_notifications_read tbl u).2 u).2
      = (mark_all_notifications_read tbl u).2).
Proof.
  repeat split.
  - apply mark_as_read_read.
  - intros tbl u k n now Hk Hrec Hread. unfold mark_notification_read, get_for_recipient.
    rewrite Hk, Hrec, Nat.eqb_refl. by rewrite (mark_as_read_read _ _ _ Hread).
  - intros tbl u k n Hk. by rewrite lookup_mark_all, Hk.
  - intros tbl u. apply map_eq. intros k. rewrite !lookup_mark_all.
    destruct (tbl !! k) as [n|]; simpl; [|done]. f_equal.
    unfold unread_of. destruct (Nat.eqb (recipient n) (user_pk u)) eqn:He;
      destruct (is_read n) eqn:Hr; simpl; rewrite ?He, ?Hr; simpl; try done.
Qed.

(** Notifications 1 (unread) and 2 (read at time 5) of user 9, and
    notification 3 (unread) of user 8. *)
Definition note (k r : nat) (read : bool) (at_ : option Z) : Notification :=
  mkNotification k r (Some 4) comment "bob commented on your post"
                 (Some 1) (Some "42") read 0 at_.

Definition inbox : NotificationTable :=
  <[1 := note 1 9 false None]>
    (<[2 := note 2 9 true (Some 5%Z)]> (<[3 := note 3 8 false None]> ∅)).

Definition reader : User := mkUser 9 "alice" false false.

Example mark_all_leaves_read_at :
  (mark_all_notifications_read inbox reader).2 !! 1 = Some (note 1 9 true None) /\
  (mark_all_notifications_read inbox reader).2 !! 2 = Some (note 2 9 true (Some 5%Z)) /\
  (mark_all_notifications_read inbox reader).2 !! 3 = Some (note 3 8 false None).
Proof. vm_compute. repeat split. Qed.

(** C1 on the code.  [models.timezone] names nothing, so marking an
    unread notification read raises AttributeError before anything is
    saved: neither is_read nor read_at of the stored row changes, for
    the model method and for the view alike. *)
Theorem mark_as_read_raises :
  (forall (tbl : NotificationTable) self now,
      mark_as_read tbl (set_is_read false self) now
      = Raise (AttributeError "timezone")) /\
  mark_as_read inbox (note 1 9 false None) 7 = Raise (AttributeError "timezone") /\
  mark_notification_read inbox reader 1 7 = Raise (AttributeError "timezone").
Proof.
  split; [|split].
  - intros tbl self now. reflexivity.
  - reflexivity.
  - vm_compute. reflexivity.
Qed.

(** *** The comment handler *)

Lemma Comment_has_no_post instance :
  Comment_getattr instance "post" = Raise (AttributeError "post").
Proof. reflexivity. Qed.

(** User 2 (bob) comments on article 42 of user 1 (alice). *)
Definition site : Env :=
  mkEnv (<[1 := mkUser 1 "alice" false false]>
           (<[2 := mkUser 2 "bob" false false]> ∅))
        {[ (1, "42") := (1, 42) ]}.

Definition bobs_comment : Comments.Comment :=
  Comments.mkComment 5 1 "42" 2 "Nice article" None true false false 0 30 30.

(** C3 on the code.  The handler reads [instance.post], which a
    Comment does not have: for every newly created comment it raises
    AttributeError before any row is written, so that it never returns
    a table, and the comment of bob on the article of alice yields no
    Notification. *)
Theorem comment_notification_raises :
  (forall env channel_layer (tbl : NotificationTable) instance now,
      create_comment_notification env channel_layer tbl instance true now
      = Raise (AttributeError "post")) /\
  (forall env channel_layer (tbl : NotificationTable) instance now tbl' frames,
      create_comment_notification env channel_layer tbl instance true now
      <> Ok (tbl', frames)) /\
  create_comment_notification site true ∅ bobs_comment true 30
  = Raise (AttributeError "post").
Proof.
  split; [|split].
  - intros env cl tbl instance now. reflexivity.
  - intros env cl tbl instance now tbl' frames. discriminate.
  - reflexivity.
Qed.

End NotificationProofs.

(* ===================================================================== *)
(** * Properties of articles                                             *)
(* ===================================================================== *)

Module ArticleProofs.
Import Articles.






Section Save.
Variable slugify : string -> string.




End Save.

(** A draft written at time 10 is published at time 20. *)
Definition published_draft : Article :=
  mkArticle 1 "Hello World" "hello-world" 9 None "" "Some text" "published" None
            false true "Some text" "" 0 0 0 10 10.

Definition stored_draft : ArticleTable :=
  <[1 := set_status "draft" published_draft]> ∅.

Definition published_row : Article :=
  mkArticle 1 "Hello World" "hello-world" 9 None "" "Some text" "published"
            (Some 20%Z) false true "Some text" "" 0 0 0 10 20.





(** *** Strings *)

Lemma append_inj_l (s a b : string) : s ++ a = s ++ b -> a = b.
Proof. induction s as [|c s IH]; simpl; [done|]. intros [= H]. auto. Qed.


Lemma str_inj a b : str a = str b -> a = b.
Proof.
  unfold str. intros H.
  assert (Hu : Nat.to_uint a = Nat.to_uint b).
  { apply (f_equal NilEmpty.uint_of_string) in H.
    rewrite !NilEmpty.usu in H. by injection H. }
  apply (f_equal Nat.of_uint) in Hu. by rewrite !DecimalNat.Unsigned.of_to in Hu.
Qed.










Section UniqueSlug.
Variable slugify : string -> string.







End UniqueSlug.

(** *** Three articles, the last two with the same title *)







End ArticleProofs.

(* ===================================================================== *)
(** * Properties of the public profile                                   *)
(* ===================================================================== *)

Module UserProofs.
Import Users.

Definition set_full_name (v : string) (p : Profile) : Profile :=
  mkProfile v (bio p) (avatar p) (cover_image p) (gender p) (location p)
            (website p) (twitter p) (linkedin p) (github p) (theme p)
            (timezone p) (language p) (is_public p) (show_email p)
            (show_real_name p) (email_notifications p) (push_notifications p)
            (marketing_emails p).

Lemma cache_key_inj a b : cache_key a = cache_key b -> a = b.
Proof.
  unfold cache_key. intros H.
  apply ArticleProofs.append_inj_l in H. by apply ArticleProofs.str_inj.
Qed.

Section Lookup.
Variable storage_url : string -> string.
Variable isoformat : Z -> string.

(** What a private profile shows. *)
Definition private_projection (u : CustomUser) (p : Profile) : dict :=
  [("username", VStr (username u));
   ("avatar_url", VStr (avatar_url storage_url p));
   ("is_private", VBool true)].

(** Every cached public profile is the one the stored rows give. *)
Definition coherent (cache : Cache) (tbl : UserTable) : Prop :=
  forall uid d,
    cache !! cache_key uid = Some d ->
    exists u p, tbl !! uid = Some u /\ profile u = Some p /\
                d = public_profile_data storage_url isoformat u p.

Lemma public_profile_data_private u p :
  is_public p = false ->
  public_profile_data storage_url isoformat u p = private_projection u p.
Proof. intros H. unfold public_profile_data. by rewrite H. Qed.

Lemma public_profile_data_no_full_name u p :
  has_key "full_name" (public_profile_data storage_url isoformat u p) = false.
Proof.
  unfold public_profile_data.
  destruct (is_public p); [|reflexivity].
  destruct (show_real_name p); reflexivity.
Qed.

Lemma public_profile_data_hides_name u p v :
  show_real_name p = false ->
  public_profile_data storage_url isoformat u (set_full_name v p)
  = public_profile_data storage_url isoformat u p.
Proof.
  intros H. unfold public_profile_data, display_name. simpl.
  rewrite H, !andb_false_r. reflexivity.
Qed.

Lemma get_public_profile_miss (cache : Cache) (tbl : UserTable) uid u p :
  cache !! cache_key uid = None -> tbl !! uid = Some u -> profile u = Some p ->
  get_public_profile storage_url isoformat cache tbl uid
  = Ok (Some (public_profile_data storage_url isoformat u p),
        <[cache_key uid := public_profile_data storage_url isoformat u p]> cache).
Proof.
  intros Hmiss Hu Hp. unfold get_public_profile. by rewrite Hmiss, Hu, Hp.
Qed.

Lemma clear_user_cache_gone (cache : Cache) uid :
  clear_user_cache cache uid !! cache_key uid = None.
Proof.
  unfold clear_user_cache, cache_key. simpl.
  rewrite lookup_delete_ne by (intros [=]).
  rewrite lookup_delete_ne by (intros [=]).
  apply lookup_delete_eq.
Qed.

Lemma clear_user_cache_kept (cache : Cache) uid k d :
  clear_user_cache cache uid !! k = Some d -> cache !! k = Some d.
Proof.
  unfold clear_user_cache. simpl. intros H.
  repeat (apply lookup_delete_Some in H as [_ H]). done.
Qed.

(** C7.  On a cache miss, a user whose profile has is_public false
    is shown as exactly username, avatar_url and is_private: true,
    so that two such users who agree on username and avatar are
    shown alike whatever else differs; the dict of a public profile
    has no full_name key and, with show_real_name false, does not
    depend on the full name.  While the cache holds only what the
    stored rows give, which the lookup and the cache clearing after
    a profile save maintain, a cache hit answers the same. *)
Theorem private_profile_projection :
  (forall (cache : Cache) (tbl : UserTable) uid u p,
      cache !! cache_key uid = None -> tbl !! uid = Some u ->
      profile u = Some p -> is_public p = false ->
      get_public_profile storage_url isoformat cache tbl uid
      = Ok (Some [("username", VStr (username u));
                  ("avatar_url", VStr (avatar_url storage_url p));
                  ("is_private", VBool true)],
            <[cache_key uid := private_projection u p]> cache)) /\
  (forall u1 p1 u2 p2,
      is_public p1 = false -> is_public p2 = false ->
      username u1 = username u2 -> avatar p1 = avatar p2 ->
      public_profile_data storage_url isoformat u1 p1
      = public_profile_data storage_url isoformat u2 p2) /\
  (forall (cache : Cache) (tbl : UserTable) uid u p,
      cache !! cache_key uid = None -> tbl !! uid = Some u ->
      profile u = Some p -> is_public p = true -> show_real_name p = false ->
      exists d cache',
        get_public_profile storage_url isoformat cache tbl uid = Ok (Some d, cache') /\
        has_key "full_name" d = false /\
        forall v, public_profile_data storage_url isoformat u (set_full_name v p) = d) /\
  (forall (cache : Cache) (tbl : UserTable) uid u p,
      coherent cache tbl -> tbl !! uid = Some u -> profile u = Some p ->
      exists cache',
        get_public_profile storage_url isoformat cache tbl uid
        = Ok (Some (public_profile_data storage_url isoformat u p), cache') /\
        coherent cache' tbl) /\
  (forall (cache : Cache) (tbl : UserTable) uid p,
      coherent cache tbl ->
      coherent (save_profile cache tbl uid p).1 (save_profile cache tbl uid p).2).
Proof.
  split; [|split; [|split; [|split]]].
  - intros cache tbl uid u p Hmiss Hu Hp Hpriv.
    rewrite (get_public_profile_miss _ _ _ _ _ Hmiss Hu Hp).
    by rewrite (public_profile_data_private _ _ Hpriv).
  - intros u1 p1 u2 p2 H1 H2 Hname Havatar.
    rewrite !public_profile_data_private by done.
    unfold private_projection, avatar_url. by rewrite Hname, Havatar.
  - intros cache tbl uid u p Hmiss Hu Hp Hpub Hhide.
    eexists _, _. split; [by apply get_public_profile_miss|].
    split; [apply public_profile_data_no_full_name|].
    intros v. by apply public_profile_data_hides_name.
  - intros cache tbl uid u p Hco Hu Hp.
    destruct (cache !! cache_key uid) as [d|] eqn:Hc.
    + exists cache. split; [|done].
      unfold get_public_profile. rewrite Hc.
      destruct (Hco uid d Hc) as (u' & p' & Hu' & Hp' & ->).
      rewrite Hu in Hu'. injection Hu' as <-.
      rewrite Hp in Hp'. by injection Hp' as <-.
    + eexists. split; [by apply get_public_profile_miss|].
      intros uid' d Hd. apply lookup_insert_Some in Hd as [[Hk <-]|[_ Hd]].
      * apply cache_key_inj in Hk as <-. eauto.
      * by apply Hco.
  - intros cache tbl uid p Hco. unfold save_profile.
    destruct (tbl !! uid) as [u|] eqn:Hu; simpl; [|done].
    intros uid' d Hd.
    assert (Hne : uid <> uid').
    { intros ->. by rewrite clear_user_cache_gone in Hd. }
    apply clear_user_cache_kept in Hd.
    destruct (Hco uid' d Hd) as (u' & p' & Hu' & Hp' & ->).
    exists u', p'. by rewrite lookup_insert_ne.
Qed.

End Lookup.

(** Two private profiles with the same user name and avatar, and a
    public profile that hides the real name. *)
Definition media (name : string) : string := "/media/" ++ name.
Definition iso (t : Z) : string := str (Z.to_nat t).

Definition private_a : Profile :=
  mkProfile "Alice Adams" "Gardener" (Some "avatars/a.png") None "F" "Oslo"
            "https://a.example" "" "" "" "light" "UTC" "en"
            false true true true true false.

Definition private_b : Profile :=
  mkProfile "" "" (Some "avatars/a.png") (Some "covers/b.png") "" "" "" "" "" ""
            "dark" "CET" "fr" false false false false false true.

Definition hidden_name : Profile :=
  mkProfile "Carol Clark" "Writer" None None "F" "Rome" "" "" "" ""
            "light" "UTC" "en" true false false true true false.

Definition member (k : nat) (name : string) (p : Profile) : CustomUser :=
  mkCustomUser k (name ++ "@example.com") name "First" "Last" true "" 0 100 true (Some p).

Definition members : UserTable :=
  <[1 := member 1 "alice" private_a]> (<[3 := member 3 "carol" hidden_name]> ∅).

Lemma private_profile_projection_witness :
  get_public_profile media iso ∅ members 1
  = Ok (Some [("username", VStr "alice");
              ("avatar_url", VStr (avatar_url media private_a));
              ("is_private", VBool true)],
        <[cache_key 1 := private_projection media (member 1 "alice" private_a) private_a]> ∅) /\
  public_profile_data media iso (member 1 "alice" private_a) private_a
  = public_profile_data media iso (member 2 "alice" private_b) private_b /\
  (exists d cache',
      get_public_profile media iso ∅ members 3 = Ok (Some d, cache') /\
      has_key "full_name" d = false /\
      forall v, public_profile_data media iso (member 3 "carol" hidden_name)
                                    (set_full_name v hidden_name) = d).
Proof.
  destruct (private_profile_projection media iso) as (Hpriv & Hsame & Hhide & _).
  split; [|split].
  - apply (Hpriv ∅ members 1 (member 1 "alice" private_a) private_a);
      vm_compute; reflexivity.
  - apply (Hsame (member 1 "alice" private_a) private_a
                 (member 2 "alice" private_b) private_b); reflexivity.
  - apply (Hhide ∅ members 3 (member 3 "carol" hidden_name) hidden_name);
      vm_compute; reflexivity.
Defined.

End UserProofs.

(* ===================================================================== *)
(** * Counting the elements a test selects                               *)
(* ===================================================================== *)

Module ListFacts.

Lemma filter_length_Permutation {A} (P : A -> bool) (l l' : list A) :
  l ≡ₚ l' -> length (List.filter P l) = length (List.filter P l').
Proof.
  induction 1 as [|x l l' _ IH|x y l|l1 l2 l3 _ IH1 _ IH2]; simpl.
  - done.
  - destruct (P x); simpl; by rewrite IH.
  - destruct (P x), (P y); done.
  - by rewrite IH1.
Qed.

Lemma filter_length_fmap {A B} (P : B -> bool) (f : A -> B) (l : list A) :
  length (List.filter P (f <$> l)) = length (List.filter (fun x => P (f x)) l).
Proof.
  induction l as [|x l IH]; csimpl; [done|].
  destruct (P (f x)); csimpl; by rewrite IH.
Qed.

Lemma filter_length_ext {A} (P Q : A -> bool) (l : list A) :
  (forall x, P x = Q x) -> length (List.filter P l) = length (List.filter Q l).
Proof.
  intros H. induction l as [|x l IH]; simpl; [done|].
  rewrite H. destruct (Q x); simpl; by rewrite IH.
Qed.

Lemma filter_length_none {A} (P : A -> bool) (l : list A) :
  (forall x, P x = false) -> length (List.filter P l) = 0.
Proof.
  intros H. induction l as [|x l IH]; simpl; [done|]. by rewrite H.
Qed.

End ListFacts.

(* ===================================================================== *)
(** * Properties of the further comment operations                       *)
(* ===================================================================== *)

Module CommentOpsProofs.
Import Comments CommentOps ListFacts.

(** *** Permissions *)

Lemma elem_of_filter_rows (P : Comment -> bool) (tbl : CommentTable) c :
  c ∈ List.filter P (rows tbl) <-> c ∈ rows tbl /\ P c = true.
Proof. rewrite !list_elem_of_In, filter_In. done. Qed.

(** The delete view and [can_delete].  Every comment the view's
    queryset offers to a user is one [can_delete] grants; a stored
    comment that [can_delete] grants is offered when the user is staff
    or the author; a superuser who is neither is offered nothing of
    other authors. *)
Theorem delete_view_within_can_delete (tbl : CommentTable) (u : User) (c : Comment) :
  (c ∈ delete_view_queryset tbl u -> c ∈ rows tbl /\ can_delete c u = true) /\
  (c ∈ rows tbl -> is_staff u = true \/ user_pk u = author c ->
   c ∈ delete_view_queryset tbl u) /\
  (is_staff u = false -> user_pk u <> author c ->
   c ∉ delete_view_queryset tbl u).
Proof.
  unfold delete_view_queryset, can_delete. repeat split.
  - by destruct (is_staff u); [|apply elem_of_filter_rows in H as [? _]].
  - destruct (is_staff u) eqn:Hs; [by rewrite orb_true_r|].
    apply elem_of_filter_rows in H as [_ H]. apply Nat.eqb_eq in H.
    rewrite <- H, Nat.eqb_refl. done.
  - intros Hrow [Hs|Ha]; [by rewrite Hs|].
    destruct (is_staff u); [done|]. apply elem_of_filter_rows.
    split; [done|]. rewrite Ha. apply Nat.eqb_refl.
  - intros Hs Hne. rewrite Hs. rewrite elem_of_filter_rows.
    intros [_ H]. apply Nat.eqb_eq in H. congruence.
Qed.

Lemma delete_view_within_can_delete_witness :
  let c := mkComment 1 1 "42" 7 "text" None true false false 0 100 100 in
  let tbl : CommentTable := {[1 := c]} in
  let root := mkUser 9 "root" false true in
  can_delete c root = true /\ c ∉ delete_view_queryset tbl root.
Proof.
  intros c tbl root. split; [reflexivity|].
  apply (delete_view_within_can_delete tbl root c); [reflexivity|].
  vm_compute. discriminate.
Defined.

(** The update view and [can_edit].  The view's queryset holds the
    user's own comments, whatever their age: it offers a comment
    [can_edit] refuses once the comment is 15 minutes old, and it
    withholds from staff the comments of others, which [can_edit]
    grants them. *)
Theorem update_view_ignores_can_edit (tbl : CommentTable) (u : User) (c : Comment)
        (now : Z) :
  (c ∈ update_view_queryset tbl u <-> c ∈ rows tbl /\ author c = user_pk u) /\
  (c ∈ update_view_queryset tbl u ->
   (created_at c + timedelta_minutes 15 <= now)%Z -> can_edit c u now = false) /\
  (is_staff u = true -> author c <> user_pk u ->
   can_edit c u now = true /\ c ∉ update_view_queryset tbl u).
Proof.
  assert (Hin : c ∈ update_view_queryset tbl u
                <-> c ∈ rows tbl /\ author c = user_pk u).
  { unfold update_view_queryset. rewrite elem_of_filter_rows.
    by rewrite Nat.eqb_eq. }
  split; [exact Hin|]. split.
  - intros [_ Ha]%Hin Hold. unfold can_edit.
    rewrite <- Ha, Nat.eqb_refl. apply Z.ltb_ge. lia.
  - intros Hs Hne. split.
    + unfold can_edit. destruct (Nat.eqb_spec (user_pk u) (author c)); [congruence|].
      by rewrite Hs.
    + intros [_ Ha]%Hin. done.
Qed.

Lemma update_view_ignores_can_edit_witness :
  let c := mkComment 1 1 "42" 7 "text" None true false false 0 100 100 in
  let tbl : CommentTable := {[1 := c]} in
  let ann := mkUser 7 "ann" false false in
  c ∈ update_view_queryset tbl ann /\
  can_edit c ann (100 + timedelta_minutes 15) = false.
Proof.
  intros c tbl ann.
  assert (Hin : c ∈ update_view_queryset tbl ann).
  { apply (update_view_ignores_can_edit tbl ann c 0%Z). split; [|reflexivity].
    vm_compute. left. }
  split; [exact Hin|].
  apply (update_view_ignores_can_edit tbl ann c); [exact Hin|].
  vm_compute. discriminate.
Defined.

(** *** Partial saves *)

(** Flagging writes the is_flagged column and nothing else: the
    stored row keeps every other column, also where the instance in
    hand is stale, and all other rows stay as they are. *)
Theorem flag_writes_only_is_flagged fuel (tbl : CommentTable) self row now :
  tbl !! id self = Some row ->
  clean fuel tbl self = Ok tt ->
  flag fuel tbl self now
  = Ok (set_is_flagged true self, <[id self := set_is_flagged true row]> tbl).
Proof.
  intros Hrow Hclean. unfold flag, save.
  change (clean fuel tbl (set_is_flagged true self)) with (clean fuel tbl self).
  rewrite Hclean. simpl. unfold model_save. simpl. by rewrite Hrow.
Qed.

(** Comment 10 was soft-deleted after the instance in hand was read. *)
Lemma flag_writes_only_is_flagged_witness :
  let stale := mkComment 10 1 "42" 7 "my words" None true false false 3 100 100 in
  let row := mkComment 10 1 "42" 7 "[Comment deleted]" None false false false 4 100 100 in
  flag 1 {[10 := row]} stale 200
  = Ok (set_is_flagged true stale, <[10 := set_is_flagged true row]> {[10 := row]}).
Proof.
  intros stale row.
  apply (flag_writes_only_is_flagged 1 {[10 := row]} stale row 200%Z);
    vm_compute; reflexivity.
Defined.

Lemma run_mark_as_edited fuel (tbl : CommentTable) self row now :
  tbl !! id self = Some row ->
  clean fuel tbl self = Ok tt ->
  mark_as_edited fuel tbl self now
  = Ok (set_updated_at now (set_is_edited true self),
        <[id self := set_updated_at now (set_is_edited true row)]> tbl).
Proof.
  intros Hrow Hclean. unfold mark_as_edited, save.
  change (clean fuel tbl (set_is_edited true self)) with (clean fuel tbl self).
  rewrite Hclean. simpl. unfold model_save. simpl. by rewrite Hrow.
Qed.

(** Marking as edited writes is_edited and the fresh updated_at, and
    nothing else: the stored row keeps its content, also where the
    instance in hand carries a new one, and every other column; all
    other rows stay as they are. *)
Theorem mark_as_edited_writes_two_columns fuel (tbl : CommentTable) self row now :
  tbl !! id self = Some row ->
  clean fuel tbl self = Ok tt ->
  exists self' tbl' row',
    mark_as_edited fuel tbl self now = Ok (self', tbl') /\
    tbl' !! id self = Some row' /\
    is_edited row' = true /\ updated_at row' = now /\
    content row' = content row /\
    id row' = id row /\ author row' = author row /\ parent row' = parent row /\
    content_type row' = content_type row /\ object_id row' = object_id row /\
    is_active row' = is_active row /\ is_flagged row' = is_flagged row /\
    likes_count row' = likes_count row /\ created_at row' = created_at row /\
    is_edited self' = true /\ updated_at self' = now /\
    (forall k, k <> id self -> tbl' !! k = tbl !! k).
Proof.
  intros Hrow Hclean.
  exists (set_updated_at now (set_is_edited true self)),
         (<[id self := set_updated_at now (set_is_edited true row)]> tbl),
         (set_updated_at now (set_is_edited true row)).
  split; [by apply run_mark_as_edited|].
  split; [apply lookup_insert_eq|].
  repeat (split; [reflexivity|]).
  intros k Hk. by rewrite lookup_insert_ne.
Qed.

Lemma mark_as_edited_writes_two_columns_witness :
  let row := mkComment 10 1 "42" 7 "first words" None true false false 3 100 100 in
  let edited := set_content "second words" row in
  let tbl : CommentTable := {[10 := row]} in
  exists self' tbl' row',
    mark_as_edited 1 tbl edited 200 = Ok (self', tbl') /\
    tbl' !! 10 = Some row' /\
    is_edited row' = true /\ updated_at row' = 200%Z /\
    content row' = "first words" /\
    id row' = id row /\ author row' = author row /\ parent row' = parent row /\
    content_type row' = content_type row /\ object_id row' = object_id row /\
    is_active row' = is_active row /\ is_flagged row' = is_flagged row /\
    likes_count row' = likes_count row /\ created_at row' = created_at row /\
    is_edited self' = true /\ updated_at self' = 200%Z /\
    (forall k, k <> 10 -> tbl' !! k = tbl !! k).
Proof.
  intros row edited tbl.
  apply (mark_as_edited_writes_two_columns 1 tbl edited row 200%Z);
    vm_compute; reflexivity.
Defined.

(** *** Replies through the reply form *)

(** The reply form and the model draw the same line.  For a stored
    parent of depth d, the form refuses the reply exactly when d >= 3,
    and then saving the reply would be refused by the model as well;
    for d < 3 the reply is stored as a new row under the parent, with
    the parent's content type and object id whatever content object
    the view passed, and the user as author. *)
Theorem reply_form_agrees_with_model fuel (tbl : CommentTable) blank user co par d now :
  tbl !! id par = Some par ->
  tbl !! id blank = None ->
  get_thread_depth fuel tbl par = Ok d ->
  (3 <= d ->
   reply_form_clean fuel tbl (Some par)
   = Raise (ValidationError "Cannot reply to comments more than 3 levels deep.") /\
   reply_form_save (S fuel) tbl blank user co par now
   = Raise (ValidationError "Comment thread too deep")) /\
  (d < 3 ->
   reply_form_clean fuel tbl (Some par) = Ok tt /\
   exists reply,
     reply_form_save (S fuel) tbl blank user co par now
     = Ok (reply, <[id blank := reply]> tbl, true) /\
     id reply = id blank /\ parent reply = Some (id par) /\
     content_type reply = content_type par /\ object_id reply = object_id par /\
     author reply = user /\ content reply = content blank).
Proof.
  intros Hpar Hfresh Hd.
  set (r := reply_form_instance blank user co par).
  assert (Hrp : parent r = Some (id par)) by reflexivity.
  assert (Hid : id r = id blank) by (subst r; by destruct co as [[ct oid]|]).
  rewrite <- Hid in Hfresh |- *.
  assert (Hrd : get_thread_depth (S fuel) tbl r = Ok (S d))
    by exact (CommentProofs.get_thread_depth_reply _ _ _ _ _ _ Hrp Hpar Hd).
  split; intros Hle.
  - split.
    + unfold reply_form_clean. rewrite Hd. cbn [Py.bind].
      destruct (Nat.leb_spec 3 d); [done|lia].
    + unfold reply_form_save. fold r.
      apply (CommentProofs.save_too_deep (S fuel) tbl r (id par) par (S d) None now
               Hrp Hpar eq_refl eq_refl Hrd).
      lia.
  - split.
    + unfold reply_form_clean. rewrite Hd. cbn [Py.bind].
      destruct (Nat.leb_spec 3 d); [lia|done].
    + exists (CommentProofs.stored now r). split.
      * unfold reply_form_save. fold r.
        apply (CommentProofs.save_new_reply (S fuel) tbl r (id par) par (S d) now
                 Hfresh Hrp Hpar eq_refl eq_refl Hrd). lia.
      * by destruct co as [[ct oid]|].
Qed.

(** A reply to the root comment 10 of article 42, sent with the key of
    another object. *)
Lemma reply_form_agrees_with_model_witness :
  let root := mkComment 10 1 "42" 7 "root" None true false false 0 100 100 in
  let blank := mkComment 11 0 "" 0 "a reply" None true false false 0 0 0 in
  reply_form_clean 1 {[10 := root]} (Some root) = Ok tt /\
  exists reply,
    reply_form_save 2 {[10 := root]} blank 8 (Some (2, "77")) root 200
    = Ok (reply, <[11 := reply]> {[10 := root]}, true) /\
    id reply = 11 /\ parent reply = Some 10 /\
    content_type reply = 1 /\ object_id reply = "42" /\
    author reply = 8 /\ content reply = "a reply".
Proof.
  intros root blank.
  apply (reply_form_agrees_with_model 1 {[10 := root]} blank 8 (Some (2, "77"))
           root 0 200%Z); [vm_compute; reflexivity ..|lia].
Defined.

(** *** Validation reads the thread columns only *)

(** Two comments with the same parent, content type and object id. *)
Definition same_thread (c c' : Comment) : Prop :=
  parent c = parent c' /\ content_type c = content_type c' /\
  object_id c = object_id c'.

(** Two tables that hold the same keys, with rows on the same thread. *)
Definition same_threads (tbl tbl' : CommentTable) : Prop :=
  forall j, option_Forall2 same_thread (tbl !! j) (tbl' !! j).

(** Two results that raise alike or return values on the same thread. *)
Definition same_fetch (r r' : result (option Comment)) : Prop :=
  match r, r' with
  | Ok o, Ok o' => option_Forall2 same_thread o o'
  | Raise e, Raise e' => e = e'
  | OutOfFuel, OutOfFuel => True
  | _, _ => False
  end.

Lemma fetch_parent_sim tbl tbl' c c' :
  same_threads tbl tbl' -> same_thread c c' ->
  same_fetch (fetch_parent tbl c) (fetch_parent tbl' c').
Proof.
  intros Ht (Hp & _). unfold fetch_parent. rewrite <- Hp.
  destruct (parent c) as [p|]; simpl; [|constructor].
  destruct (Ht p) as [x y Hxy|]; simpl; [by constructor|done].
Qed.

Lemma thread_depth_loop_sim fuel tbl tbl' cur cur' acc :
  same_threads tbl tbl' -> option_Forall2 same_thread cur cur' ->
  thread_depth_loop fuel tbl cur acc = thread_depth_loop fuel tbl' cur' acc.
Proof.
  intros Ht. revert cur cur' acc.
  induction fuel as [|fuel IH]; intros cur cur' acc [c c' Hc|]; simpl; try done.
  pose proof (fetch_parent_sim _ _ _ _ Ht Hc) as Hf. unfold same_fetch in Hf.
  destruct (fetch_parent tbl c) as [o| |], (fetch_parent tbl' c') as [o'| |];
    simpl; try done; [by apply IH|congruence].
Qed.

Lemma clean_sim fuel tbl tbl' c c' :
  same_threads tbl tbl' -> same_thread c c' ->
  clean fuel tbl c = clean fuel tbl' c'.
Proof.
  intros Ht Hc. pose proof (fetch_parent_sim _ _ _ _ Ht Hc) as Hf.
  unfold clean, get_thread_depth. unfold same_fetch in Hf.
  destruct Hc as (Hp & Hct & Hoid).
  destruct (fetch_parent tbl c) as [o| |], (fetch_parent tbl' c') as [o'| |];
    simpl; try done; [|congruence].
  destruct Hf as [x y (Hxp & Hxc & Hxo)|]; [|done].
  rewrite Hxc, Hxo, Hct, Hoid.
  destruct (negb (Nat.eqb _ _)); [done|]. destruct (negb (String.eqb _ _)); [done|].
  by rewrite (thread_depth_loop_sim fuel tbl tbl' (Some x) (Some y) 0 Ht
                (Some_Forall2 _ _ _ (conj Hxp (conj Hxc Hxo)))).
Qed.

Lemma same_threads_refl tbl : same_threads tbl tbl.
Proof. intros j. destruct (tbl !! j); by constructor. Qed.

Lemma same_threads_insert tbl k row row' :
  tbl !! k = Some row -> same_thread row row' ->
  same_threads tbl (<[k := row']> tbl).
Proof.
  intros Hk Hrow j. destruct (decide (j = k)) as [->|Hne].
  - rewrite lookup_insert_eq, Hk. by constructor.
  - rewrite lookup_insert_ne by done. apply same_threads_refl.
Qed.

(** *** Edits *)

Lemma clean_after_partial_save fuel (tbl : CommentTable) k row row' c c' :
  tbl !! k = Some row ->
  same_thread row row' -> same_thread c c' ->
  clean fuel tbl c = Ok tt -> clean fuel (<[k := row']> tbl) c' = Ok tt.
Proof.
  intros Hk Hrow Hc <-. symmetry. apply clean_sim; [|done].
  by apply same_threads_insert with row.
Qed.

(** An edit through the API.  The stored row becomes the instance in
    hand with the new content and the time of the edit, and with
    is_edited set when the content differs from the one the instance
    held (an edit to the same text leaves the mark as it was); every
    other column is written back from the instance, not kept from the
    stored row. *)
Theorem api_edit_marks_changed fuel (tbl : CommentTable) instance row new now :
  tbl !! id instance = Some row ->
  clean fuel tbl instance = Ok tt ->
  let changed := negb (String.eqb (content instance) new) in
  let instance' :=
    set_updated_at now
      (set_content new (set_is_edited (is_edited instance || changed) instance)) in
  update_serializer_update fuel tbl instance (Some new) now
  = Ok (instance', <[id instance := instance']> tbl).
Proof.
  intros Hrow Hclean changed instance'. unfold update_serializer_update.
  change (default (content instance) (Some new)) with new.
  subst instance' changed.
  destruct (negb (String.eqb (content instance) new)).
  - rewrite (run_mark_as_edited _ _ _ _ _ Hrow Hclean).
    cbn [Py.bind fst snd]. unfold save.
    assert (Hclean1 :
              clean fuel (<[id instance := set_updated_at now (set_is_edited true row)]> tbl)
                    (set_content new (set_updated_at now (set_is_edited true instance)))
              = Ok tt)
      by (by apply clean_after_partial_save with row instance).
    rewrite Hclean1.
    cbn [Py.bind]. unfold model_save. cbn [id set_content set_updated_at set_is_edited].
    rewrite lookup_insert_eq. cbn [Py.bind fst snd].
    rewrite insert_insert_eq, orb_true_r. reflexivity.
  - cbn [Py.bind fst snd]. unfold save.
    change (clean fuel tbl (set_content new instance)) with (clean fuel tbl instance).
    rewrite Hclean. cbn [Py.bind]. unfold model_save. cbn [id set_content].
    rewrite Hrow. cbn [Py.bind fst snd]. rewrite orb_false_r.
    by destruct instance.
Qed.

(** A like arrives between the read and the edit: the edit stores the
    counter of the instance. *)
Lemma api_edit_marks_changed_witness :
  let read := mkComment 10 1 "42" 7 "first words" None true false false 3 100 100 in
  let row := set_likes_count 4 read in
  let instance' := mkComment 10 1 "42" 7 "second words" None true false true 3 100 200 in
  update_serializer_update 1 {[10 := row]} read (Some "second words") 200
  = Ok (instance', <[10 := instance']> {[10 := row]}).
Proof.
  intros read row instance'.
  apply (api_edit_marks_changed 1 {[10 := row]} read row "second words" 200%Z);
    reflexivity.
Defined.

(** An edit through the form.  Saved with commit, the form stores
    the instance with the new content and the time of the edit, and
    with is_edited set when the form reports a change.  Saved without
    commit, a changed form still stores is_edited and updated_at, and
    leaves the stored content as it was. *)
Theorem edit_form_marks_changed fuel (tbl : CommentTable) instance row new
        has_changed now :
  tbl !! id instance = Some row ->
  clean fuel tbl instance = Ok tt ->
  let instance' :=
    set_updated_at now
      (set_content new (set_is_edited (is_edited instance || has_changed) instance)) in
  edit_form_save fuel tbl instance new has_changed true now
  = Ok (instance', <[id instance := instance']> tbl) /\
  edit_form_save fuel tbl instance new true false now
  = Ok (set_updated_at now (set_is_edited true (set_content new instance)),
        <[id instance := set_updated_at now (set_is_edited true row)]> tbl).
Proof.
  intros Hrow Hclean instance'. unfold edit_form_save.
  assert (Hedit : mark_as_edited fuel tbl (set_content new instance) now
                  = Ok (set_updated_at now (set_is_edited true (set_content new instance)),
                        <[id instance := set_updated_at now (set_is_edited true row)]> tbl))
    by exact (run_mark_as_edited fuel tbl (set_content new instance)
                row now Hrow Hclean).
  split; [|by rewrite Hedit].
  subst instance'. destruct has_changed.
  - rewrite Hedit. cbn [Py.bind fst snd]. unfold save.
    assert (Hclean1 :
              clean fuel (<[id instance := set_updated_at now (set_is_edited true row)]> tbl)
                    (set_updated_at now (set_is_edited true (set_content new instance)))
              = Ok tt)
      by (by apply clean_after_partial_save with row instance).
    rewrite Hclean1.
    cbn [Py.bind]. unfold model_save. cbn [id set_content set_updated_at set_is_edited].
    rewrite lookup_insert_eq. cbn [Py.bind fst snd].
    rewrite insert_insert_eq, orb_true_r. reflexivity.
  - cbn [Py.bind fst snd]. unfold save.
    change (clean fuel tbl (set_content new instance)) with (clean fuel tbl instance).
    rewrite Hclean. cbn [Py.bind]. unfold model_save. cbn [id set_content].
    rewrite Hrow. cbn [Py.bind fst snd]. rewrite orb_false_r.
    by destruct instance.
Qed.

Lemma edit_form_marks_changed_witness :
  let row := mkComment 10 1 "42" 7 "first words" None true false false 3 100 100 in
  let instance' := mkComment 10 1 "42" 7 "second words" None true false true 3 100 200 in
  edit_form_save 1 {[10 := row]} row "second words" true true 200
  = Ok (instance', <[10 := instance']> {[10 := row]}) /\
  edit_form_save 1 {[10 := row]} row "second words" true false 200
  = Ok (set_updated_at 200 (set_is_edited true (set_content "second words" row)),
        <[10 := set_updated_at 200 (set_is_edited true row)]> {[10 := row]}).
Proof.
  intros row instance'.
  apply (edit_form_marks_changed 1 {[10 := row]} row row "second words" true 200%Z);
    reflexivity.
Defined.

(** *** The permission of the comment API *)

(** Writing through the API is for the author alone.  For a method
    that is not safe the permission is granted exactly to the author
    of the comment, so that whoever it admits may delete by the
    model's rule; a staff member is refused on the comments of others,
    which the model's rules let them edit and delete. *)
Theorem api_write_permission_is_authorship (method : string) (u : User)
        (c : Comment) (now : Z) :
  existsb (String.eqb method) SAFE_METHODS = false ->
  (has_object_permission method u c = true <-> author c = user_pk u) /\
  (has_object_permission method u c = true -> can_delete c u = true) /\
  (is_staff u = true -> author c <> user_pk u ->
   can_delete c u = true /\ can_edit c u now = true /\
   has_object_permission method u c = false).
Proof.
  intros Hunsafe. unfold has_object_permission. rewrite Hunsafe.
  split; [apply Nat.eqb_eq|]. split.
  - intros Ha%Nat.eqb_eq. unfold can_delete. by rewrite Ha, Nat.eqb_refl.
  - intros Hs Hne. unfold can_delete, can_edit. rewrite Hs, orb_true_r.
    destruct (Nat.eqb_spec (user_pk u) (author c)); [congruence|].
    destruct (Nat.eqb_spec (author c) (user_pk u)); [congruence|done].
Qed.

Lemma api_write_permission_is_authorship_witness :
  let c := mkComment 1 1 "42" 7 "text" None true false false 0 100 100 in
  let ann := mkUser 7 "ann" false false in
  (has_object_permission "DELETE" ann c = true <-> author c = user_pk ann) /\
  (has_object_permission "DELETE" ann c = true -> can_delete c ann = true) /\
  (is_staff ann = true -> author c <> user_pk ann ->
   can_delete c ann = true /\ can_edit c ann 0 = true /\
   has_object_permission "DELETE" ann c = false).
Proof.
  intros c ann.
  apply (api_write_permission_is_authorship "DELETE" ann c 0%Z). reflexivity.
Defined.

(** *** Soft deletion and the reply counters *)

(** Soft-deleting an active reply lowers the reply counter of its
    parent by one and leaves the reply counter of every other comment
    as it was. *)
Theorem soft_delete_lowers_reply_count fuel (tbl : CommentTable) self row p now :
  tbl !! id self = Some row ->
  clean fuel tbl self = Ok tt ->
  parent row = Some p -> is_active row = true ->
  exists self' tbl',
    soft_delete fuel tbl self now = Ok (self', tbl') /\
    forall par : Comment,
      reply_count tbl par
      = reply_count tbl' par + (if Nat.eqb p (id par) then 1 else 0).
Proof.
  intros Hrow Hclean Hp Hact.
  set (row' := set_content deleted_placeholder (set_is_active false row)).
  exists (set_content deleted_placeholder (set_is_active false self)),
         (<[id self := row']> tbl).
  split.
  { unfold soft_delete, save.
    change (clean fuel tbl (set_content deleted_placeholder (set_is_active false self)))
      with (clean fuel tbl self).
    rewrite Hclean. cbn [Py.bind]. unfold model_save.
    cbn [id set_content set_is_active]. by rewrite Hrow. }
  intros par. unfold reply_count, active_replies, rows.
  rewrite <- (filter_length_Permutation _ _ _
                (fmap_Permutation snd _ _ (map_to_list_delete tbl (id self) row Hrow))).
  rewrite <- (insert_delete_eq tbl (id self) row').
  rewrite (filter_length_Permutation _ _ _
             (fmap_Permutation snd _ _
                (map_to_list_insert (delete (id self) tbl) (id self) row'
                   (lookup_delete_eq tbl (id self))))).
  cbn [fmap list_fmap snd List.filter].
  subst row'. cbn [parent is_active set_content set_is_active].
  rewrite Hp, Hact, andb_false_r, andb_true_r.
  destruct (Nat.eqb p (id par)); simpl; lia.
Qed.

Lemma soft_delete_lowers_reply_count_witness :
  let c0 := mkComment 1 1 "42" 7 "root" None true false false 0 100 100 in
  let c1 := mkComment 2 1 "42" 8 "reply" (Some 1) true false false 0 110 110 in
  let tbl : CommentTable := {[1 := c0; 2 := c1]} in
  exists self' tbl',
    soft_delete 2 tbl c1 200 = Ok (self', tbl') /\
    forall par : Comment,
      reply_count tbl par
      = reply_count tbl' par + (if Nat.eqb 1 (id par) then 1 else 0).
Proof.
  intros c0 c1 tbl.
  apply (soft_delete_lowers_reply_count 2 tbl c1 c1 1 200%Z); reflexivity.
Defined.

(** *** Threads stay shallow *)

(** Every stored comment has a depth, and it is at most 3. *)
Definition shallow (tbl : CommentTable) : Prop :=
  forall k row, tbl !! k = Some row ->
                exists fuel d, get_thread_depth fuel tbl row = Ok d /\ d <= 3.

(** The table after an attempt to create a comment: a refused
    attempt leaves it as it is. *)
Definition after_create (fuel : nat) (now : Z) (tbl : CommentTable) (c : Comment)
  : CommentTable :=
  match create fuel tbl c now with
  | Ok (_, tbl', _) => tbl'
  | _ => tbl
  end.

Lemma clean_ok_depth fuel tbl c :
  clean fuel tbl c = Ok tt ->
  exists d, get_thread_depth fuel tbl c = Ok d /\ d <= 3.
Proof.
  unfold clean. destruct (fetch_parent tbl c) as [[par|]| |] eqn:Hf;
    simpl; try discriminate.
  - destruct (negb (Nat.eqb _ _)); [discriminate|].
    destruct (negb (String.eqb _ _)); [discriminate|].
    destruct (get_thread_depth fuel tbl c) as [d| |]; simpl; try discriminate.
    destruct (Nat.ltb_spec 3 d); [discriminate|]. intros _. exists d. split; [done|lia].
  - intros _. exists 0. split; [|lia]. unfold get_thread_depth. rewrite Hf. simpl.
    by destruct fuel.
Qed.

Lemma create_keeps_shallow fuel now tbl c :
  shallow tbl -> shallow (after_create fuel now tbl c).
Proof.
  intros Hsh. unfold after_create, create.
  destruct (tbl !! id c) as [old|] eqn:Hfresh; [done|].
  unfold save. destruct (clean fuel tbl c) as [[]| |] eqn:Hclean; simpl; try done.
  unfold model_save. rewrite Hfresh.
  destruct (clean_ok_depth _ _ _ Hclean) as (d & Hd & Hle).
  intros k row Hk. apply lookup_insert_Some in Hk as [[<- <-]|[Hne Hk]].
  - exists fuel, d. split; [|done].
    exact (CommentProofs.get_thread_depth_insert_fresh fuel tbl (id c) _ c d Hfresh Hd).
  - destruct (Hsh k row Hk) as (fuel' & d' & Hd' & Hle').
    exists fuel', d'. split; [|done].
    by apply CommentProofs.get_thread_depth_insert_fresh.
Qed.

(** Threads built through the manager stay shallow.  Starting from
    the empty table, after any sequence of attempts to create
    comments (a refused attempt leaves the table as it is), every
    stored comment has a depth, and it is at most 3. *)
Theorem created_threads_stay_shallow fuel now (cs : list Comment) k row :
  fold_left (after_create fuel now) cs ∅ !! k = Some row ->
  exists fuel' d,
    get_thread_depth fuel' (fold_left (after_create fuel now) cs ∅) row = Ok d /\
    d <= 3.
Proof.
  assert (Hgen : forall tbl, shallow tbl ->
                             shallow (fold_left (after_create fuel now) cs tbl)).
  { induction cs as [|c cs IH]; intros tbl Hsh; simpl; [done|].
    apply IH. by apply create_keeps_shallow. }
  apply Hgen. intros k' row' Hk. by rewrite lookup_empty in Hk.
Qed.

(** A root, three nested replies, and a fourth that is refused. *)
Lemma created_threads_stay_shallow_witness :
  let chain :=
    [CommentProofs.thread_comment 1 None "42";
     CommentProofs.thread_comment 2 (Some 1) "42";
     CommentProofs.thread_comment 3 (Some 2) "42";
     CommentProofs.thread_comment 4 (Some 3) "42";
     CommentProofs.thread_comment 5 (Some 4) "42"] in
  let tbl := fold_left (after_create 5 9) chain ∅ in
  tbl !! 5 = None /\
  exists row fuel' d,
    tbl !! 4 = Some row /\ get_thread_depth fuel' tbl row = Ok d /\ d <= 3.
Proof.
  intros chain tbl. split; [vm_compute; reflexivity|].
  exists (CommentProofs.stored 9 (CommentProofs.thread_comment 4 (Some 3) "42")).
  destruct (created_threads_stay_shallow 5 9%Z chain 4
              (CommentProofs.stored 9 (CommentProofs.thread_comment 4 (Some 3) "42")))
    as (fuel' & d & Hd & Hle); [vm_compute; reflexivity|].
  exists fuel', d. split; [vm_compute; reflexivity|]. by split.
Defined.

End CommentOpsProofs.

(* ===================================================================== *)
(** * Properties of the comment signals and the like toggle              *)
(* ===================================================================== *)

Module LikeOpsProofs.
Import Comments CommentLikes.
Local Open Scope world_scope.
Local Open Scope list_scope.

(** *** What the post_save handler of Comment queues *)

(** A notification about the comment [self] for somebody else than
    its author. *)
Definition notifies_other (self : Comment) (t : Task) : Prop :=
  exists recipient is_reply,
    t = send_comment_notification (id self) recipient is_reply /\
    recipient <> author self.

(** The handler writes nothing but the queue.  It queues at most two
    notifications, none of them for the author of the comment, and
    then, when it returns, the moderation job of the comment, once;
    for a save that created no row it queues nothing. *)
Theorem comment_post_save_queue (a : nat) (created : bool) (w : World) (self : Comment) :
  heap w !! a = Some self ->
  let out := comment_post_save a created w in
  comments_tbl out.2 = comments_tbl w /\ likes_tbl out.2 = likes_tbl w /\
  heap out.2 = heap w /\
  exists ns,
    Forall (notifies_other self) ns /\ length ns <= 2 /\
    (created = false -> ns = []) /\
    queue out.2
    = (queue w ++ ns ++ (if created && is_ok out.1
                         then [moderate_comment (id self)] else []))%list.
Proof.
  intros Ha. unfold comment_post_save.
  destruct created; simpl.
  2:{ repeat (split; [done|]). exists [].
      split; [constructor|]. split; [simpl; lia|]. split; [done|].
      simpl. by rewrite app_nil_r. }
  unfold mbind, deref, get_world. rewrite Ha. cbn [fst snd].
  set (first :=
         match targets w !! (content_type self, object_id self) with
         | Some (Some ca) =>
             if negb (Nat.eqb ca (author self))
             then [send_comment_notification (id self) ca false] else []
         | _ => []
         end).
  assert (Hfirst : Forall (notifies_other self) first /\ length first <= 1).
  { subst first. destruct (targets w !! _) as [[ca|]|]; simpl; try (split; [constructor|lia]).
    destruct (Nat.eqb_spec ca (author self)); simpl; (split; [|lia]); [constructor|].
    constructor; [|constructor]. by exists ca, false. }
  destruct Hfirst as [Hf1 Hf2].
  assert (Hstep :
            (match targets w !! (content_type self, object_id self) with
             | Some (Some content_author) =>
                 if negb (Nat.eqb content_author (author self))
                 then delay (send_comment_notification (id self) content_author false)
                 else ret tt
             | _ => ret tt
             end) w = (Ok tt, with_queue (queue w ++ first)%list w)).
  { subst first. destruct w as [ct lt tg hp qu]. simpl.
    destruct (tg !! _) as [[ca|]|]; simpl; rewrite ?app_nil_r; try done.
    destruct (negb _); simpl; by rewrite ?app_nil_r. }
  rewrite Hstep. clear Hstep.
  destruct (parent self) as [p|] eqn:Hp.
  - destruct (comments_tbl w !! p) as [par|] eqn:Hpar.
    + destruct (Nat.eqb_spec (author par) (author self)) as [He|He]; simpl.
      * repeat (split; [done|]). exists first.
        split; [done|]. split; [lia|]. split; [done|]. by rewrite <- app_assoc.
      * repeat (split; [done|]).
        exists (first ++ [send_comment_notification (id self) (author par) true]).
        split.
        { apply Forall_app. split; [done|]. constructor; [|constructor].
          by exists (author par), true. }
        split; [rewrite length_app; simpl; lia|]. split; [done|].
        by rewrite <- !app_assoc.
    + simpl. repeat (split; [done|]). exists first.
      split; [done|]. split; [lia|]. split; [done|]. by rewrite app_nil_r.
  - simpl. repeat (split; [done|]). exists first.
    split; [done|]. split; [lia|]. split; [done|]. by rewrite <- app_assoc.
Qed.

(** Bob (8) replies to the comment of ann (7) on the article of carl (9). *)
Lemma comment_post_save_queue_witness :
  let root := mkComment 10 1 "42" 7 "root" None true false false 0 100 100 in
  let reply := mkComment 11 1 "42" 8 "reply" (Some 10) true false false 0 110 110 in
  let w := mkWorld {[10 := root; 11 := reply]} [] {[(1, "42") := Some 9]} [reply] [] in
  let out := comment_post_save 0 true w in
  comments_tbl out.2 = comments_tbl w /\ likes_tbl out.2 = likes_tbl w /\
  heap out.2 = heap w /\
  exists ns,
    Forall (notifies_other reply) ns /\ length ns <= 2 /\
    (true = false -> ns = []) /\
    queue out.2
    = (queue w ++ ns ++ (if true && is_ok out.1
                         then [moderate_comment (id reply)] else []))%list.
Proof.
  intros root reply w.
  apply (comment_post_save_queue 0 true w reply). reflexivity.
Defined.

(** *** The like rows under the toggle *)

(** [keeps_likes m]: [m] leaves the table of likes as it is, whether
    it returns or raises. *)
Definition keeps_likes {A} (m : M A) : Prop :=
  forall w, likes_tbl (m w).2 = likes_tbl w.

Lemma keeps_ret {A} (a : A) : keeps_likes (ret a).
Proof. done. Qed.

Lemma keeps_raise {A} e : keeps_likes (@raise A e).
Proof. done. Qed.

Lemma keeps_bind {A B} (m : M A) (k : A -> M B) :
  keeps_likes m -> (forall a, keeps_likes (k a)) -> keeps_likes (mbind m k).
Proof.
  intros Hm Hk w. unfold mbind. specialize (Hm w).
  destruct (m w) as [[a| |] w']; simpl in *; [|done|done].
  by rewrite Hk.
Qed.

Lemma keeps_get_world : keeps_likes get_world.
Proof. done. Qed.

Lemma keeps_alloc c : keeps_likes (alloc c).
Proof. done. Qed.

Lemma keeps_deref a : keeps_likes (deref a).
Proof. intros w. unfold deref. by destruct (heap w !! a). Qed.

Lemma keeps_assign a f : keeps_likes (assign a f).
Proof. intros w. unfold assign. by destruct (heap w !! a). Qed.

Lemma keeps_delay t : keeps_likes (delay t).
Proof. done. Qed.

Create HintDb keeps discriminated.
#[local] Hint Resolve keeps_ret keeps_raise keeps_get_world keeps_alloc keeps_deref
  keeps_assign keeps_delay : keeps.

Ltac keeps_step :=
  repeat first
    [ solve [auto with keeps]
    | apply keeps_bind; [|intros ?]
    | match goal with
      | |- keeps_likes (match ?x with _ => _ end) => destruct x
      | |- keeps_likes (if ?b then _ else _) => destruct b
      end ].

Lemma keeps_load_comment k : keeps_likes (load_comment k).
Proof. unfold load_comment. keeps_step. Qed.

Lemma keeps_get_object_or_404 k : keeps_likes (get_object_or_404 k).
Proof. unfold get_object_or_404. keeps_step. Qed.

Lemma keeps_like_comment inst : keeps_likes (like_comment inst).
Proof. unfold like_comment. destruct (comment_cache inst); [done|]. apply keeps_load_comment. Qed.

Lemma keeps_comment_post_save a created : keeps_likes (comment_post_save a created).
Proof. unfold comment_post_save. keeps_step. Qed.

Lemma keeps_Comment_save fuel a uf now : keeps_likes (Comment_save fuel a uf now).
Proof.
  unfold Comment_save. apply keeps_bind; [apply keeps_deref|]. intros self.
  apply keeps_bind.
  { intros w. by destruct (Comments.save _ _ _ _ _) as [[[? ?] ?]| |]. }
  intros saved. apply keeps_bind; [apply keeps_assign|]. intros _.
  apply keeps_comment_post_save.
Qed.

#[local] Hint Resolve keeps_load_comment keeps_get_object_or_404 keeps_like_comment
  keeps_comment_post_save keeps_Comment_save : keeps.

Lemma keeps_comment_like_post_save fuel inst created now :
  keeps_likes (comment_like_post_save fuel inst created now).
Proof. unfold comment_like_post_save. keeps_step. Qed.

Lemma keeps_comment_like_post_delete fuel inst now :
  keeps_likes (comment_like_post_delete fuel inst now).
Proof. unfold comment_like_post_delete. keeps_step. Qed.

(** The rows after the toggle, as a function of the rows before. *)
Definition toggled_rows (k u : nat) (now : Z) (likes : list CommentLike)
  : list CommentLike :=
  match List.find (like_matches k u) likes with
  | Some _ => List.filter (fun l => negb (like_matches k u l)) likes
  | None => likes ++ [mkCommentLike k u now]
  end.

Lemma like_matches_eq c u l :
  like_matches c u l = true <-> comment l = c /\ user l = u.
Proof. unfold like_matches. by rewrite andb_true_iff, !Nat.eqb_eq. Qed.

(** *** Running the view step by step *)

Lemma bind_unfold {A B} (m : M A) (k : A -> M B) w :
  mbind m k w
  = match m w with
    | (Ok a, w') => k a w'
    | (Raise e, w') => (Raise e, w')
    | (OutOfFuel, w') => (OutOfFuel, w')
    end.
Proof. reflexivity. Qed.

Lemma run_bind {A B} (m : M A) (k : A -> M B) w a w' r :
  m w = (Ok a, w') -> k a w' = r -> mbind m k w = r.
Proof. intros H <-. unfold mbind. by rewrite H. Qed.

Lemma run_atomic {A} (m : M A) w a w' :
  m w = (Ok a, w') -> atomic m w = (Ok a, w').
Proof. intros H. unfold atomic. by rewrite H. Qed.

(** [fails_to m w w']: from [w] the computation [m] raises (or runs out
    of fuel) and leaves [w']. *)
Definition fails_to {A} (m : M A) (w w' : World) : Prop :=
  is_ok (m w).1 = false /\ (m w).2 = w'.

Lemma fails_bind_l {A B} (m : M A) (k : A -> M B) w w' :
  fails_to m w w' -> fails_to (mbind m k) w w'.
Proof.
  unfold fails_to, mbind. by destruct (m w) as [[a| |] w1]; simpl; intros [? ?].
Qed.

Lemma fails_bind_r {A B} (m : M A) (k : A -> M B) w a w1 w' :
  m w = (Ok a, w1) -> fails_to (k a) w1 w' -> fails_to (mbind m k) w w'.
Proof. intros H. unfold fails_to, mbind. by rewrite H. Qed.

(** The tables as a rollback leaves them. *)
Definition rolled_back (w w' : World) : World :=
  with_comments (comments_tbl w) (with_likes (likes_tbl w) w').

Lemma fails_atomic {A} (m : M A) w w' :
  fails_to m w w' -> fails_to (atomic m) w (rolled_back w w').
Proof.
  unfold fails_to, atomic. destruct (m w) as [[a| |] w1]; simpl; intros [? <-]; done.
Qed.

Lemma get_object_or_404_stored k w row :
  comments_tbl w !! k = Some row -> is_active row = true ->
  get_object_or_404 k w = (Ok (length (heap w)), with_heap (heap w ++ [row]) w).
Proof.
  intros Hrow Hact. unfold get_object_or_404, mbind, get_world. cbn [fst snd].
  by rewrite Hrow, Hact.
Qed.

Lemma get_or_create_found fuel a c u now w found :
  List.find (like_matches c u) (likes_tbl w) = Some found ->
  get_or_create fuel a c u now w = (Ok (mkLikeInstance found None, false), w).
Proof.
  intros Hfind. unfold get_or_create. eapply run_bind; [reflexivity|].
  by rewrite Hfind.
Qed.

Lemma get_or_create_new fuel a c u now w :
  List.find (like_matches c u) (likes_tbl w) = None ->
  get_or_create fuel a c u now w
  = match comment_like_post_save fuel
            (mkLikeInstance (mkCommentLike c u now) (Some a)) true now
            (with_likes (likes_tbl w ++ [mkCommentLike c u now]) w) with
    | (Ok _, w') => (Ok (mkLikeInstance (mkCommentLike c u now) (Some a), true), w')
    | (Raise e, w') => (Raise e, rolled_back w w')
    | (OutOfFuel, w') => (OutOfFuel, rolled_back w w')
    end.
Proof.
  intros Hfind. unfold get_or_create. eapply run_bind; [reflexivity|].
  rewrite Hfind. unfold atomic, mbind, modify, ret.
  by destruct (comment_like_post_save _ _ _ _ _) as [[[]| |] w'].
Qed.

Lemma like_delete_unfold fuel inst now w :
  like_delete fuel inst now w
  = match comment_like_post_delete fuel inst now
            (with_likes
               (List.filter
                  (fun l => negb (like_matches (comment (like_row inst))
                                               (user (like_row inst)) l))
                  (likes_tbl w)) w) with
    | (Ok _, w') => (Ok tt, w')
    | (Raise e, w') => (Raise e, rolled_back w w')
    | (OutOfFuel, w') => (OutOfFuel, rolled_back w w')
    end.
Proof.
  unfold like_delete, atomic, mbind, modify.
  by destruct (comment_like_post_delete _ _ _ _) as [[[]| |] w'].
Qed.

(** [flips T L x]: the run [x] left the like rows [T] when it returned,
    and [T] or [L] in any case. *)
Definition flips {A} (T L : list CommentLike) (x : result A * World) : Prop :=
  (is_ok x.1 = true -> likes_tbl x.2 = T) /\
  (likes_tbl x.2 = T \/ likes_tbl x.2 = L).

Lemma flips_bind {A B} (m : M A) (k : A -> M B) w T L :
  (forall a, keeps_likes (k a)) -> flips T L (m w) -> flips T L (mbind m k w).
Proof.
  intros Hk [H1 H2]. unfold flips, mbind.
  destruct (m w) as [[a| |] w']; simpl in *; [|by split..].
  rewrite Hk. split; [intros _; by apply H1|exact H2].
Qed.

Lemma flips_keeps {A} (m : M A) w T L :
  keeps_likes m -> likes_tbl w = T -> flips T L (m w).
Proof. intros Hm <-. split; [intros _|left]; apply Hm. Qed.

(** The like rows after the view: those of [toggled_rows] when the
    view answers; when it raises, those or the rows before. *)
Lemma toggle_likes_tbl fuel (request_user : User) k now w row :
  comments_tbl w !! k = Some row -> is_active row = true ->
  flips (toggled_rows k (user_pk request_user) now (likes_tbl w)) (likes_tbl w)
        (comment_like_view fuel "POST" request_user k now w).
Proof.
  intros Hrow Hact. unfold comment_like_view.
  cbn [String.eqb Ascii.eqb Bool.eqb negb].
  rewrite bind_unfold, (get_object_or_404_stored _ _ _ Hrow Hact).
  set (w0 := with_heap _ w). set (cobj := length (heap w)).
  change (likes_tbl w) with (likes_tbl w0).
  set (u := user_pk request_user). clearbody w0 cobj u.
  clear dependent w. rename w0 into w.
  unfold toggled_rows.
  destruct (List.find (like_matches k u) (likes_tbl w)) as [found|] eqn:Hfind.
  - rewrite bind_unfold, (get_or_create_found _ _ _ _ _ _ _ Hfind).
    cbn [fst snd negb].
    apply find_some in Hfind as [_ [Hc Hu]%like_matches_eq].
    apply flips_bind; [intros b; keeps_step|].
    apply flips_bind; [intros []; keeps_step|].
    rewrite like_delete_unfold. cbn [like_row]. rewrite Hc, Hu.
    set (w1 := with_likes _ w).
    pose proof (keeps_comment_like_post_delete fuel (mkLikeInstance found None) now w1)
      as Hdel.
    destruct (comment_like_post_delete _ _ _ w1) as [[[]| |] w2]; simpl in *.
    + split; [intros _|left]; exact Hdel.
    + split; [discriminate|by right].
    + split; [discriminate|by right].
  - rewrite bind_unfold, (get_or_create_new _ _ _ _ _ _ Hfind).
    set (w1 := with_likes _ w). set (inst := mkLikeInstance _ _).
    pose proof (keeps_comment_like_post_save fuel inst true now w1) as Hsave.
    destruct (comment_like_post_save _ _ _ _ w1) as [[[]| |] w2]; cbn [fst snd negb].
    + apply flips_keeps; [keeps_step|exact Hsave].
    + split; [discriminate|by right].
    + split; [discriminate|by right].
Qed.

Lemma filter_filter_comm {A} (P Q : A -> bool) (l : list A) :
  List.filter P (List.filter Q l) = List.filter Q (List.filter P l).
Proof.
  induction l as [|x l IH]; simpl; [done|].
  destruct (P x) eqn:HP, (Q x) eqn:HQ; simpl; rewrite ?HP, ?HQ, IH; done.
Qed.

Lemma filter_negb_self {A} (P : A -> bool) (l : list A) :
  List.filter P (List.filter (fun x => negb (P x)) l) = [].
Proof.
  induction l as [|x l IH]; simpl; [done|].
  destruct (P x) eqn:HP; simpl; rewrite ?HP; done.
Qed.

Lemma filter_unaffected {A} (P Q : A -> bool) (l : list A) :
  (forall x, P x = true -> Q x = true) ->
  List.filter P (List.filter Q l) = List.filter P l.
Proof.
  intros H. induction l as [|x l IH]; simpl; [done|].
  destruct (Q x) eqn:HQ; simpl.
  - by rewrite IH.
  - destruct (P x) eqn:HP; [|done]. apply H in HP. congruence.
Qed.

Lemma filter_nil_find {A} (P : A -> bool) (l : list A) :
  List.filter P l = [] <-> List.find P l = None.
Proof.
  induction l as [|x l IH]; simpl; [done|].
  destruct (P x); [split; discriminate|done].
Qed.

(** *** Runs that return, and runs the validation refuses *)

Lemma run_deref a tbl likes tg h q c :
  h !! a = Some c ->
  deref a (mkWorld tbl likes tg h q) = (Ok c, mkWorld tbl likes tg h q).
Proof. intros H. unfold deref. simpl. by rewrite H. Qed.

Lemma run_assign a f tbl likes tg h q c :
  h !! a = Some c ->
  assign a f (mkWorld tbl likes tg h q)
  = (Ok tt, mkWorld tbl likes tg (<[a := f c]> h) q).
Proof. intros H. unfold assign. simpl. by rewrite H. Qed.

Lemma lookup_assigned (h : list Comment) a c x :
  h !! a = Some c -> <[a := x]> h !! a = Some x.
Proof. intros H. apply list_lookup_insert_eq. by eapply lookup_lt_Some. Qed.

(** A partial save of the counter from the object at [a]. *)
Lemma run_Comment_save fuel a now tbl likes tg h q self r :
  h !! a = Some self -> tbl !! id self = Some r ->
  clean fuel tbl self = Ok tt ->
  Comment_save fuel a (Some ["likes_count"]) now (mkWorld tbl likes tg h q)
  = (Ok tt,
     mkWorld (<[id self := set_likes_count (likes_count self) r]> tbl) likes tg h q).
Proof.
  intros Ha Hr Hclean. unfold Comment_save.
  eapply run_bind; [by apply run_deref|].
  unfold mbind at 1. cbn [comments_tbl]. unfold Comments.save.
  rewrite Hclean. cbn [Py.bind]. unfold model_save. rewrite Hr.
  cbn [existsb String.eqb Ascii.eqb Bool.eqb orb write_columns fold_left fst snd].
  change (write_column "likes_count" self r)
    with (set_likes_count (likes_count self) r).
  unfold with_comments. cbn [likes_tbl targets heap queue].
  eapply run_bind; [by apply run_assign|].
  rewrite list_insert_id by done. reflexivity.
Qed.

(** The number of like rows of a comment. *)
Definition like_rows (c : nat) (likes : list CommentLike) : Z :=
  Z.of_nat (length (List.filter (fun l => Nat.eqb (comment l) c) likes)).

(** The notification the post_save handler of CommentLike queues. *)
Definition like_note (self : Comment) (u : nat) : list Task :=
  if negb (Nat.eqb (author self) u)
  then [send_comment_like_notification (id self) u] else [].

Lemma run_comment_like_post_save fuel a l now tbl likes tg h q self r :
  h !! a = Some self -> tbl !! id self = Some r ->
  clean fuel tbl self = Ok tt ->
  let n := like_rows (comment l) likes in
  comment_like_post_save fuel (mkLikeInstance l (Some a)) true now
                         (mkWorld tbl likes tg h q)
  = (Ok tt,
     mkWorld (<[id self := set_likes_count n r]> tbl) likes tg
             (<[a := set_likes_count n self]> h) (q ++ like_note self (user l))).
Proof.
  intros Ha Hr Hclean n. unfold comment_like_post_save.
  eapply run_bind; [reflexivity|].
  eapply run_bind; [reflexivity|].
  eapply run_bind; [by apply run_assign|].
  eapply run_bind.
  { apply run_Comment_save with (self := set_likes_count n self) (r := r);
      [by eapply lookup_assigned|exact Hr|exact Hclean]. }
  eapply run_bind; [apply run_deref; by eapply lookup_assigned|].
  unfold like_note. cbn [author set_likes_count like_row id].
  destruct (negb _); [reflexivity|]. by rewrite app_nil_r.
Qed.

(** The counter of a comment plays no part in its validation. *)
Lemma clean_set_likes_count fuel tbl self z :
  clean fuel tbl (set_likes_count z self) = clean fuel tbl self.
Proof.
  apply CommentOpsProofs.clean_sim; [apply CommentOpsProofs.same_threads_refl|].
  by repeat split.
Qed.

(** A save of an object that fails its validation writes nothing. *)
Lemma Comment_save_refused fuel a uf now tbl likes tg h q self :
  h !! a = Some self -> is_ok (clean fuel tbl self) = false ->
  fails_to (Comment_save fuel a uf now)
           (mkWorld tbl likes tg h q) (mkWorld tbl likes tg h q).
Proof.
  intros Ha Hclean. unfold Comment_save.
  eapply fails_bind_r; [by apply run_deref|].
  apply fails_bind_l. unfold fails_to. cbn [comments_tbl]. unfold Comments.save.
  by destruct (clean fuel tbl self) as [[]| |].
Qed.

Lemma get_or_create_refused fuel a c u now tbl likes tg h q self :
  List.find (like_matches c u) likes = None ->
  h !! a = Some self -> is_ok (clean fuel tbl self) = false ->
  exists h', fails_to (get_or_create fuel a c u now)
                      (mkWorld tbl likes tg h q) (mkWorld tbl likes tg h' q).
Proof.
  intros Hfind Ha Hclean. eexists. unfold get_or_create.
  eapply fails_bind_r; [reflexivity|]. cbn [likes_tbl]. rewrite Hfind.
  apply (fails_atomic _ (mkWorld tbl likes tg h q)
           (mkWorld tbl (likes ++ [mkCommentLike c u now]) tg
                    (<[a := set_likes_count
                              (like_rows c (likes ++ [mkCommentLike c u now])) self]> h)
                    q)).
  eapply fails_bind_r; [reflexivity|]. apply fails_bind_l.
  unfold comment_like_post_save.
  eapply fails_bind_r; [reflexivity|].
  eapply fails_bind_r; [reflexivity|].
  eapply fails_bind_r; [by apply run_assign|].
  apply fails_bind_l.
  apply Comment_save_refused
    with (self := set_likes_count (like_rows c (likes ++ [mkCommentLike c u now])) self).
  - by eapply lookup_assigned.
  - by rewrite clean_set_likes_count.
Qed.

Lemma like_delete_refused fuel l now tbl likes tg h q row :
  tbl !! comment l = Some row -> is_ok (clean fuel tbl row) = false ->
  exists h', fails_to (like_delete fuel (mkLikeInstance l None) now)
                      (mkWorld tbl likes tg h q) (mkWorld tbl likes tg h' q).
Proof.
  intros Hrow Hclean. eexists. unfold like_delete.
  set (likes' := List.filter (fun x => negb (like_matches (comment l) (user l) x)) likes).
  set (m := Z.max 0 (like_rows (comment l) likes')).
  apply (fails_atomic _ (mkWorld tbl likes tg h q)
           (mkWorld tbl likes' tg (h ++ [set_likes_count m row]) q)).
  eapply fails_bind_r; [reflexivity|].
  unfold comment_like_post_delete.
  eapply fails_bind_r.
  { unfold like_comment, load_comment. cbn [comment_cache like_row].
    eapply run_bind; [reflexivity|]. cbn [comments_tbl with_likes]. rewrite Hrow.
    reflexivity. }
  eapply fails_bind_r; [reflexivity|].
  unfold with_heap, with_likes. cbn [comments_tbl likes_tbl targets heap queue like_row].
  assert (Hb : (h ++ [row]) !! length h = Some row)
    by (by apply list_lookup_middle).
  eapply fails_bind_r; [by apply run_assign|].
  rewrite insert_app_r_alt, Nat.sub_diag by lia.
  change (<[0 := ?x]> [row]) with [x].
  apply Comment_save_refused with (self := set_likes_count m row).
  - by apply list_lookup_middle.
  - by rewrite clean_set_likes_count.
Qed.

(** When the comment fails its validation the view raises, and the
    two tables are as before the request. *)
Lemma toggle_refused fuel (request_user : User) k now w row :
  comments_tbl w !! k = Some row -> is_active row = true ->
  is_ok (clean fuel (comments_tbl w) row) = false ->
  exists w', fails_to (comment_like_view fuel "POST" request_user k now) w w' /\
             likes_tbl w' = likes_tbl w /\ comments_tbl w' = comments_tbl w.
Proof.
  intros Hrow Hact Hclean. destruct w as [tbl likes tg h q].
  cbn [comments_tbl likes_tbl] in *.
  pose proof (get_object_or_404_stored k (mkWorld tbl likes tg h q) row Hrow Hact)
    as Hload.
  unfold with_heap in Hload. cbn [comments_tbl likes_tbl targets heap queue] in Hload.
  assert (Ha : (h ++ [row]) !! length h = Some row)
    by (by apply list_lookup_middle).
  unfold comment_like_view. cbn [String.eqb Ascii.eqb Bool.eqb negb].
  destruct (List.find (like_matches k (user_pk request_user)) likes)
    as [found|] eqn:Hfind.
  - pose proof Hfind as [_ [Hfc Hfu]%like_matches_eq]%find_some.
    destruct (like_delete_refused fuel found now tbl likes tg (h ++ [row]) q row)
      as [h' Hdel]; [by rewrite Hfc|exact Hclean|].
    exists (mkWorld tbl likes tg h' q). split; [|done].
    eapply fails_bind_r; [exact Hload|].
    eapply fails_bind_r; [by apply get_or_create_found|]. cbn [fst snd negb].
    apply fails_bind_l, fails_bind_l. exact Hdel.
  - destruct (get_or_create_refused fuel (length h) k (user_pk request_user) now
                tbl likes tg (h ++ [row]) q row Hfind Ha Hclean) as [h' Hnew].
    exists (mkWorld tbl likes tg h' q). split; [|done].
    eapply fails_bind_r; [exact Hload|]. apply fails_bind_l. exact Hnew.
Qed.

Lemma run_get_or_create_new fuel a c u now tbl likes tg h q self r :
  List.find (like_matches c u) likes = None ->
  h !! a = Some self -> tbl !! id self = Some r ->
  clean fuel tbl self = Ok tt ->
  let new := mkCommentLike c u now in
  let n := like_rows c (likes ++ [new]) in
  get_or_create fuel a c u now (mkWorld tbl likes tg h q)
  = (Ok (mkLikeInstance new (Some a), true),
     mkWorld (<[id self := set_likes_count n r]> tbl) (likes ++ [new]) tg
             (<[a := set_likes_count n self]> h) (q ++ like_note self u)).
Proof.
  intros Hfind Ha Hr Hclean new n. unfold get_or_create.
  eapply run_bind; [reflexivity|]. cbn [likes_tbl]. rewrite Hfind.
  apply run_atomic.
  eapply run_bind; [reflexivity|].
  eapply run_bind.
  { unfold with_likes. cbn [comments_tbl likes_tbl targets heap queue].
    by apply run_comment_like_post_save with (self := self) (r := r). }
  reflexivity.
Qed.

Lemma run_like_delete fuel l now tbl likes tg h q row :
  tbl !! comment l = Some row -> id row = comment l ->
  clean fuel tbl row = Ok tt ->
  let likes' :=
    List.filter (fun x => negb (like_matches (comment l) (user l) x)) likes in
  let m := Z.max 0 (like_rows (comment l) likes') in
  like_delete fuel (mkLikeInstance l None) now (mkWorld tbl likes tg h q)
  = (Ok tt,
     mkWorld (<[comment l := set_likes_count m row]> tbl) likes' tg
             (h ++ [set_likes_count m row]) q).
Proof.
  intros Hrow Hid Hclean likes' m. unfold like_delete. apply run_atomic.
  eapply run_bind; [reflexivity|].
  unfold with_likes. cbn [comments_tbl likes_tbl targets heap queue like_row].
  fold likes'. unfold comment_like_post_delete.
  eapply run_bind.
  { unfold like_comment, load_comment. cbn [comment_cache like_row].
    eapply run_bind; [reflexivity|]. cbn [comments_tbl]. rewrite Hrow.
    reflexivity. }
  eapply run_bind; [reflexivity|].
  unfold with_heap. cbn [comments_tbl likes_tbl targets heap queue like_row].
  assert (Hb : (h ++ [row]) !! length h = Some row)
    by (by apply list_lookup_middle).
  eapply run_bind; [by apply run_assign|].
  rewrite insert_app_r_alt, Nat.sub_diag by lia.
  change (<[0 := ?x]> [row]) with [x].
  rewrite (run_Comment_save fuel (length h) now tbl likes' tg _ q
             (set_likes_count (Z.max 0 (likes_count_query (comment l)
                (mkWorld tbl likes' tg (h ++ [row]) q))) row) row).
  - cbn [id set_likes_count likes_count]. by rewrite Hid.
  - by apply list_lookup_middle.
  - cbn [id set_likes_count]. by rewrite Hid.
  - exact Hclean.
Qed.

Lemma count_app_like k likes u now :
  like_rows k (likes ++ [mkCommentLike k u now]) = (like_rows k likes + 1)%Z.
Proof.
  unfold like_rows. rewrite List.filter_app, length_app. simpl.
  rewrite Nat.eqb_refl. simpl. lia.
Qed.

Section ValidComment.

Variables (fuel : nat) (request_user : User) (k : nat) (now : Z).
Variables (tbl : CommentTable) (likes : list CommentLike).
Variables (tg : gmap (nat * string) (option nat)) (h : list Comment) (q : list Task).
Variable row : Comment.
Hypothesis Hrow : tbl !! k = Some row.
Hypothesis Hid : id row = k.
Hypothesis Hact : is_active row = true.
Hypothesis Hclean : clean fuel tbl row = Ok tt.

Let u := user_pk request_user.

Lemma valid_load :
  get_object_or_404 k (mkWorld tbl likes tg h q)
  = (Ok (length h), mkWorld tbl likes tg (h ++ [row]) q).
Proof. by apply (get_object_or_404_stored k (mkWorld tbl likes tg h q) row). Qed.

Lemma valid_after_save z z' :
  clean fuel (<[k := set_likes_count z row]> tbl) (set_likes_count z' row) = Ok tt.
Proof.
  rewrite <- Hclean. symmetry.
  apply CommentOpsProofs.clean_sim; [|by repeat split].
  apply CommentOpsProofs.same_threads_insert with row; [done|by repeat split].
Qed.

(** A like request of a user without a like row. *)
Lemma run_toggle_like :
  List.find (like_matches k u) likes = None ->
  exists w',
    comment_like_view fuel "POST" request_user k now (mkWorld tbl likes tg h q)
    = (Ok (JsonLiked true (like_rows k likes + 2)), w') /\
    comments_tbl w' !! k = Some (set_likes_count (like_rows k likes + 2) row).
Proof.
  intros Hnil.
  assert (Ha : (h ++ [row]) !! length h = Some row)
    by (by apply list_lookup_middle).
  unfold comment_like_view.
  cbn [String.eqb Ascii.eqb Bool.eqb negb]. eexists. split.
  - eapply run_bind; [exact valid_load|].
    eapply run_bind.
    { apply run_get_or_create_new with (self := row) (r := row);
        [exact Hnil|exact Ha|by rewrite Hid|exact Hclean]. }
    cbn [snd negb]. rewrite Hid, count_app_like.
    eapply run_bind.
    { eapply run_bind; [|reflexivity].
      apply run_assign. by eapply lookup_assigned. }
    cbn [likes_count set_likes_count].
    eapply run_bind.
    { apply run_Comment_save
        with (self := set_likes_count (like_rows k likes + 1 + 1) row)
             (r := set_likes_count (like_rows k likes + 1) row).
      - eapply lookup_assigned. by eapply lookup_assigned.
      - cbn [id set_likes_count]. rewrite Hid. apply lookup_insert_eq.
      - apply valid_after_save. }
    eapply run_bind.
    { apply run_deref. eapply lookup_assigned. by eapply lookup_assigned. }
    unfold ret. cbn [likes_count set_likes_count].
    replace (like_rows k likes + 1 + 1)%Z with (like_rows k likes + 2)%Z by lia.
    reflexivity.
  - cbn [comments_tbl id set_likes_count likes_count]. rewrite Hid.
    rewrite lookup_insert_eq. reflexivity.
Qed.

(** A request of a user who has a like row. *)
Lemma run_toggle_unlike found :
  List.find (like_matches k u) likes = Some found ->
  exists w',
    comment_like_view fuel "POST" request_user k now (mkWorld tbl likes tg h q)
    = (Ok (JsonLiked false (Z.max 0 (likes_count row - 1))), w') /\
    comments_tbl w' !! k
    = Some (set_likes_count (Z.max 0 (likes_count row - 1)) row).
Proof.
  intros Hfind.
  assert (Ha : (h ++ [row]) !! length h = Some row)
    by (by apply list_lookup_middle).
  pose proof Hfind as [_ [Hfc Hfu]%like_matches_eq]%find_some.
  unfold comment_like_view.
  cbn [String.eqb Ascii.eqb Bool.eqb negb]. eexists. split.
  - eapply run_bind; [exact valid_load|].
    eapply run_bind; [by apply get_or_create_found|].
    cbn [fst snd negb].
    eapply run_bind.
    { eapply run_bind.
      { apply run_like_delete with (row := row);
          [by rewrite Hfc|by rewrite Hfc|exact Hclean]. }
      eapply run_bind; [|reflexivity].
      apply run_assign. rewrite lookup_app_l; [exact Ha|].
      rewrite length_app. simpl. lia. }
    rewrite Hfc.
    eapply run_bind.
    { eapply run_Comment_save
        with (self := set_likes_count (Z.max 0 (likes_count row - 1)) row).
      - apply list_lookup_insert_eq. rewrite !length_app. simpl. lia.
      - cbn [id set_likes_count]. rewrite Hid. apply lookup_insert_eq.
      - apply valid_after_save. }
    eapply run_bind.
    { apply run_deref. apply list_lookup_insert_eq.
      rewrite !length_app. simpl. lia. }
    unfold ret. cbn [likes_count set_likes_count]. reflexivity.
  - cbn [comments_tbl id set_likes_count likes_count]. rewrite Hid.
    rewrite lookup_insert_eq. reflexivity.
Qed.

(** The view answers a request for a comment that passes its
    validation. *)
Lemma toggle_answered :
  is_ok (comment_like_view fuel "POST" request_user k now
           (mkWorld tbl likes tg h q)).1 = true.
Proof.
  destruct (List.find (like_matches k u) likes) as [found|] eqn:Hfind.
  - by destruct (run_toggle_unlike found Hfind) as (w' & -> & _).
  - by destruct (run_toggle_like Hfind) as (w' & -> & _).
Qed.

End ValidComment.

(** The toggle is all or nothing on the like row of the pair (comment,
    user), and touches no other pair.  For a stored, active comment:
    when the view answers, a pair without a row has got exactly one
    and the rows of a pair that had some are gone; for a comment
    stored under its own key the view answers exactly when the
    comment passes its validation, and when it raises, the INSERT or
    DELETE is rolled back and both tables are as before the request;
    the rows of every other pair are as before in either case. *)
Theorem toggle_flips_like_row fuel (request_user : User) k now w row :
  comments_tbl w !! k = Some row -> is_active row = true ->
  let u := user_pk request_user in
  let out := comment_like_view fuel "POST" request_user k now w in
  (is_ok out.1 = true ->
   (likes_of k u w = [] -> likes_of k u out.2 = [mkCommentLike k u now]) /\
   (likes_of k u w <> [] -> likes_of k u out.2 = [])) /\
  (id row = k -> is_ok out.1 = is_ok (clean fuel (comments_tbl w) row)) /\
  (id row = k -> is_ok out.1 = false ->
   likes_tbl out.2 = likes_tbl w /\ comments_tbl out.2 = comments_tbl w) /\
  (forall c' u', (c', u') <> (k, u) -> likes_of c' u' out.2 = likes_of c' u' w).
Proof.
  intros Hrow Hact u out.
  destruct (toggle_likes_tbl fuel request_user k now w row Hrow Hact) as [Hok Hany].
  fold u out in Hok, Hany.
  assert (Hans : id row = k ->
                 is_ok out.1 = is_ok (clean fuel (comments_tbl w) row)).
  { intros Hid. destruct (is_ok (clean fuel (comments_tbl w) row)) eqn:Hclean.
    - destruct (clean fuel (comments_tbl w) row) as [[]| |] eqn:Hc;
        try discriminate.
      destruct w as [tbl likes tg h q]. subst out.
      apply (toggle_answered fuel request_user k now tbl likes tg h q row
               Hrow Hid Hact Hc).
    - destruct (toggle_refused fuel request_user k now w row Hrow Hact Hclean)
        as (w' & [Hf _] & _). exact Hf. }
  unfold likes_of. split; [|split; [exact Hans|split]].
  - intros Hanswered. rewrite (Hok Hanswered). unfold toggled_rows. split.
    + intros Hnil. pose proof Hnil as ->%filter_nil_find.
      rewrite List.filter_app, Hnil. simpl. unfold like_matches. simpl.
      by rewrite !Nat.eqb_refl.
    + intros Hne. destruct (List.find _ _) eqn:Hfind.
      * apply filter_negb_self.
      * by apply filter_nil_find in Hfind.
  - intros Hid Hfail. rewrite (Hans Hid) in Hfail.
    destruct (toggle_refused fuel request_user k now w row Hrow Hact Hfail)
      as (w' & [_ Hw'] & Hl & Hc).
    subst out. by rewrite Hw'.
  - intros c' u' Hpair. destruct Hany as [-> | ->]; [|done]. unfold toggled_rows.
    assert (Hother : forall l, like_matches c' u' l = true ->
                               negb (like_matches k u l) = true).
    { intros l [Hc Hu]%like_matches_eq. apply negb_true_iff.
      destruct (like_matches k u l) eqn:Hm; [|done].
      apply like_matches_eq in Hm as [Hc' Hu']. congruence. }
    destruct (List.find _ _) eqn:Hfind.
    + by apply filter_unaffected.
    + rewrite List.filter_app. simpl.
      destruct (like_matches c' u' _) eqn:Hm; [|by rewrite app_nil_r].
      apply like_matches_eq in Hm as [Hc Hu]. simpl in *. congruence.
Qed.

(** Reply 11 names another object than its parent 10, so its validation
    raises: the like of user 200 is rolled back. *)
Lemma toggle_flips_like_row_witness :
  let parent := mkComment 10 1 "42" 100 "A comment" None true false false 0 10 10 in
  let reply := mkComment 11 1 "43" 101 "A reply" (Some 10) true false false 0 20 20 in
  let w := mkWorld {[10 := parent; 11 := reply]} [mkCommentLike 10 300 20] ∅ [] [] in
  let bob := mkUser 200 "bob" false false in
  let out := comment_like_view 5 "POST" bob 11 50 w in
  is_ok out.1 = false /\
  (is_ok out.1 = true ->
   (likes_of 11 200 w = [] -> likes_of 11 200 out.2 = [mkCommentLike 11 200 50]) /\
   (likes_of 11 200 w <> [] -> likes_of 11 200 out.2 = [])) /\
  (id reply = 11 -> is_ok out.1 = is_ok (clean 5 (comments_tbl w) reply)) /\
  (id reply = 11 -> is_ok out.1 = false ->
   likes_tbl out.2 = likes_tbl w /\ comments_tbl out.2 = comments_tbl w) /\
  (forall c' u', (c', u') <> (11, 200) -> likes_of c' u' out.2 = likes_of c' u' w).
Proof.
  intros parent reply w bob out. split; [vm_compute; reflexivity|].
  apply (toggle_flips_like_row 5 bob 11 50%Z w reply); reflexivity.
Defined.

(** *** The stored counter under the toggle *)

(** The counter the toggle stores and answers.  For a stored, active
    comment that passes its validation: a like by a user without a
    like row stores and answers the number of like rows of the
    comment before the request plus two, one more than the rows
    there are afterwards; a request by a user with a like row stores
    and answers the counter stored before the request minus one, not
    below zero, whatever the number of rows. *)
Theorem toggle_stored_counter fuel (request_user : User) k now w row :
  comments_tbl w !! k = Some row -> id row = k -> is_active row = true ->
  clean fuel (comments_tbl w) row = Ok tt ->
  let u := user_pk request_user in
  let out := comment_like_view fuel "POST" request_user k now w in
  (likes_of k u w = [] ->
   out.1 = Ok (JsonLiked true (likes_count_query k w + 2)) /\
   stored_likes_count k out.2 = Some (likes_count_query k w + 2)%Z) /\
  (likes_of k u w <> [] ->
   out.1 = Ok (JsonLiked false (Z.max 0 (likes_count row - 1))) /\
   stored_likes_count k out.2 = Some (Z.max 0 (likes_count row - 1))).
Proof.
  intros Hrow Hid Hact Hclean u out.
  destruct w as [tbl likes tg h q]. cbn [comments_tbl] in *.
  unfold likes_of, stored_likes_count. cbn [likes_tbl].
  change (likes_count_query k (mkWorld tbl likes tg h q)) with (like_rows k likes).
  split.
  - (* the like *)
    intros Hnil. apply filter_nil_find in Hnil.
    destruct (run_toggle_like fuel request_user k now tbl likes tg h q row
                Hrow Hid Hact Hclean Hnil) as (w' & Hout & Hk).
    subst out. rewrite Hout. cbn [fst snd]. by rewrite Hk.
  - (* the request of a user with a like row *)
    intros Hsome.
    destruct (List.find (like_matches k u) likes) as [found|] eqn:Hfind;
      [|by apply filter_nil_find in Hfind].
    destruct (run_toggle_unlike fuel request_user k now tbl likes tg h q row
                Hrow Hid Hact Hclean found Hfind) as (w' & Hout & Hk).
    subst out. rewrite Hout. cbn [fst snd]. by rewrite Hk.
Qed.

(** Comment 7 has the like of user 300 and the stored counter 1; user
    200 likes it. *)
Lemma toggle_stored_counter_witness :
  let c := mkComment 7 1 "42" 100 "A first comment" None true false false 1 10 10 in
  let w := mkWorld {[7 := c]} [mkCommentLike 7 300 20] ∅ [] [] in
  let bob := mkUser 200 "bob" false false in
  let out := comment_like_view 5 "POST" bob 7 50 w in
  (likes_of 7 200 w = [] ->
   out.1 = Ok (JsonLiked true (likes_count_query 7 w + 2)) /\
   stored_likes_count 7 out.2 = Some (likes_count_query 7 w + 2)%Z) /\
  (likes_of 7 200 w <> [] ->
   out.1 = Ok (JsonLiked false (Z.max 0 (likes_count c - 1))) /\
   stored_likes_count 7 out.2 = Some (Z.max 0 (likes_count c - 1))).
Proof.
  intros c w bob.
  apply (toggle_stored_counter 5 bob 7 50%Z w c); reflexivity.
Defined.

(** *** Counters stay non-negative: an instance *)

Lemma likes_count_never_negative_witness :
  LikeProofs.counts_nonneg LikeProofs.before_like /\
  stored_likes_count 7
    (LikeProofs.toggles 5 [(LikeProofs.liker, 7, 50%Z); (LikeProofs.liker, 7, 60%Z)]
                        LikeProofs.before_like) = Some 1%Z /\
  (0 <= 1)%Z.
Proof.
  assert (Hw : LikeProofs.counts_nonneg LikeProofs.before_like).
  { split; [constructor|]. apply map_Forall_singleton.
    unfold LikeProofs.nonneg. simpl. lia. }
  split; [exact Hw|]. split; [vm_compute; reflexivity|].
  apply (LikeProofs.likes_count_never_negative 5
           [(LikeProofs.liker, 7, 50%Z); (LikeProofs.liker, 7, 60%Z)]
           LikeProofs.before_like 7 1%Z Hw).
  vm_compute. reflexivity.
Defined.

(** *** One like per comment and user *)

(** No pair (comment, user) has two like rows. *)
Definition unique_likes (w : World) : Prop :=
  forall c u, length (likes_of c u w) <= 1.

Lemma toggle_likes_tbl_404 fuel (request_user : User) k now w :
  (forall row, comments_tbl w !! k = Some row -> is_active row = false) ->
  likes_tbl (toggle fuel request_user k now w) = likes_tbl w.
Proof.
  intros Hgone. unfold toggle, comment_like_view. simpl.
  unfold mbind at 1. unfold get_object_or_404 at 1.
  unfold mbind at 1. unfold get_world at 1.
  destruct (comments_tbl w !! k) as [row|] eqn:Hrow; [|done].
  by rewrite (Hgone row).
Qed.

Lemma toggle_unique_likes fuel (request_user : User) k now w :
  unique_likes w -> unique_likes (toggle fuel request_user k now w).
Proof.
  intros Hu c u. unfold likes_of.
  destruct (comments_tbl w !! k) as [row|] eqn:Hrow.
  2:{ rewrite toggle_likes_tbl_404 by (intros row; congruence). apply Hu. }
  destruct (is_active row) eqn:Hact.
  2:{ rewrite toggle_likes_tbl_404 by (intros row'; congruence). apply Hu. }
  unfold toggle.
  destruct (toggle_likes_tbl fuel request_user k now w row Hrow Hact)
    as [_ [-> | ->]]; [|apply Hu].
  unfold toggled_rows.
  destruct (List.find _ _) eqn:Hfind.
  - rewrite filter_filter_comm.
    etransitivity; [apply filter_length_le|]. apply Hu.
  - rewrite List.filter_app, length_app. simpl.
    destruct (like_matches c u _) eqn:Hm; simpl; [|specialize (Hu c u);
      unfold likes_of in Hu; lia].
    apply like_matches_eq in Hm as [Hc Hu']. simpl in Hc, Hu'. subst c u.
    apply filter_nil_find in Hfind. rewrite Hfind. simpl. lia.
Qed.

(** The toggle never gives a user two likes on a comment.  When no
    pair (comment, user) has more than one like row, this is still so
    after any sequence of toggles by any users on any comments. *)
Theorem toggles_keep_likes_unique fuel (reqs : list (User * nat * Z)) (w : World) :
  (forall c u, length (likes_of c u w) <= 1) ->
  forall c u, length (likes_of c u (LikeProofs.toggles fuel reqs w)) <= 1.
Proof.
  change (unique_likes w -> unique_likes (LikeProofs.toggles fuel reqs w)).
  unfold LikeProofs.toggles. revert w.
  induction reqs as [|r reqs IH]; intros w Hw; simpl; [done|].
  apply IH. by apply toggle_unique_likes.
Qed.

Lemma toggles_keep_likes_unique_witness :
  length (likes_of 7 200
            (LikeProofs.toggles 5 [(LikeProofs.liker, 7, 50%Z);
                                   (LikeProofs.liker, 7, 60%Z);
                                   (LikeProofs.liker, 7, 70%Z)]
                                LikeProofs.before_like)) <= 1.
Proof.
  apply (toggles_keep_likes_unique 5).
  intros c u. simpl. lia.
Defined.

End LikeOpsProofs.

(* ===================================================================== *)
(** * Properties of the notification views                               *)
(* ===================================================================== *)

Module NotificationOpsProofs.
Import Notifications NotificationOps ListFacts.

(** A user reaches no notification of somebody else.  For an id that
    names no notification or one of another recipient, marking it read
    and deleting it both answer Notification not found and leave the
    table as it is, and mark-all leaves the row as it is. *)
Theorem foreign_notifications_untouched (tbl : NotificationTable) (u : User)
        (k : nat) (now : Z) :
  (forall n, tbl !! k = Some n -> recipient n <> user_pk u) ->
  mark_notification_read tbl u k now = Ok (NotFound "Notification not found", tbl) /\
  delete_notification tbl u k = (NotFound "Notification not found", tbl) /\
  (mark_all_notifications_read tbl u).2 !! k = tbl !! k.
Proof.
  intros Hforeign.
  assert (Hget : get_for_recipient tbl k (user_pk u) = None).
  { unfold get_for_recipient. destruct (tbl !! k) as [n|] eqn:Hn; [|done].
    destruct (Nat.eqb_spec (recipient n) (user_pk u)); [|done].
    by destruct (Hforeign n). }
  unfold mark_notification_read, delete_notification. rewrite Hget.
  repeat split. rewrite NotificationProofs.lookup_mark_all.
  destruct (tbl !! k) as [n|] eqn:Hn; simpl; [|done].
  unfold unread_of. destruct (Nat.eqb_spec (recipient n) (user_pk u)); [|done].
  by destruct (Hforeign n).
Qed.

(** Notification 3 belongs to user 8; user 9 names it. *)
Lemma foreign_notifications_untouched_witness :
  let tbl := NotificationProofs.inbox in
  let u := NotificationProofs.reader in
  mark_notification_read tbl u 3 7 = Ok (NotFound "Notification not found", tbl) /\
  delete_notification tbl u 3 = (NotFound "Notification not found", tbl) /\
  (mark_all_notifications_read tbl u).2 !! 3 = tbl !! 3.
Proof.
  intros tbl u. apply (foreign_notifications_untouched tbl u 3 7%Z).
  intros n. vm_compute. intros [= <-]. discriminate.
Defined.

(** *** Counting unread notifications *)

Lemma unread_count_fmap (f : Notification -> Notification)
      (tbl : NotificationTable) (u : User) :
  unread_count (f <$> tbl) u
  = length (List.filter (fun n => unread_of (user_pk u) (f n)) (map_to_list tbl).*2).
Proof.
  unfold unread_count.
  rewrite <- (filter_length_fmap (unread_of (user_pk u)) f).
  apply filter_length_Permutation.
  rewrite map_to_list_fmap, <- !list_fmap_compose. done.
Qed.

(** Mark-all and the unread counters.  The view answers the number of
    unread notifications the user had; afterwards the user has none
    unread, and the unread counter of every other user is as before. *)
Theorem mark_all_unread_counts (tbl : NotificationTable) (u : User) :
  (mark_all_notifications_read tbl u).1 = SuccessCount (unread_count tbl u) /\
  unread_count (mark_all_notifications_read tbl u).2 u = 0 /\
  (forall u' : User, user_pk u' <> user_pk u ->
     unread_count (mark_all_notifications_read tbl u).2 u' = unread_count tbl u').
Proof.
  split; [reflexivity|]. unfold mark_all_notifications_read. cbn [snd].
  split.
  - rewrite unread_count_fmap. apply filter_length_none. intros n.
    unfold unread_of.
    destruct (Nat.eqb (recipient n) (user_pk u)) eqn:He,
             (is_read n) eqn:Hr; simpl; rewrite ?He, ?Hr; done.
  - intros u' Hne. rewrite unread_count_fmap. apply filter_length_ext.
    intros n. unfold unread_of at 2.
    destruct (Nat.eqb_spec (recipient n) (user_pk u)) as [He|He]; simpl; [|done].
    destruct (is_read n) eqn:Hr; simpl; [done|].
    unfold unread_of. simpl.
    destruct (Nat.eqb_spec (recipient n) (user_pk u')); [congruence|done].
Qed.

(** Deleting an own notification.  The recipient's request removes
    the row and no other; the recipient's unread counter drops by one
    when the notification was unread and stays otherwise, and the
    unread counter of every other user is as before. *)
Theorem delete_notification_own (tbl : NotificationTable) (u : User) (k : nat)
        (n : Notification) :
  tbl !! k = Some n -> id n = k -> recipient n = user_pk u ->
  let out := delete_notification tbl u k in
  out.1 = Success /\ out.2 !! k = None /\
  (forall j, j <> k -> out.2 !! j = tbl !! j) /\
  unread_count tbl u = unread_count out.2 u + (if is_read n then 0 else 1) /\
  (forall u' : User, user_pk u' <> user_pk u ->
     unread_count out.2 u' = unread_count tbl u').
Proof.
  intros Hk Hid Hrec out. subst out.
  unfold delete_notification, get_for_recipient.
  rewrite Hk, Hrec, Nat.eqb_refl, Hid. cbn [fst snd].
  split; [done|]. split; [apply lookup_delete_eq|].
  split; [intros j Hj; by apply lookup_delete_ne|].
  assert (Hcount : forall v : User,
             unread_count tbl v
             = (if unread_of (user_pk v) n then 1 else 0)
               + unread_count (delete k tbl) v).
  { intros v. unfold unread_count.
    rewrite <- (filter_length_Permutation _ _ _
                  (fmap_Permutation snd _ _ (map_to_list_delete tbl k n Hk))).
    simpl. by destruct (unread_of (user_pk v) n). }
  split.
  - rewrite (Hcount u). unfold unread_of. rewrite Hrec, Nat.eqb_refl. simpl.
    destruct (is_read n); simpl; lia.
  - intros u' Hne. rewrite (Hcount u'). unfold unread_of. rewrite Hrec.
    destruct (Nat.eqb_spec (user_pk u) (user_pk u')); [congruence|done].
Qed.

Lemma delete_notification_own_witness :
  let tbl := NotificationProofs.inbox in
  let u := NotificationProofs.reader in
  let out := delete_notification tbl u 1 in
  out.1 = Success /\ out.2 !! 1 = None /\
  (forall j, j <> 1 -> out.2 !! j = tbl !! j) /\
  unread_count tbl u = unread_count out.2 u + 1 /\
  (forall u' : User, user_pk u' <> user_pk u ->
     unread_count out.2 u' = unread_count tbl u').
Proof.
  intros tbl u.
  apply (delete_notification_own tbl u 1 (NotificationProofs.note 1 9 false None));
    reflexivity.
Defined.

End NotificationOpsProofs.

(* ===================================================================== *)
(** * Properties of the further article operations                       *)
(* ===================================================================== *)

Module ArticleOpsProofs.
Import Articles ArticleOps.

Section Views.
Variable slugify : string -> string.

Lemma run_increment_views fuel (tbl : ArticleTable) self row now :
  tbl !! id self = Some row ->
  slug self <> "" ->
  slug_exists (delete (id self) tbl) (slug row) = false ->
  exists self',
    increment_views slugify fuel tbl self now
    = Ok (self', <[id self := set_views_count (views_count self + 1) row]> tbl) /\
    views_count self' = (views_count self + 1)%Z.
Proof.
  intros Hrow Hslug Hfree. unfold increment_views, save.
  cbn [slug set_views_count].
  destruct (String.eqb_spec (slug self) "") as [|_]; [done|].
  cbn [Py.bind status published_at meta_description content set_views_count].
  unfold model_save.
  repeat match goal with
         | |- context [if ?b then set_published_at ?x ?y else ?z] =>
             destruct b
         | |- context [if ?b then set_meta_description ?x ?y else ?z] =>
             destruct b
         end;
    cbn [id set_views_count set_published_at set_meta_description];
    rewrite Hrow;
    cbn [existsb String.eqb Ascii.eqb Bool.eqb orb write_columns fold_left];
    match goal with
    | |- context [write_column "views_count" ?src row] =>
        change (write_column "views_count" src row)
          with (set_views_count (views_count self + 1) row)
    end;
    cbn [slug set_views_count]; rewrite Hfree; eexists; split; reflexivity.
Qed.

(** Counting a view writes the views_count column and nothing else:
    the stored row keeps every other column, all other rows stay as
    they are, and the stored counter is the one of the instance plus
    one, not the stored one plus one. *)
Theorem increment_views_counts_from_instance fuel (tbl : ArticleTable) self row now :
  tbl !! id self = Some row ->
  slug self <> "" ->
  slug_exists (delete (id self) tbl) (slug row) = false ->
  exists self' tbl',
    increment_views slugify fuel tbl self now = Ok (self', tbl') /\
    views_count self' = (views_count self + 1)%Z /\
    tbl' !! id self = Some (set_views_count (views_count self + 1) row) /\
    (forall k, k <> id self -> tbl' !! k = tbl !! k).
Proof.
  intros Hrow Hslug Hfree.
  destruct (run_increment_views fuel tbl self row now Hrow Hslug Hfree)
    as (self' & Hrun & Hcount).
  exists self', (<[id self := set_views_count (views_count self + 1) row]> tbl).
  split; [exact Hrun|]. split; [exact Hcount|].
  split; [apply lookup_insert_eq|].
  intros k Hk. by rewrite lookup_insert_ne.
Qed.

(** Two requests that read the same row and count a view each leave
    the counter one higher, not two. *)
Theorem increment_views_lost_update fuel (tbl : ArticleTable) row now now' :
  tbl !! id row = Some row ->
  slug row <> "" ->
  slug_exists (delete (id row) tbl) (slug row) = false ->
  exists a tbl1 b tbl2,
    increment_views slugify fuel tbl row now = Ok (a, tbl1) /\
    increment_views slugify fuel tbl1 row now' = Ok (b, tbl2) /\
    views_count <$> tbl2 !! id row = Some (views_count row + 1)%Z.
Proof.
  intros Hrow Hslug Hfree.
  destruct (run_increment_views fuel tbl row row now Hrow Hslug Hfree)
    as (a & Ha & _).
  set (row1 := set_views_count (views_count row + 1) row) in *.
  set (tbl1 := <[id row := row1]> tbl) in *.
  assert (Hrow1 : tbl1 !! id row = Some row1) by apply lookup_insert_eq.
  assert (Hfree1 : slug_exists (delete (id row) tbl1) (slug row1) = false).
  { subst tbl1. by rewrite delete_insert_eq. }
  destruct (run_increment_views fuel tbl1 row row1 now'
              Hrow1 Hslug Hfree1) as (b & Hb & _).
  exists a, tbl1, b, (<[id row := set_views_count (views_count row + 1) row1]> tbl1).
  split; [done|]. split; [done|]. by rewrite lookup_insert_eq.
Qed.

End Views.

Definition viewed : Article :=
  mkArticle 1 "Hello World" "hello-world" 9 None "" "Some text" "published"
            (Some 20%Z) false true "Some text" "" 5 0 0 10 20.

Lemma increment_views_counts_from_instance_witness :
  let tbl : ArticleTable := {[1 := set_views_count 9 viewed]} in
  exists self' tbl',
    increment_views ascii_slugify 0 tbl viewed 30 = Ok (self', tbl') /\
    views_count self' = 6%Z /\
    tbl' !! 1 = Some (set_views_count 6 (set_views_count 9 viewed)) /\
    (forall k, k <> 1 -> tbl' !! k = tbl !! k).
Proof.
  intros tbl.
  apply (increment_views_counts_from_instance ascii_slugify 0 tbl viewed
           (set_views_count 9 viewed) 30%Z);
    [reflexivity|discriminate|vm_compute; reflexivity].
Defined.

Lemma increment_views_lost_update_witness :
  exists a tbl1 b tbl2,
    increment_views ascii_slugify 0 {[1 := viewed]} viewed 30 = Ok (a, tbl1) /\
    increment_views ascii_slugify 0 tbl1 viewed 31 = Ok (b, tbl2) /\
    views_count <$> tbl2 !! 1 = Some 6%Z.
Proof.
  apply (increment_views_lost_update ascii_slugify 0 {[1 := viewed]} viewed 30%Z 31%Z);
    [reflexivity|discriminate|vm_compute; reflexivity].
Defined.

(** *** Reading time *)

(** A word: not empty and free of white space. *)
Definition word (w : list ascii) : Prop :=
  w <> [] /\ forallb (fun c => negb (is_space c)) w = true.

(** [' '.join(ws)] *)
Fixpoint join (ws : list (list ascii)) : list ascii :=
  match ws with
  | [] => []
  | [w] => w
  | w :: ws' => w ++ " "%char :: join ws'
  end.

Lemma split_loop_word acc w rest :
  forallb (fun c => negb (is_space c)) w = true ->
  split_loop acc (w ++ rest) = split_loop (rev w ++ acc) rest.
Proof.
  revert acc. induction w as [|c w IH]; intros acc Hw; simpl in *; [done|].
  apply andb_true_iff in Hw as [Hc Hw]. apply negb_true_iff in Hc.
  rewrite Hc, IH by done. by rewrite <- app_assoc.
Qed.

(** Splitting what was joined gives the words back. *)
Lemma split_loop_join ws :
  Forall word ws -> split_loop [] (join ws) = ws.
Proof.
  induction 1 as [|w ws [Hne Hw] Hws IH]; [done|].
  destruct ws as [|w' ws].
  - simpl. rewrite <- (app_nil_r w) at 1. rewrite split_loop_word by done.
    simpl. rewrite app_nil_r.
    destruct (rev w) eqn:Hrev.
    + apply (f_equal (@rev _)) in Hrev. rewrite rev_involutive in Hrev. done.
    + by rewrite <- Hrev, rev_involutive.
  - change (join (w :: w' :: ws)) with (w ++ " "%char :: join (w' :: ws))%list.
    rewrite split_loop_word by done. rewrite app_nil_r.
    cbn [split_loop]. change (is_space " ") with true. cbn iota.
    destruct (rev w) eqn:Hrev.
    + apply (f_equal (@rev _)) in Hrev. rewrite rev_involutive in Hrev. done.
    + by rewrite <- Hrev, rev_involutive, IH.
Qed.

(** The reading time is the number of words divided by 200 and
    rounded down, but at least 1: a text of n words joined by single
    spaces reads in max(1, n // 200) minutes, so that every text of
    fewer than 400 words is a one-minute read. *)
Theorem reading_time_of_words (a : Article) (ws : list (list ascii)) :
  Forall word ws ->
  content a = string_of_list_ascii (join ws) ->
  reading_time a = Z.max 1 (Z.of_nat (length ws) / 200) /\
  (length ws < 400 -> reading_time a = 1%Z).
Proof.
  intros Hws Hc.
  assert (Hrt : reading_time a = Z.max 1 (Z.of_nat (length ws) / 200)).
  { unfold reading_time, split.
    rewrite Hc, list_ascii_of_string_of_list_ascii, split_loop_join by done.
    by rewrite length_map. }
  split; [exact Hrt|]. intros Hlt. rewrite Hrt.
  assert (Z.of_nat (length ws) / 200 < 2)%Z
    by (apply Z.div_lt_upper_bound; lia).
  assert (0 <= Z.of_nat (length ws) / 200)%Z by (apply Z.div_pos; lia).
  lia.
Qed.

Lemma reading_time_of_words_witness :
  reading_time viewed = Z.max 1 (Z.of_nat 2 / 200) /\
  (2 < 400 -> reading_time viewed = 1%Z).
Proof.
  apply (reading_time_of_words viewed
           [list_ascii_of_string "Some"; list_ascii_of_string "text"]).
  - repeat constructor; discriminate.
  - reflexivity.
Defined.

(** *** The generated meta description *)

Lemma length_append (a b : string) :
  String.length (a ++ b) = String.length a + String.length b.
Proof. induction a as [|c a IH]; simpl; [done|]. by rewrite IH. Qed.

Lemma length_substring_0 (n : nat) (s : string) :
  n <= String.length s -> String.length (substring 0 n s) = n.
Proof.
  revert s. induction n as [|n IH]; intros s Hn.
  - by destruct s.
  - destruct s as [|c s]; simpl in *; [lia|]. rewrite IH; [done|lia].
Qed.

Lemma default_meta_description_length (c : string) :
  String.length (default_meta_description c) <= 153.
Proof.
  unfold default_meta_description.
  destruct (Nat.ltb_spec 150 (String.length c)) as [Hlong|Hshort]; [|lia].
  rewrite length_append, length_substring_0 by lia. simpl. lia.
Qed.

Section MetaDescription.
Variable slugify : string -> string.

(** The meta description after a save.  A description that was
    given is kept.  A missing one is generated when the article has
    content: it is the content itself up to 150 characters and the
    first 150 characters followed by three dots beyond, so that it
    never exceeds 153 characters. *)
Theorem save_generates_meta_description fuel (tbl : ArticleTable) self uf now
        self' tbl' :
  save slugify fuel tbl self uf now = Ok (self', tbl') ->
  (meta_description self <> "" -> meta_description self' = meta_description self) /\
  (meta_description self = "" -> content self <> "" ->
   meta_description self' = default_meta_description (content self) /\
   meta_description self' <> "" /\
   String.length (meta_description self') <= 153 /\
   (String.length (content self) <= 150 -> meta_description self' = content self)).
Proof.
  unfold save. intros H. apply CommentProofs.bind_ok in H as (self1 & H1 & H).
  assert (Hs1 : meta_description self1 = meta_description self /\
                content self1 = content self).
  { destruct (String.eqb (slug self) "").
    - by apply CommentProofs.bind_ok in H1 as (s & Hs & [= <-]).
    - by injection H1 as <-. }
  destruct Hs1 as [Hmeta Hcontent].
  assert (Hfinal :
            meta_description self'
            = if String.eqb (meta_description self) ""
                 && negb (String.eqb (content self) "")
              then default_meta_description (content self)
              else meta_description self).
  { revert H. unfold model_save.
    cbn [meta_description content set_published_at].
    repeat match goal with
           | |- context [if ?b then set_published_at ?x ?y else ?z] => destruct b
           end;
      cbn [meta_description content set_published_at];
      rewrite Hmeta, Hcontent;
      destruct (String.eqb (meta_description self) ""
                && negb (String.eqb (content self) ""));
      destruct uf as [fs|];
      cbn [id set_published_at set_meta_description];
      destruct (tbl !! id self1); try discriminate;
      repeat (match goal with
              | |- context [if ?b then _ else _] => destruct b
              end;
              cbn [id slug meta_description set_published_at set_meta_description
                   set_updated_at set_created_at]);
      try discriminate;
      intros [= <- _];
      cbn [meta_description set_published_at set_meta_description
           set_updated_at set_created_at];
      congruence. }
  rewrite Hfinal. split.
  - intros Hne. by destruct (String.eqb_spec (meta_description self) "").
  - intros He Hc. rewrite He.
    destruct (String.eqb_spec (content self) "") as [|_]; [done|]. cbn [andb negb String.eqb].
    split; [done|]. split; [|split].
    + unfold default_meta_description.
      destruct (Nat.ltb 150 (String.length (content self))) eqn:Hlen; [|done].
      intros Hnil. apply (f_equal String.length) in Hnil.
      rewrite length_append in Hnil. simpl in Hnil. lia.
    + apply default_meta_description_length.
    + intros Hshort. unfold default_meta_description.
      by destruct (Nat.ltb_spec 150 (String.length (content self))); [lia|].
Qed.

End MetaDescription.

Lemma save_generates_meta_description_witness :
  let draft := set_meta_description "" viewed in
  let saved := set_updated_at 30 viewed in
  (meta_description draft <> "" -> meta_description saved = meta_description draft) /\
  (meta_description draft = "" -> content draft <> "" ->
   meta_description saved = default_meta_description (content draft) /\
   meta_description saved <> "" /\
   String.length (meta_description saved) <= 153 /\
   (String.length (content draft) <= 150 -> meta_description saved = content draft)).
Proof.
  intros draft saved.
  apply (save_generates_meta_description ascii_slugify 0 {[1 := viewed]} draft None
           30%Z saved (<[1 := saved]> {[1 := viewed]})).
  vm_compute. reflexivity.
Defined.

End ArticleOpsProofs.

(* ===================================================================== *)
(** * Properties of categories                                           *)
(* ===================================================================== *)

Module CategoryProofs.
Import Categories.

Lemma slug_taken_true (tbl : CategoryTable) k j c s :
  tbl !! j = Some c -> j <> k -> slug c = s -> slug_taken tbl k s = true.
Proof.
  intros Hj Hne Hs. unfold slug_taken. apply existsb_exists. exists c. split.
  - apply list_elem_of_In, list_elem_of_fmap. exists (j, c). split; [done|].
    apply elem_of_map_to_list. by rewrite lookup_delete_ne.
  - rewrite Hs. apply String.eqb_refl.
Qed.

(** A category saved without a slug takes the slug of its name as it
    is: when another category already holds that slug the save raises
    IntegrityError and stores nothing, where an article would have
    received a numbered slug. *)
Theorem category_slug_collision (slugify : string -> string) (tbl : CategoryTable)
        (self other : Category) (j : nat) (now : Z) :
  slug self = "" ->
  tbl !! j = Some other -> j <> id self ->
  slug other = slugify (name self) ->
  save slugify tbl self now = Raise IntegrityError.
Proof.
  intros Hempty Hj Hne Hslug. unfold save, model_save. rewrite Hempty.
  cbn [String.eqb id set_slug].
  assert (Htaken : slug_taken tbl (id self) (slugify (name self)) = true)
    by (by eapply slug_taken_true).
  destruct (tbl !! id self); cbn [slug set_slug set_created_at];
    rewrite Htaken, orb_true_r; done.
Qed.

(** The categories C and C++ share the slug c. *)
Lemma category_slug_collision_witness :
  save Articles.ascii_slugify
       {[1 := mkCategory 1 "C" "c" "" None true 10]}
       (mkCategory 2 "C++" "" "" None true 0) 20
  = Raise IntegrityError.
Proof.
  apply (category_slug_collision Articles.ascii_slugify
           {[1 := mkCategory 1 "C" "c" "" None true 10]}
           (mkCategory 2 "C++" "" "" None true 0)
           (mkCategory 1 "C" "c" "" None true 10) 1 20%Z);
    [reflexivity|reflexivity|discriminate|vm_compute; reflexivity].
Defined.

End CategoryProofs.

(* ===================================================================== *)
(** * Properties of the utilities                                        *)
(* ===================================================================== *)

Module UtilsProofs.
Import Utils.
Local Open Scope Z_scope.

(** *** Page ranges *)

Lemma elem_of_range start stop x :
  x ∈ range start stop <-> start <= x < stop.
Proof.
  unfold range. rewrite list_elem_of_In, in_map_iff. split.
  - intros (i & <- & Hi%in_seq). lia.
  - intros Hx. exists (Z.to_nat (x - start)). split; [lia|].
    apply in_seq. lia.
Qed.

Lemma length_range start stop :
  Z.of_nat (length (range start stop)) = Z.max 0 (stop - start).
Proof. unfold range. rewrite length_map, length_seq. lia. Qed.

(** The page window.  For a page between 1 and the number of pages
    and a window of at least one page, the range holds only existing
    pages and holds the current page; it is never longer than the
    window plus one, and for an odd window it has exactly as many
    pages as the window, or as there are.  The paginator of the
    articles computes the same range. *)
Theorem page_range_window (page num_pages display_pages : Z) :
  1 <= display_pages -> 1 <= page <= num_pages ->
  let pages := get_page_range page num_pages display_pages in
  (forall p, p ∈ pages -> 1 <= p <= num_pages) /\
  page ∈ pages /\
  Z.of_nat (length pages) <= display_pages + 1 /\
  (Z.odd display_pages = true ->
   Z.of_nat (length pages) = Z.min num_pages display_pages) /\
  paginator_page_range page num_pages display_pages = pages.
Proof.
  intros Hd Hp pages. subst pages. unfold get_page_range, paginator_page_range.
  assert (Hhalf : 0 <= display_pages / 2 <= display_pages).
  { split; [apply Z.div_pos; lia|]. apply Z.div_le_upper_bound; lia. }
  assert (Hodd : Z.odd display_pages = true ->
                 display_pages = 2 * (display_pages / 2) + 1).
  { intros Ho. rewrite (Z.div_mod display_pages 2) at 1 by lia.
    rewrite Zmod_odd, Ho. lia. }
  assert (Heven : 2 * (display_pages / 2) <= display_pages).
  { apply Z.mul_div_le. lia. }
  assert (Hsolve : forall a b,
             1 <= a -> b <= num_pages + 1 -> a <= page < b ->
             b - a <= display_pages + 1 ->
             (Z.odd display_pages = true -> b - a = Z.min num_pages display_pages) ->
             (forall p, p ∈ range a b -> 1 <= p <= num_pages) /\
             page ∈ range a b /\
             Z.of_nat (length (range a b)) <= display_pages + 1 /\
             (Z.odd display_pages = true ->
              Z.of_nat (length (range a b)) = Z.min num_pages display_pages)).
  { intros a b Ha Hb Hin Hlen Hexact. rewrite length_range.
    split; [intros p Hq%elem_of_range; lia|].
    split; [apply elem_of_range; lia|]. split; [lia|].
    intros Ho. specialize (Hexact Ho). lia. }
  assert (Hlast : forall A B C D E : Prop,
             A /\ B /\ C /\ D -> E -> A /\ B /\ C /\ D /\ E) by tauto.
  destruct (Z.leb_spec num_pages display_pages).
  { apply Hlast; [apply Hsolve; lia|done]. }
  destruct (Z.leb_spec page (display_pages / 2)).
  { apply Hlast; [apply Hsolve; lia|done]. }
  destruct (Z.ltb_spec (num_pages - display_pages / 2) page).
  { apply Hlast; [apply Hsolve; lia|done]. }
  apply Hlast; [|done].
  apply Hsolve; try lia. intros Ho. specialize (Hodd Ho). lia.
Qed.

Lemma page_range_window_witness :
  let pages := get_page_range 5 20 6 in
  (forall p, p ∈ pages -> 1 <= p <= 20) /\
  5 ∈ pages /\
  Z.of_nat (length pages) <= 6 + 1 /\
  (Z.odd 6 = true -> Z.of_nat (length pages) = Z.min 20 6) /\
  paginator_page_range 5 20 6 = pages.
Proof. apply (page_range_window 5 20 6); lia. Defined.

(** *** The client address *)

Local Close Scope Z_scope.
Local Open Scope list_scope.

(** Text of white space only. *)
Definition blank (s : list ascii) : Prop := forallb is_whitespace s = true.

(** Text that is not empty and has no white space at either end. *)
Definition trimmed (s : list ascii) : Prop :=
  s <> [] /\
  (forall c, head s = Some c -> is_whitespace c = false) /\
  (forall c, last s = Some c -> is_whitespace c = false).

(** An address as a proxy writes it: trimmed and free of commas. *)
Definition address (ip : list ascii) : Prop :=
  trimmed ip /\ forallb (fun c => negb (Ascii.eqb c ","%char)) ip = true.

Lemma first_field_app a rest :
  forallb (fun c => negb (Ascii.eqb c ","%char)) a = true ->
  first_field (a ++ ","%char :: rest) = a /\ first_field a = a.
Proof.
  induction a as [|c a IH]; simpl; [done|].
  intros [Hc Ha]%andb_true_iff. apply negb_true_iff in Hc. rewrite Hc.
  destruct (IH Ha) as [-> ->]. done.
Qed.

Lemma blank_no_comma s :
  blank s -> forallb (fun c => negb (Ascii.eqb c ","%char)) s = true.
Proof.
  unfold blank. induction s as [|c s IH]; simpl; [done|].
  intros [Hc Hs]%andb_true_iff. rewrite IH by done. rewrite andb_true_r.
  destruct (Ascii.eqb_spec c ","%char) as [->|]; [discriminate|done].
Qed.

Lemma lstrip_blank lead s : blank lead -> lstrip (lead ++ s) = lstrip s.
Proof.
  unfold blank. induction lead as [|c lead IH]; simpl; [done|].
  intros [Hc Hl]%andb_true_iff. rewrite Hc. by apply IH.
Qed.

Lemma lstrip_head s :
  (forall c, head s = Some c -> is_whitespace c = false) -> lstrip s = s.
Proof. destruct s as [|c s]; simpl; [done|]. intros H. by rewrite (H c). Qed.

Lemma head_rev {A} (l : list A) : head (rev l) = last l.
Proof.
  induction l as [|x l _] using rev_ind; [done|].
  by rewrite rev_app_distr, last_snoc.
Qed.

Lemma blank_rev s : blank s -> blank (rev s).
Proof.
  unfold blank. rewrite !forallb_forall. intros H c Hc. apply H.
  by apply in_rev.
Qed.

Lemma strip_padded lead ip trail :
  blank lead -> blank trail -> trimmed ip -> strip (lead ++ ip ++ trail) = ip.
Proof.
  intros Hl Ht (Hne & Hhead & Hlast). unfold strip.
  rewrite lstrip_blank by done.
  rewrite (lstrip_head (ip ++ trail)).
  2:{ intros c. destruct ip as [|x ip]; [done|exact (Hhead c)]. }
  rewrite rev_app_distr, lstrip_blank by by apply blank_rev.
  rewrite lstrip_head; [apply rev_involutive|].
  intros c. rewrite head_rev. apply Hlast.
Qed.

Lemma string_of_list_ascii_nonempty (l : list ascii) :
  l <> [] -> String.eqb (string_of_list_ascii l) "" = false.
Proof. by destruct l. Qed.

(** The address taken from the request.  A forwarding header that
    is not empty decides alone, whatever REMOTE_ADDR holds: the
    result is the first entry of its comma-separated list without the
    white space around it.  Without the header, or with an empty one,
    the result is REMOTE_ADDR. *)
Theorem get_client_ip_first_entry (lead ip trail rest : list ascii)
        (remote_addr : option string) :
  blank lead -> blank trail -> address ip ->
  get_client_ip (Some (string_of_list_ascii (lead ++ ip ++ trail ++ ","%char :: rest)))
                remote_addr
  = Some (string_of_list_ascii ip) /\
  get_client_ip (Some (string_of_list_ascii (lead ++ ip ++ trail))) remote_addr
  = Some (string_of_list_ascii ip) /\
  get_client_ip None remote_addr = remote_addr /\
  get_client_ip (Some "") remote_addr = remote_addr.
Proof.
  intros Hl Ht [Hip Hcomma]. pose proof Hip as (Hne & _).
  assert (Hfield : forallb (fun c => negb (Ascii.eqb c ","%char)) (lead ++ ip ++ trail)
                   = true).
  { rewrite !forallb_app, Hcomma, !blank_no_comma by done. done. }
  destruct (first_field_app _ rest Hfield) as [Hfirst Hwhole].
  unfold get_client_ip. repeat split.
  - rewrite string_of_list_ascii_nonempty
      by (destruct lead; [destruct ip; [done|discriminate]|discriminate]).
    rewrite list_ascii_of_string_of_list_ascii.
    replace (lead ++ ip ++ trail ++ ","%char :: rest)
      with ((lead ++ ip ++ trail) ++ ","%char :: rest)
      by (by rewrite <- !app_assoc).
    by rewrite Hfirst, strip_padded.
  - rewrite string_of_list_ascii_nonempty
      by (destruct lead; [destruct ip; [done|discriminate]|discriminate]).
    rewrite list_ascii_of_string_of_list_ascii.
    by rewrite Hwhole, strip_padded.
Qed.

(** A header written by two proxies, and an address behind REMOTE_ADDR. *)
Lemma get_client_ip_first_entry_witness :
  get_client_ip (Some " 203.0.113.7 ,10.0.0.1") (Some "10.0.0.2")
  = Some "203.0.113.7" /\
  get_client_ip (Some " 203.0.113.7 ") (Some "10.0.0.2") = Some "203.0.113.7" /\
  get_client_ip None (Some "10.0.0.2") = Some "10.0.0.2" /\
  get_client_ip (Some "") (Some "10.0.0.2") = Some "10.0.0.2".
Proof.
  apply (get_client_ip_first_entry
           (list_ascii_of_string " ") (list_ascii_of_string "203.0.113.7")
           (list_ascii_of_string " ") (list_ascii_of_string "10.0.0.1")
           (Some "10.0.0.2")).
  - reflexivity.
  - reflexivity.
  - split; [|reflexivity]. split; [discriminate|].
    split; intros c [= <-]; reflexivity.
Defined.

End UtilsProofs.

(* ===================================================================== *)
(** * Properties of the further user operations                          *)
(* ===================================================================== *)

Module UserOpsProofs.
Import Users UserOps.

(** *** Full names *)

Lemma list_ascii_of_string_app (a b : string) :
  list_ascii_of_string (a ++ b)
  = (list_ascii_of_string a ++ list_ascii_of_string b)%list.
Proof. induction a as [|c a IH]; simpl; [done|]. by rewrite IH. Qed.

(** The full name has no white space at its ends.  With both names
    given it is the two joined by one space; with one of them empty it
    is the other alone, without the joining space; with both empty it
    is empty. *)
Theorem get_full_name_trims (u : CustomUser) (f l : list ascii) :
  first_name u = string_of_list_ascii f ->
  last_name u = string_of_list_ascii l ->
  (UtilsProofs.trimmed f -> UtilsProofs.trimmed l ->
   get_full_name u = string_of_list_ascii (f ++ " "%char :: l)) /\
  (UtilsProofs.trimmed f -> l = [] -> get_full_name u = first_name u) /\
  (f = [] -> UtilsProofs.trimmed l -> get_full_name u = last_name u) /\
  (f = [] -> l = [] -> get_full_name u = "").
Proof.
  intros Hf Hl. unfold get_full_name.
  rewrite Hf, Hl, !list_ascii_of_string_app, !list_ascii_of_string_of_list_ascii.
  change (list_ascii_of_string " ") with [" "%char].
  repeat split.
  - intros (Hfne & Hfh & Hfl) (Hlne & Hlh & Hll).
    replace (f ++ [" "%char] ++ l)%list
      with ([] ++ (f ++ " "%char :: l) ++ [])%list
      by (simpl; by rewrite app_nil_r).
    rewrite UtilsProofs.strip_padded; [done|done|done|].
    split; [by destruct f|]. split.
    + intros c. destruct f as [|x f]; [done|]. exact (Hfh c).
    + intros c. destruct l as [|y l _] using rev_ind; [done|].
      change (f ++ " "%char :: l ++ [y])%list
        with (f ++ (" "%char :: l) ++ [y])%list.
      rewrite app_assoc, last_snoc. intros [= <-]. apply Hll.
      by rewrite last_snoc.
  - intros Hft ->.
    replace (f ++ [" "%char] ++ [])%list with ([] ++ f ++ [" "%char])%list by done.
    by rewrite UtilsProofs.strip_padded.
  - intros -> Hlt.
    replace ([] ++ [" "%char] ++ l)%list with ([" "%char] ++ l ++ [])%list
      by (simpl; by rewrite app_nil_r).
    by rewrite UtilsProofs.strip_padded.
  - by intros -> ->.
Qed.

Definition anna : CustomUser :=
  mkCustomUser 5 "anna@example.org" "anna" "Anna" "" true "" 3 100 true None.

Lemma get_full_name_trims_witness : get_full_name anna = "Anna".
Proof.
  apply (get_full_name_trims anna (list_ascii_of_string "Anna") []);
    [reflexivity|reflexivity| |reflexivity].
  split; [discriminate|]. split; intros c [= <-]; reflexivity.
Defined.

(** *** Clearing the cache of a user *)

(** The four families of keys a user has in the cache. *)
Definition families : list string :=
  ["user_profile:"; "user_data:"; "public_profile:"; "user_stats:"].

Lemma family_key_inj f f' a b :
  f ∈ families -> f' ∈ families -> f ++ str a = f' ++ str b -> f = f' /\ a = b.
Proof.
  unfold families. intros Hf Hf'.
  repeat (apply elem_of_cons in Hf as [->|Hf]);
    repeat (apply elem_of_cons in Hf' as [->|Hf']);
    try (by apply elem_of_nil in Hf); try (by apply elem_of_nil in Hf');
    intros H; try (by injection H);
    (split; [done|]);
    apply ArticleProofs.append_inj_l in H; by apply ArticleProofs.str_inj.
Qed.

Lemma clear_user_cache_family_gone (cache : Cache) (uid : nat) f :
  f ∈ families -> clear_user_cache cache uid !! (f ++ str uid) = None.
Proof.
  intros Hf. unfold clear_user_cache. cbn [foldr].
  unfold families in Hf.
  repeat (apply elem_of_cons in Hf as [->|Hf]);
    [..|by apply elem_of_nil in Hf];
    repeat first [apply lookup_delete_eq
                 |rewrite lookup_delete_ne by (intros [=])].
Qed.

Lemma clear_user_cache_family_kept (cache : Cache) (uid uid' : nat) f :
  f ∈ families -> uid' <> uid ->
  clear_user_cache cache uid !! (f ++ str uid') = cache !! (f ++ str uid').
Proof.
  intros Hf Hne. unfold clear_user_cache. cbn [foldr].
  assert (Hk : forall f', f' ∈ families -> f' ++ str uid <> f ++ str uid').
  { intros f' Hf' Heq.
    destruct (family_key_inj _ _ _ _ Hf' Hf Heq) as [_ ?]. congruence. }
  rewrite !lookup_delete_ne; [done|apply Hk..]; unfold families;
    repeat first [left|right].
Qed.

(** Clearing is per user.  After the handler of a profile save ran
    for a user, none of the user's four keys is in the cache, and
    every key of every other user holds what it held.  The explicit
    invalidation and the handler of a user deletion clear the same
    keys. *)
Theorem cache_clearing_is_per_user (cache : Cache) (uid : nat) :
  (forall f, f ∈ families -> clear_user_cache cache uid !! (f ++ str uid) = None) /\
  (forall f uid', f ∈ families -> uid' <> uid ->
     clear_user_cache cache uid !! (f ++ str uid') = cache !! (f ++ str uid')) /\
  invalidate_user_cache cache uid = clear_user_cache cache uid /\
  cleanup_user_cache cache uid = clear_user_cache cache uid.
Proof.
  split; [|split; [|done]].
  - intros f. apply clear_user_cache_family_gone.
  - intros f uid'. apply clear_user_cache_family_kept.
Qed.

(** The keys of a user are gone after [delete_many], whatever the
    cache holds under them. *)
Lemma invalidate_family_gone {V} (cache : gmap string V) (uid : nat) f :
  f ∈ families -> invalidate_user_cache cache uid !! (f ++ str uid) = None.
Proof.
  intros Hf. unfold invalidate_user_cache. cbn [foldr].
  unfold families in Hf.
  repeat (apply elem_of_cons in Hf as [->|Hf]);
    [..|by apply elem_of_nil in Hf];
    repeat first [apply lookup_delete_eq
                 |rewrite lookup_delete_ne by (intros [=])].
Qed.

Lemma cache_get_miss (cache : TimedCache) key now :
  cache !! key = None -> cache_get cache key now = None.
Proof. intros H. unfold cache_get. by rewrite H. Qed.

Lemma lookup_live now (cache : TimedCache) key :
  live now cache !! key = cache_get cache key now.
Proof.
  unfold live, cache_get. rewrite lookup_omap.
  destruct (cache !! key) as [[d expires]|]; reflexivity.
Qed.

Section Lookup.
Variable storage_url : string -> string.
Variable isoformat : Z -> string.

(** The cached user profile is read through, and stale until its
    entry expires or is invalidated.  A lookup at time [now] that
    misses the cache answers the dict of the stored rows and caches
    it for PROFILE_CACHE_TIMEOUT seconds.  Every lookup before
    [now + PROFILE_CACHE_TIMEOUT] answers that same dict and leaves
    the cache alone, whatever became of the rows; a lookup at or
    after that time, or after the user's cache was invalidated, reads
    the rows again and caches what it read for another timeout. *)
Theorem user_profile_stale_until_invalidated (cache : TimedCache) (tbl : UserTable)
        (uid : nat) (u : CustomUser) (p : Profile) (now : Z) :
  cache_get cache (user_profile_key uid) now = None ->
  tbl !! uid = Some u -> profile u = Some p ->
  let d := user_profile_data storage_url isoformat u p in
  let key := user_profile_key uid in
  let cache1 := <[key := (d, (now + PROFILE_CACHE_TIMEOUT)%Z)]> cache in
  get_user_profile storage_url isoformat cache tbl uid now = Ok (Some d, cache1) /\
  (forall (tbl' : UserTable) t,
     (t < now + PROFILE_CACHE_TIMEOUT)%Z ->
     get_user_profile storage_url isoformat cache1 tbl' uid t = Ok (Some d, cache1)) /\
  (forall (tbl' : UserTable) u' p' t,
     (now + PROFILE_CACHE_TIMEOUT <= t)%Z ->
     tbl' !! uid = Some u' -> profile u' = Some p' ->
     let d' := user_profile_data storage_url isoformat u' p' in
     get_user_profile storage_url isoformat cache1 tbl' uid t
     = Ok (Some d', <[key := (d', (t + PROFILE_CACHE_TIMEOUT)%Z)]> cache1)) /\
  (forall (tbl' : UserTable) u' p' t,
     tbl' !! uid = Some u' -> profile u' = Some p' ->
     let d' := user_profile_data storage_url isoformat u' p' in
     get_user_profile storage_url isoformat (invalidate_user_cache cache1 uid) tbl' uid t
     = Ok (Some d', <[key := (d', (t + PROFILE_CACHE_TIMEOUT)%Z)]>
                      (invalidate_user_cache cache1 uid))).
Proof.
  intros Hmiss Hu Hp d key cache1. split; [|split; [|split]].
  - unfold get_user_profile. by rewrite Hmiss, Hu, Hp.
  - intros tbl' t Ht. unfold get_user_profile, cache_get. subst cache1 key.
    rewrite lookup_insert_eq.
    by destruct (Z.ltb_spec t (now + PROFILE_CACHE_TIMEOUT)); [|lia].
  - intros tbl' u' p' t Ht Hu' Hp' d'.
    unfold get_user_profile, cache_get. subst cache1 key.
    rewrite lookup_insert_eq.
    destruct (Z.ltb_spec t (now + PROFILE_CACHE_TIMEOUT)); [lia|].
    by rewrite Hu', Hp'.
  - intros tbl' u' p' t Hu' Hp' d'. unfold get_user_profile.
    rewrite cache_get_miss
      by (apply (invalidate_family_gone cache1 uid "user_profile:");
          unfold families; left).
    by rewrite Hu', Hp'.
Qed.

(** A deleted user is forgotten at once.  After the deletion both
    cached lookups answer None for the user and cache nothing, also
    when a dict of the user was cached before, at whatever time they
    are made: get_public_profile on the cache it is given and on the
    entries the timed cache shows at that time, get_user_profile on
    the timed cache. *)
Theorem deleted_user_is_forgotten (cache : Cache) (tcache : TimedCache)
        (tbl : UserTable) (uid : nat) (u : CustomUser) (now : Z) :
  tbl !! uid = Some u -> id u = uid ->
  let cache' := (delete_user cache tbl uid).1 in
  let tcache' := (delete_user tcache tbl uid).1 in
  let tbl' := (delete_user cache tbl uid).2 in
  get_public_profile storage_url isoformat cache' tbl' uid = Ok (None, cache') /\
  get_public_profile storage_url isoformat (live now tcache') tbl' uid
  = Ok (None, live now tcache') /\
  get_user_profile storage_url isoformat tcache' tbl' uid now = Ok (None, tcache').
Proof.
  intros Hu Hid cache' tcache' tbl'. subst cache' tcache' tbl'. unfold delete_user.
  rewrite Hu, Hid. cbn [fst snd].
  change (@cleanup_user_cache) with (@invalidate_user_cache).
  unfold get_public_profile, get_user_profile, cache_key, user_profile_key.
  rewrite lookup_live.
  rewrite (invalidate_family_gone cache uid "public_profile:")
    by (unfold families; do 2 right; left).
  rewrite !cache_get_miss
    by (apply (invalidate_family_gone tcache uid); unfold families;
        repeat first [left|right; left|right; right; left]).
  by rewrite lookup_delete_eq.
Qed.

End Lookup.

Definition anna_profile : Profile :=
  mkProfile "Anna A." "bio" None None "" "Oslo" "" "" "" "" "light" "UTC" "en"
            true false true true true false.

(** A first lookup at time 1000: the entry lives until 2800. *)
Lemma user_profile_stale_until_invalidated_witness :
  let u := mkCustomUser 5 "anna@example.org" "anna" "Anna" "" true "" 3 100 true
                        (Some anna_profile) in
  let d := user_profile_data UserProofs.media UserProofs.iso u anna_profile in
  let key := user_profile_key 5 in
  let cache1 : TimedCache := <[key := (d, 2800%Z)]> ∅ in
  get_user_profile UserProofs.media UserProofs.iso ∅ {[5 := u]} 5 1000
  = Ok (Some d, cache1) /\
  (forall (tbl' : UserTable) t,
     (t < 2800)%Z ->
     get_user_profile UserProofs.media UserProofs.iso cache1 tbl' 5 t
     = Ok (Some d, cache1)) /\
  (forall (tbl' : UserTable) u' p' t,
     (2800 <= t)%Z ->
     tbl' !! 5 = Some u' -> profile u' = Some p' ->
     let d' := user_profile_data UserProofs.media UserProofs.iso u' p' in
     get_user_profile UserProofs.media UserProofs.iso cache1 tbl' 5 t
     = Ok (Some d', <[key := (d', (t + PROFILE_CACHE_TIMEOUT)%Z)]> cache1)) /\
  (forall (tbl' : UserTable) u' p' t,
     tbl' !! 5 = Some u' -> profile u' = Some p' ->
     let d' := user_profile_data UserProofs.media UserProofs.iso u' p' in
     get_user_profile UserProofs.media UserProofs.iso
                      (invalidate_user_cache cache1 5) tbl' 5 t
     = Ok (Some d', <[key := (d', (t + PROFILE_CACHE_TIMEOUT)%Z)]>
                      (invalidate_user_cache cache1 5))).
Proof.
  intros u d key cache1.
  apply (user_profile_stale_until_invalidated UserProofs.media UserProofs.iso
           ∅ {[5 := u]} 5 u anna_profile 1000%Z); reflexivity.
Defined.

Lemma deleted_user_is_forgotten_witness :
  let u := mkCustomUser 5 "anna@example.org" "anna" "Anna" "" true "" 3 100 true
                        (Some anna_profile) in
  let cache : Cache := {[cache_key 5 := [("username", VStr "anna")]]} in
  let tcache : TimedCache :=
    {[cache_key 5 := ([("username", VStr "anna")], 2800%Z);
      user_profile_key 5 := ([("username", VStr "anna")], 2800%Z)]} in
  let cache' := (delete_user cache {[5 := u]} 5).1 in
  let tcache' := (delete_user tcache {[5 := u]} 5).1 in
  let tbl' := (delete_user cache {[5 := u]} 5).2 in
  get_public_profile UserProofs.media UserProofs.iso cache' tbl' 5 = Ok (None, cache') /\
  get_public_profile UserProofs.media UserProofs.iso (live 1500 tcache') tbl' 5
  = Ok (None, live 1500 tcache') /\
  get_user_profile UserProofs.media UserProofs.iso tcache' tbl' 5 1500
  = Ok (None, tcache').
Proof.
  intros u cache tcache.
  apply (deleted_user_is_forgotten UserProofs.media UserProofs.iso cache tcache
           {[5 := u]} 5 u 1500%Z);
    reflexivity.
Defined.

End UserOpsProofs.
